(** * mlprodict: the shape algebra of [onnxrt/shape_object.py] and two
    kernels of [onnxrt/ops_cpu], embedded over an explicit Python heap.

    Python objects are mutable and compared by identity unless their class
    says otherwise, so the embedding keeps a heap of objects addressed by
    [id()]. Methods that only read are functions of the heap; methods that
    allocate or write are computations in the monad [M] (heap passing with
    exceptions). Recursive methods take a [fuel] argument that bounds the
    depth of nested method calls, the way the interpreter's recursion limit
    does; running out of it raises [RecursionError]. *)

From Stdlib Require Import ZArith String HexString DecimalString QArith.
From stdpp Require Import base list sorting gmap strings.

Local Open Scope string_scope.
Local Open Scope nat_scope.

(** ** Exceptions and results *)

(** The exceptions the embedded code raises. [SystemError] marks a state no
    sequence of method calls produces: a reference outside the heap, or a
    private attribute holding what the class's constructor rejects. *)
Inductive exn : Set :=
  | TypeError | ValueError | RuntimeError | IndexError | AttributeError
  | NotImplementedError | RecursionError | ZeroDivisionError | SystemError.

Inductive result (A : Type) : Type :=
  | Ok (a : A)
  | Raise (e : exn).
Arguments Ok {A} a.
Arguments Raise {A} e.

Definition rbind {A B} (r : result A) (k : A -> result B) : result B :=
  match r with
  | Ok a => k a
  | Raise e => Raise e
  end.

Notation "'let*' x ':=' e 'in' k" := (rbind e (fun x => k))
  (at level 10, x name, e at level 200, k at level 200, only parsing).

(** ** Values, objects, heap *)

Abbreviation addr := nat.

(** A Python value as the code handles them: [None], an [int], a [str], or
    a reference to an object. *)
Inductive pyval : Set :=
  | PNone
  | PInt (z : Z)
  | PStr (s : string)
  | PRef (a : addr).

(** The three concrete operators: [ShapeOperatorAdd], [ShapeOperatorMul],
    [ShapeOperatorMax]. The kind fixes [_name], [_fct] and [_fct_string]. *)
Inductive opkind : Set := OpAdd | OpMul | OpMax.

Definition dtype := string.

(** Heap objects. [Foreign] is an instance of a class this module knows
    nothing about (no [_dim], no [_shape], no [evaluate], default [==]). *)
Inductive object : Set :=
  | DimensionObject (_dim : pyval)
  | ShapeOperator (k : opkind) (x y : pyval)
  | ShapeObject (_shape : option (list pyval)) (_dtype : option dtype)
                (name : option string)
  | Foreign.

(** The heap: the object at address [a] is [h !! a]; [id(o)] is its
    address. *)
Abbreviation heap := (list object).

(** What [evaluate] returns: "string or integer". *)
Inductive evalue : Set :=
  | EInt (z : Z)
  | EStr (s : string).

Definition pyval_of (v : evalue) : pyval :=
  match v with
  | EInt z => PInt z
  | EStr s => PStr s
  end.

Global Instance pyval_eq_dec : EqDecision pyval.
Proof. solve_decision. Defined.
Global Instance evalue_eq_dec : EqDecision evalue.
Proof. solve_decision. Defined.
Global Instance opkind_eq_dec : EqDecision opkind.
Proof. solve_decision. Defined.

Definition is_DimensionObject (h : heap) (v : pyval) : bool :=
  match v with
  | PRef a => match h !! a with Some (DimensionObject _) => true | _ => false end
  | _ => false
  end.

Definition is_ShapeOperator (h : heap) (v : pyval) : bool :=
  match v with
  | PRef a => match h !! a with Some (ShapeOperator _ _ _) => true | _ => false end
  | _ => false
  end.

(** ** Strings *)

(** [str(z)] for an integer. *)
Definition str_of_int (z : Z) : string := NilZero.string_of_int (Z.to_int z).

(** [str(hex(id(self)))[2:]]: the digits after ["0x"]. *)
Definition hex_id (a : addr) : string :=
  match HexString.of_N (N.of_nat a) with
  | String _ (String _ digits) => digits
  | s => s
  end.

(** ['{}'.format(v)] for a value [evaluate] returned. *)
Definition format_evalue (v : evalue) : string :=
  match v with
  | EInt z => str_of_int z
  | EStr s => s
  end.

(** ** ShapeOperator *)

Definition _name (k : opkind) : string :=
  match k with OpAdd => "+" | OpMul => "*" | OpMax => "max" end.

(** [_fct]: [lambda a, b: a + b], [lambda a, b: a * b],
    [lambda a, b: max(a, b)] on integers. *)
Definition _fct (k : opkind) (a b : Z) : Z :=
  match k with
  | OpAdd => (a + b)%Z
  | OpMul => (a * b)%Z
  | OpMax => Z.max a b
  end.

(** [_evaluate_string_]: [ShapeBinaryOperator] joins ['({})'.format(s)] with
    [_name]; [ShapeBinaryFctOperator] (max) writes [name(a,b)]. *)
Definition _evaluate_string_ (k : opkind) (a b : evalue) : string :=
  match k with
  | OpAdd | OpMul =>
      "(" ++ format_evalue a ++ ")" ++ _name k ++ "(" ++ format_evalue b ++ ")"
  | OpMax =>
      _name k ++ "(" ++ format_evalue a ++ "," ++ format_evalue b ++ ")"
  end.

(** The end of [ShapeOperator.evaluate]: [has_string] is set as soon as an
    argument evaluated to a [str]. With integer arguments [_fct] cannot
    raise [TypeError]. *)
Definition apply_operator (k : opkind) (a b : evalue) : evalue :=
  match a, b with
  | EInt x, EInt y => EInt (_fct k x y)
  | _, _ => EStr (_evaluate_string_ k a b)
  end.

(** ** evaluate

    [kwargs] binds names to the values [evaluate] documents, an integer or
    a string. *)
Fixpoint DimensionObject_evaluate (fuel : nat) (h : heap)
    (kwargs : gmap string evalue) (self : addr) {struct fuel} : result evalue :=
  match fuel with
  | O => Raise RecursionError
  | S fuel =>
    match h !! self with
    | Some (DimensionObject _dim) =>
      match _dim with
      | PInt z => Ok (EInt z)
      | PRef res =>
        match h !! res with
        | Some (DimensionObject _) => DimensionObject_evaluate fuel h kwargs res
        | Some (ShapeOperator _ _ _) => ShapeOperator_evaluate fuel h kwargs res
        | Some _ => Raise NotImplementedError
        | None => Raise SystemError
        end
      | PStr s =>
        match kwargs !! s with
        | Some res => Ok res
        | None => Ok (EStr s)
        end
      | PNone => Ok (EStr ("n" ++ hex_id self))
      end
    | _ => Raise SystemError
    end
  end
with ShapeOperator_evaluate (fuel : nat) (h : heap)
    (kwargs : gmap string evalue) (self : addr) {struct fuel} : result evalue :=
  match fuel with
  | O => Raise RecursionError
  | S fuel =>
    match h !! self with
    | Some (ShapeOperator k x y) =>
      (* [_same_(a)] is [a]: [__init__] accepted DimensionObjects only *)
      let arg (a : pyval) :=
        match a with
        | PRef p =>
          if is_DimensionObject h a then DimensionObject_evaluate fuel h kwargs p
          else Raise SystemError
        | _ => Raise SystemError
        end in
      let* vx := arg x in
      let* vy := arg y in
      Ok (apply_operator k vx vy)
    | _ => Raise SystemError
    end
  end.

(** ** Equality

    [rich_eq] is Python's [a == b]: the left operand's [__eq__], then the
    right operand's when the left one returns [NotImplemented], then
    identity. [dim_eq] and [shape_eq] are the two [__eq__] methods defined
    in the module; [None], [int], [str] and [object] return
    [NotImplemented] for an operand of another type. *)
Definition rich_eq (dim_eq shape_eq : addr -> pyval -> result bool)
    (h : heap) (a b : pyval) : result bool :=
  let reflected :=
    match b with
    | PRef pb =>
      match h !! pb with
      | Some (DimensionObject _) => dim_eq pb a
      | Some (ShapeObject _ _ _) => shape_eq pb a
      | Some _ => Ok false
      | None => Raise SystemError
      end
    | _ => Ok false
    end in
  match a with
  | PNone => match b with PNone => Ok true | _ => reflected end
  | PInt x => match b with PInt y => Ok (bool_decide (x = y)) | _ => reflected end
  | PStr s => match b with PStr t => Ok (bool_decide (s = t)) | _ => reflected end
  | PRef pa =>
    match h !! pa with
    | Some (DimensionObject _) => dim_eq pa b
    | Some (ShapeObject _ _ _) => shape_eq pa b
    | Some _ => if bool_decide (b = PRef pa) then Ok true else reflected
    | None => Raise SystemError
    end
  end.

(** The loop of [ShapeObject.__eq__] over [zip(self, a)]: the first pair
    that is not equal returns [False]. *)
Fixpoint zip_all_eq (eq : pyval -> pyval -> result bool)
    (l1 l2 : list pyval) : result bool :=
  match l1, l2 with
  | d1 :: l1, d2 :: l2 =>
    let* b := eq d1 d2 in
    if b then zip_all_eq eq l1 l2 else Ok false
  | _, _ => Ok true
  end.

Fixpoint DimensionObject__eq__ (fuel : nat) (h : heap) (self : addr)
    (v : pyval) {struct fuel} : result bool :=
  match fuel with
  | O => Raise RecursionError
  | S fuel =>
    let py_eq := rich_eq (DimensionObject__eq__ fuel h) (ShapeObject__eq__ fuel h) h in
    match h !! self with
    | Some (DimensionObject _dim) =>
      match v with
      | PInt _ | PStr _ => py_eq _dim v
      | PRef pv =>
        match h !! pv with
        | Some (DimensionObject _) => py_eq v _dim
        | Some (ShapeOperator _ _ _) =>
          let* ve := ShapeOperator_evaluate fuel h ∅ pv in
          py_eq (pyval_of ve) _dim
        | Some _ => Raise TypeError
        | None => Raise SystemError
        end
      | PNone => Ok (bool_decide (_dim = PNone))
      end
    | _ => Raise SystemError
    end
  end
with ShapeObject__eq__ (fuel : nat) (h : heap) (self : addr)
    (a : pyval) {struct fuel} : result bool :=
  match fuel with
  | O => Raise RecursionError
  | S fuel =>
    let py_eq := rich_eq (DimensionObject__eq__ fuel h) (ShapeObject__eq__ fuel h) h in
    match h !! self with
    | Some (ShapeObject self_shape _ _) =>
      (* a tuple is converted first; a [pyval] is never a tuple, see
         [ShapeObject__eq__tuple] *)
      match a with
      | PRef pa =>
        match h !! pa with
        | Some (ShapeObject a_shape _ _) =>
          match self_shape, a_shape with
          | None, None => Ok true
          | None, Some _ | Some _, None => Ok false
          | Some l1, Some l2 =>
            if bool_decide (length l1 ≠ length l2) then Ok false
            else zip_all_eq py_eq l1 l2
          end
        | Some _ => Raise AttributeError
        | None => Raise SystemError
        end
      | _ => Raise AttributeError
      end
    | _ => Raise SystemError
    end
  end.

(** [a == b] with [fuel] nested method calls allowed. *)
Definition py_eq (fuel : nat) (h : heap) (a b : pyval) : result bool :=
  rich_eq (DimensionObject__eq__ fuel h) (ShapeObject__eq__ fuel h) h a b.

(** ** The heap monad *)

Definition M (A : Type) : Type := heap -> result (A * heap).

Definition ret {A} (a : A) : M A := fun h => Ok (a, h).

Definition bind {A B} (m : M A) (k : A -> M B) : M B :=
  fun h =>
    match m h with
    | Ok (a, h') => k a h'
    | Raise e => Raise e
    end.

Definition raise {A} (e : exn) : M A := fun _ => Raise e.

(** A method that only reads the heap. *)
Definition read {A} (f : heap -> result A) : M A :=
  fun h =>
    match f h with
    | Ok a => Ok (a, h)
    | Raise e => Raise e
    end.

(** A new object; its address is fresh. *)
Definition alloc (o : object) : M addr := fun h => Ok (length h, (h ++ [o])%list).

(** An attribute write on the object at [a]. *)
Definition store (a : addr) (o : object) : M unit :=
  fun h => Ok (tt, <[a := o]> h).

Notation "'let!' x ':=' e 'in' k" := (bind e (fun x => k))
  (at level 10, x name, e at level 200, k at level 200, only parsing).

Fixpoint forM {A B} (f : A -> M B) (l : list A) : M (list B) :=
  match l with
  | [] => ret []
  | a :: l =>
    let! b := f a in
    let! bs := forM f l in
    ret (b :: bs)
  end.

(** ** DimensionObject *)

(** [DimensionObject(obj)]. The three tests of the first [if] run left to
    right and stop at the first true one. *)
Definition DimensionObject__init__ (fuel : nat) (obj : pyval) : M addr :=
  let! unknown := read (fun h =>
    match obj with
    | PNone => Ok true
    | _ =>
      let* zero := py_eq fuel h obj (PInt 0) in
      if zero then Ok true else py_eq fuel h obj (PStr "?")
    end) in
  if unknown then alloc (DimensionObject PNone)
  else
    let! known := read (fun h =>
      Ok (match obj with
          | PInt _ | PStr _ => true
          | _ => is_ShapeOperator h obj || is_DimensionObject h obj
          end)) in
    if known then alloc (DimensionObject obj) else raise TypeError.

(** [DimensionObject._same_(obj)]. *)
Definition DimensionObject_same_ (fuel : nat) (obj : pyval) : M addr :=
  let! same := read (fun h => Ok (is_DimensionObject h obj)) in
  match same, obj with
  | true, PRef a => ret a
  | _, _ => DimensionObject__init__ fuel obj
  end.

(** [ShapeOperatorAdd(x, y)], [ShapeOperatorMul(x, y)],
    [ShapeOperatorMax(x, y)]: [ShapeOperator.__init__] stores the arguments
    and rejects any that is not a DimensionObject; a DimensionObject is not
    a tuple, so the two tests of [ShapeBinaryOperator.__init__] pass. *)
Definition ShapeOperator__init__ (k : opkind) (x y : pyval) : M addr :=
  let! self := alloc (ShapeOperator k x y) in
  let! checked := read (fun h =>
    Ok (is_DimensionObject h x && is_DimensionObject h y)) in
  if checked then ret self else raise TypeError.

(** [self + obj] *)
Definition DimensionObject__add__ (fuel : nat) (self : addr) (obj : pyval) : M addr :=
  let! y := DimensionObject_same_ fuel obj in
  let! op := ShapeOperator__init__ OpAdd (PRef self) (PRef y) in
  DimensionObject__init__ fuel (PRef op).

(** [self * obj] *)
Definition DimensionObject__mul__ (fuel : nat) (self : addr) (obj : pyval) : M addr :=
  let! y := DimensionObject_same_ fuel obj in
  let! op := ShapeOperator__init__ OpMul (PRef self) (PRef y) in
  DimensionObject__init__ fuel (PRef op).

Definition evalue_eqb (a b : evalue) : bool := bool_decide (a = b).

(** [self > obj]. Every path reads [obj._dim] unless [obj] is [None], so an
    [obj] that is no DimensionObject raises [AttributeError]. *)
Definition DimensionObject__gt__ (fuel : nat) (h : heap) (self : addr)
    (obj : pyval) : result bool :=
  match h !! self with
  | Some (DimensionObject self_dim) =>
    match obj with
    | PNone => Ok (match self_dim with PInt _ => false | _ => true end)
    | PRef po =>
      match h !! po with
      | Some (DimensionObject obj_dim) =>
        match self_dim, obj_dim with
        | PInt a, PInt b => Ok (bool_decide (a > b)%Z)
        | PInt _, PNone => Ok false
        | PNone, PInt _ => Ok true
        | PInt _, PStr _ => Ok false
        | PStr _, PInt _ => Ok true
        | _, _ =>
          let* same := py_eq fuel h self_dim obj_dim in
          if same then Ok false
          else
            let* ev1 := DimensionObject_evaluate fuel h ∅ self in
            let* ev2 := DimensionObject_evaluate fuel h ∅ po in
            if evalue_eqb ev1 ev2 then Ok false
            else
              match ev1, ev2 with
              | EInt a, EInt b => Ok (bool_decide (a > b)%Z)
              | _, _ => Raise RuntimeError
              end
        end
      | Some _ => Raise AttributeError
      | None => Raise SystemError
      end
    | _ => Raise AttributeError
    end
  | _ => Raise SystemError
  end.

(** ** Python lists indexed by an [int] *)

(** The position [l[i]] denotes: a negative index counts from the end;
    [None] when Python raises [IndexError]. *)
Definition py_index {A} (l : list A) (i : Z) : option nat :=
  let len := Z.of_nat (length l) in
  if bool_decide (0 <= i)%Z then
    if bool_decide (i < len)%Z then Some (Z.to_nat i) else None
  else
    if bool_decide (0 <= len + i)%Z then Some (Z.to_nat (len + i)) else None.

(** [l[i]] *)
Definition list_getitem {A} (l : list A) (i : Z) : result A :=
  match py_index l i with
  | Some n => match l !! n with Some x => Ok x | None => Raise IndexError end
  | None => Raise IndexError
  end.

(** [l[i] = v] *)
Definition list_setitem {A} (l : list A) (i : Z) (v : A) : result (list A) :=
  match py_index l i with
  | Some n => Ok (<[n := v]> l)
  | None => Raise IndexError
  end.

(** [del l[i]] *)
Definition list_delitem {A} (l : list A) (i : Z) : result (list A) :=
  match py_index l i with
  | Some n => Ok (delete n l)
  | None => Raise IndexError
  end.

(** ** ShapeObject *)

(** What the constructor is given as [shape]: a [numpy.ndarray] (its
    [.shape] and [.dtype]), a dict with a ['type'] entry (its ['kind'],
    ['shape'] and ['elem']), a tuple or list, [None], or anything else. *)
Inductive shape_arg : Set :=
  | ShNdarray (shape : list Z) (dt : dtype)
  | ShDict (kind : string) (shape : list pyval) (elem : option dtype)
  | ShSeq (l : list pyval)
  | ShNone
  | ShOther.

(** [x or y] on names: [None] and the empty string are false. *)
Definition name_or (x y : option string) : option string :=
  match x with
  | Some "" | None => y
  | Some _ => x
  end.

(** ["{}".format(self.name)] *)
Definition format_name (name : option string) : string :=
  match name with
  | Some s => s
  | None => "None"
  end.

Definition new_dims (fuel : nat) (l : list pyval) : M (list pyval) :=
  let! ds := forM (DimensionObject__init__ fuel) l in
  ret (PRef <$> ds).

(** [ShapeObject(shape, dtype, use_n1, name)]. The object itself is
    allocated last: addresses only need to be fresh. *)
Definition ShapeObject__init__ (fuel : nat) (shape : shape_arg)
    (dtype : option dtype) (use_n1 : bool) (name : option string) : M addr :=
  let! fields :=
    match shape with
    | ShNdarray sh dt =>
      let! ds := new_dims fuel (PInt <$> sh) in
      ret (Some ds, Some dt)
    | ShDict kind tshape elem =>
      if bool_decide (kind = "tensor") then
        let! unknown := read (fun h =>
          match tshape with
          | [x] => py_eq fuel h x (PStr "?")
          | _ => Ok false
          end) in
        if (unknown : bool) then ret (None, elem)
        else
          let! ds := new_dims fuel tshape in
          ret (Some ds, elem)
      else if bool_decide (kind = "map") then ret (Some [], Some "map")
      else raise ValueError
    | ShSeq l =>
      let! ds := new_dims fuel l in
      ret (Some ds, dtype)
    | ShNone => ret (None, dtype)
    | ShOther => raise TypeError
    end in
  match fields with
  | (_, None) => raise ValueError
  | (_shape, Some dt) =>
    let! _ :=
      match _shape with
      | None => ret tt
      | Some ds =>
        let! dims_ok := read (fun h => Ok (forallb (is_DimensionObject h) ds)) in
        if (dims_ok : bool) then
          if use_n1 then
            match ds with
            | PRef sh :: _ =>
              let! first := read (fun h => Ok (h !! sh)) in
              match first with
              | Some (DimensionObject PNone) => store sh (DimensionObject (PStr "n"))
              | _ => ret tt
              end
            | _ => ret tt
            end
          else ret tt
        else raise TypeError
      end in
    alloc (ShapeObject _shape (Some dt) name)
  end.

(** The attributes of the ShapeObject at [self]. *)
Definition get_shape (self : addr) : M (option (list pyval) * option dtype * option string) :=
  read (fun h =>
    match h !! self with
    | Some (ShapeObject sh dt nm) => Ok (sh, dt, nm)
    | Some _ => Raise AttributeError
    | None => Raise SystemError
    end).

(** [self.copy(dtype, name)] *)
Definition ShapeObject_copy (fuel : nat) (self : addr) (dtype : option dtype)
    (name : option string) : M addr :=
  let! s := get_shape self in
  match s with
  | (None, self_dtype, self_name) =>
    ShapeObject__init__ fuel ShNone self_dtype false (name_or name self_name)
  | (Some l, self_dtype, self_name) =>
    ShapeObject__init__ fuel (ShSeq l)
      (match dtype with None => self_dtype | Some _ => dtype end)
      false (name_or name self_name)
  end.

(** [len(self)] *)
Definition ShapeObject__len__ (h : heap) (self : addr) : result nat :=
  match h !! self with
  | Some (ShapeObject None _ _) => Ok 0
  | Some (ShapeObject (Some l) _ _) => Ok (length l)
  | Some _ => Raise AttributeError
  | None => Raise SystemError
  end.

(** [self[index]] *)
Definition ShapeObject__getitem__ (h : heap) (self : addr) (index : Z) : result pyval :=
  match h !! self with
  | Some (ShapeObject None _ _) => Ok PNone
  | Some (ShapeObject (Some l) _ _) =>
    if bool_decide (index >= Z.of_nat (length l))%Z then Ok (PInt 1)
    else list_getitem l index
  | Some _ => Raise AttributeError
  | None => Raise SystemError
  end.

(** The [while] loop of [__setitem__]: one [append(DimensionObject(1))] for
    each of the [n] missing positions. *)
Fixpoint append_ones (fuel : nat) (n : nat) (l : list pyval) : M (list pyval) :=
  match n with
  | O => ret l
  | S n =>
    let! d := DimensionObject__init__ fuel (PInt 1) in
    append_ones fuel n (l ++ [PRef d])%list
  end.

(** [self[index] = value] *)
Definition ShapeObject__setitem__ (fuel : nat) (self : addr) (index : Z)
    (value : pyval) : M unit :=
  let! s := get_shape self in
  match s with
  | (None, _, _) => ret tt
  | (Some l, dt, nm) =>
    let! l1 := append_ones fuel (Z.to_nat (index + 1 - Z.of_nat (length l))) l in
    match list_setitem l1 index value with
    | Ok l2 => store self (ShapeObject (Some l2) dt nm)
    | Raise e => raise e
    end
  end.

(** [self.reduce(axis, keepdims, dtype)] *)
Definition ShapeObject_reduce (fuel : nat) (self : addr) (axis : Z)
    (keepdims : bool) (dtype : option dtype) : M addr :=
  let! s := get_shape self in
  match s with
  | (None, _, None) => ShapeObject_copy fuel self None None
  | (None, _, Some nm) => ShapeObject_copy fuel self None (Some (nm ++ "-RD"))
  | (Some l, self_dtype, nm) =>
    if bool_decide (0 <= axis < Z.of_nat (length l))%Z then
      let! cp :=
        if keepdims then
          let! one := DimensionObject__init__ fuel (PInt 1) in
          ret (<[Z.to_nat axis := PRef one]> l)
        else ret (delete (Z.to_nat axis) l) in
      ShapeObject__init__ fuel (ShSeq cp)
        (match dtype with None => self_dtype | Some _ => dtype end)
        false (Some (format_name nm ++ "-RD"))
    else raise IndexError
  end.

(** What [drop_axis] is given: one axis, or a tuple or list of axes. *)
Inductive axis_arg : Set :=
  | AxisInt (i : Z)
  | AxisSeq (l : list Z).

Fixpoint delitems {A} (l : list A) (axes : list Z) : result (list A) :=
  match axes with
  | [] => Ok l
  | i :: axes =>
    let* l' := list_delitem l i in
    delitems l' axes
  end.

(** [self.drop_axis(axis)] *)
Definition ShapeObject_drop_axis (self : addr) (axis : axis_arg) : M unit :=
  let! s := get_shape self in
  match s with
  | (None, _, _) => ret tt
  | (Some l, dt, nm) =>
    let deleted :=
      match axis with
      | AxisSeq axes => delitems l (merge_sort (flip Z.le) axes)
      | AxisInt i => list_delitem l i
      end in
    match deleted with
    | Ok l' => store self (ShapeObject (Some l') dt nm)
    | Raise e => raise e
    end
  end.

(** [self.squeeze(axis)] *)
Definition ShapeObject_squeeze (fuel : nat) (self : addr) (axis : axis_arg) : M addr :=
  let! s := get_shape self in
  let! cp := ShapeObject_copy fuel self None (Some (format_name (s.2) ++ "-SZ")) in
  let! _ := ShapeObject_drop_axis cp axis in
  ret cp.

(** The loop of [transpose]: position [i] of the copy receives
    [self._shape[p]], or [None] when [p >= len(self)]. *)
Fixpoint transpose_dims (l : list pyval) (perm : list Z) : result (list pyval) :=
  match perm with
  | [] => Ok []
  | p :: perm =>
    let* d := if bool_decide (p >= Z.of_nat (length l))%Z then Ok PNone
              else list_getitem l p in
    let* ds := transpose_dims l perm in
    Ok (d :: ds)
  end.

(** [self.transpose(perm)] *)
Definition ShapeObject_transpose (fuel : nat) (self : addr) (perm : list Z) : M addr :=
  let! s := get_shape self in
  match s with
  | (None, _, nm) => ShapeObject_copy fuel self None (Some (format_name nm ++ "-TR"))
  | (Some l, dt, nm) =>
    let! cp := ShapeObject__init__ fuel (ShSeq (replicate (length perm) PNone)) dt
                 false (Some (format_name nm ++ "-TR")) in
    let! c := get_shape cp in
    match transpose_dims l perm with
    | Ok ds => let! _ := store cp (ShapeObject (Some ds) (c.1.2) (c.2)) in ret cp
    | Raise e => raise e
    end
  end.

(** [v.evaluate] (with the same [kwargs]) for an element [v] of a shape, and
    [ShapeObject.evaluate]. *)
Fixpoint ShapeObject_evaluate (fuel : nat) (kwargs : gmap string evalue)
    (self : addr) {struct fuel} : M addr :=
  match fuel with
  | O => raise RecursionError
  | S fuel =>
    let element (v : pyval) : M pyval :=
      match v with
      | PRef p =>
        let! o := read (fun h => Ok (h !! p)) in
        match o with
        | Some (DimensionObject _) =>
          let! d := read (fun h => DimensionObject_evaluate fuel h kwargs p) in
          ret (pyval_of d)
        | Some (ShapeOperator _ _ _) =>
          let! d := read (fun h => ShapeOperator_evaluate fuel h kwargs p) in
          ret (pyval_of d)
        | Some (ShapeObject _ _ _) =>
          let! d := ShapeObject_evaluate fuel kwargs p in
          ret (PRef d)
        | Some Foreign => raise AttributeError
        | None => raise SystemError
        end
      | _ => raise AttributeError
      end in
    let! s := get_shape self in
    let! vs := forM element (default [] (s.1.1)) in
    ShapeObject__init__ fuel (ShSeq vs) (s.1.2) false
      (Some (format_name (s.2) ++ "-EV"))
  end.

(** [self == a] for a tuple [a]: the tuple becomes a ShapeObject of
    [self]'s element type first. *)
Definition ShapeObject__eq__tuple (fuel : nat) (self : addr) (a : list pyval) : M bool :=
  let! s := get_shape self in
  let! a' := ShapeObject__init__ fuel (ShSeq a) (s.1.2) false None in
  read (fun h => ShapeObject__eq__ fuel h self (PRef a')).

(** ** Ordering of values and of shapes *)

(** Python's [a > b]: the left operand's [__gt__], then the right operand's
    [__lt__]. DimensionObject and ShapeObject define [__gt__] only, and it
    never returns [NotImplemented]; integers compare with integers and
    strings with strings; every other pairing is a [TypeError]. *)
Definition rich_gt (dim_gt shape_gt : addr -> pyval -> result bool)
    (h : heap) (a b : pyval) : result bool :=
  match a, b with
  | PInt x, PInt y => Ok (bool_decide (x > y)%Z)
  | PStr s, PStr t => Ok (String.ltb t s)
  | PRef pa, _ =>
    match h !! pa with
    | Some (DimensionObject _) => dim_gt pa b
    | Some (ShapeObject _ _ _) => shape_gt pa b
    | Some _ => Raise TypeError
    | None => Raise SystemError
    end
  | _, _ => Raise TypeError
  end.

(** Python's [a < b]: no class here defines [__lt__], so for an object on
    the right it is the reflected [b.__gt__(a)]. *)
Definition rich_lt (dim_gt shape_gt : addr -> pyval -> result bool)
    (h : heap) (a b : pyval) : result bool :=
  match a, b with
  | PInt x, PInt y => Ok (bool_decide (x < y)%Z)
  | PStr s, PStr t => Ok (String.ltb s t)
  | _, PRef pb =>
    match h !! pb with
    | Some (DimensionObject _) => dim_gt pb a
    | Some (ShapeObject _ _ _) => shape_gt pb a
    | Some _ => Raise TypeError
    | None => Raise SystemError
    end
  | _, _ => Raise TypeError
  end.

(** The loop of [ShapeObject.__gt__] over [zip(self, a)]. *)
Fixpoint zip_gt (gt lt : pyval -> pyval -> result bool)
    (l1 l2 : list pyval) : result bool :=
  match l1, l2 with
  | d1 :: l1, d2 :: l2 =>
    let* g := gt d1 d2 in
    if g then Ok true
    else
      let* l := lt d1 d2 in
      if l then Ok false else zip_gt gt lt l1 l2
  | _, _ => Ok false
  end.

(** [self > a] for shapes; a tuple [a] is converted first, see
    [ShapeObject__gt__tuple]. *)
Fixpoint ShapeObject__gt__ (fuel : nat) (h : heap) (self : addr)
    (a : pyval) {struct fuel} : result bool :=
  match fuel with
  | O => Raise RecursionError
  | S fuel =>
    let py_gt := rich_gt (DimensionObject__gt__ fuel h) (ShapeObject__gt__ fuel h) h in
    let py_lt := rich_lt (DimensionObject__gt__ fuel h) (ShapeObject__gt__ fuel h) h in
    match h !! self with
    | Some (ShapeObject self_shape _ _) =>
      match a with
      | PRef pa =>
        match h !! pa with
        | Some (ShapeObject a_shape _ _) =>
          match self_shape, a_shape with
          | None, None => Ok false
          | None, Some _ => Ok true
          | Some _, None => Ok false
          | Some l1, Some l2 =>
            if bool_decide (length l2 < length l1) then Ok true
            else if bool_decide (length l1 < length l2) then Ok false
            else zip_gt py_gt py_lt l1 l2
          end
        | Some _ => Raise AttributeError
        | None => Raise SystemError
        end
      | _ => Raise AttributeError
      end
    | _ => Raise SystemError
    end
  end.

(** [a > b] and [a < b] with [fuel] nested method calls allowed. *)
Definition py_gt (fuel : nat) (h : heap) (a b : pyval) : result bool :=
  rich_gt (DimensionObject__gt__ fuel h) (ShapeObject__gt__ fuel h) h a b.

Definition py_lt (fuel : nat) (h : heap) (a b : pyval) : result bool :=
  rich_lt (DimensionObject__gt__ fuel h) (ShapeObject__gt__ fuel h) h a b.

(** [self > a] for a tuple [a]. *)
Definition ShapeObject__gt__tuple (fuel : nat) (self : addr) (a : list pyval) : M bool :=
  let! s := get_shape self in
  let! a' := ShapeObject__init__ fuel (ShSeq a) (s.1.2) false None in
  read (fun h => ShapeObject__gt__ fuel h self (PRef a')).

(** ** product and append *)

(** [s * n] for a string: [n] copies, none when [n <= 0]. *)
Definition str_repeat (s : string) (n : Z) : string :=
  String.concat "" (replicate (Z.to_nat n) s).

(** Python's [a * b] for the values a shape can hold: a DimensionObject has
    [__mul__] and no [__rmul__]; integers multiply; a string is repeated. *)
Definition py_mul (fuel : nat) (a b : pyval) : M pyval :=
  match a with
  | PRef pa =>
    let! o := read (fun h => Ok (h !! pa)) in
    match o with
    | Some (DimensionObject _) =>
      let! r := DimensionObject__mul__ fuel pa b in
      ret (PRef r)
    | Some _ => raise TypeError
    | None => raise SystemError
    end
  | PInt x =>
    match b with
    | PInt y => ret (PInt (x * y))
    | PStr s => ret (PStr (str_repeat s x))
    | _ => raise TypeError
    end
  | PStr s =>
    match b with
    | PInt n => ret (PStr (str_repeat s n))
    | _ => raise TypeError
    end
  | PNone => raise TypeError
  end.

(** The loop of [product]: [cl = cl * self[i]] for each [i]. *)
Fixpoint product_loop (fuel : nat) (self : addr) (indices : list nat)
    (cl : pyval) : M pyval :=
  match indices with
  | [] => ret cl
  | i :: indices =>
    let! x := read (fun h => ShapeObject__getitem__ h self (Z.of_nat i)) in
    let! cl' := py_mul fuel cl x in
    product_loop fuel self indices cl'
  end.

(** [self.product()] *)
Definition ShapeObject_product (fuel : nat) (self : addr) : M pyval :=
  let! cl := read (fun h => ShapeObject__getitem__ h self 0) in
  let! n := read (fun h => ShapeObject__len__ h self) in
  product_loop fuel self (seq 1 (n - 1)) cl.

(** [self.append(dim)] *)
Definition ShapeObject_append (fuel : nat) (self : addr) (dim : pyval) : M unit :=
  let! s := get_shape self in
  match s with
  | (None, _, _) => ret tt
  | (Some l, dt, nm) =>
    let! is_dim := read (fun h => Ok (is_DimensionObject h dim)) in
    if (is_dim : bool) then store self (ShapeObject (Some (l ++ [dim])%list) dt nm)
    else
      let! d := DimensionObject__init__ fuel dim in
      store self (ShapeObject (Some (l ++ [PRef d])%list) dt nm)
  end.

(** ** to_string *)

(** [DimensionObject.to_string] when [_dim] is an [int], a [str] or
    [None]. *)
Definition to_string_leaf (_dim : pyval) (use_x : bool) : option string :=
  match _dim with
  | PInt z => Some (str_of_int z)
  | PStr s => Some s
  | PNone => Some (if use_x then "x" else "?")
  | PRef _ => None
  end.

(** [DimensionObject(obj).to_string()] for the [obj] an operator builds. *)
Definition temporary_to_string (fuel : nat) (obj : pyval) : M string :=
  let! d := DimensionObject__init__ fuel obj in
  let! o := read (fun h => Ok (h !! d)) in
  match o with
  | Some (DimensionObject _dim) =>
    match to_string_leaf _dim true with
    | Some s => ret s
    | None => raise NotImplementedError
    end
  | _ => raise SystemError
  end.

(** [ShapeBinaryOperator.to_string] ([+], [*]) and
    [ShapeBinaryFctOperator.to_string] ([max]). *)
Definition ShapeOperator_to_string (fuel : nat) (self : addr) (use_x : bool) : M string :=
  let! o := read (fun h => Ok (h !! self)) in
  match o with
  | Some (ShapeOperator k (PRef px) (PRef py)) =>
    let! ox := read (fun h => Ok (h !! px)) in
    let! oy := read (fun h => Ok (h !! py)) in
    match ox, oy with
    | Some (DimensionObject xd), Some (DimensionObject yd) =>
      let infix (a b : string) :=
        match k with
        | OpAdd | OpMul => a ++ _name k ++ b
        | OpMax => _name k ++ "(" ++ a ++ "," ++ b ++ ")"
        end in
      match xd, yd with
      | PInt x, PInt y => temporary_to_string fuel (PInt (_fct k x y))
      | PInt x, PStr t => temporary_to_string fuel (PStr (infix (str_of_int x) t))
      | PInt x, PNone =>
        temporary_to_string fuel
          (PStr (infix (str_of_int x) (if use_x then "x" else "DimensionObject()")))
      | PInt _, PRef _ => raise TypeError
      | PStr s, PInt y => temporary_to_string fuel (PStr (infix s (str_of_int y)))
      | PStr s, PStr t =>
        temporary_to_string fuel
          (PStr (match k with
                 | OpAdd | OpMul => "(" ++ s ++ ")" ++ _name k ++ "(" ++ t ++ ")"
                 | OpMax => infix s t
                 end))
      | PStr _, _ => raise TypeError
      | _, _ => raise TypeError
      end
    | _, _ => raise SystemError
    end
  | _ => raise SystemError
  end.

(** [DimensionObject.to_string(use_x)]; an operator is printed with its
    default [use_x=True]. *)
Definition DimensionObject_to_string (fuel : nat) (self : addr) (use_x : bool) : M string :=
  let! o := read (fun h => Ok (h !! self)) in
  match o with
  | Some (DimensionObject _dim) =>
    match _dim with
    | PRef p =>
      let! is_op := read (fun h => Ok (is_ShapeOperator h _dim)) in
      if (is_op : bool) then ShapeOperator_to_string fuel p true
      else raise NotImplementedError
    | _ =>
      match to_string_leaf _dim use_x with
      | Some s => ret s
      | None => raise NotImplementedError
      end
    end
  | _ => raise SystemError
  end.

(** [ShapeObject.to_string(use_x)]: iterating [self._shape] raises
    [TypeError] when it is [None]. *)
Fixpoint ShapeObject_to_string (fuel : nat) (self : addr) (use_x : bool)
    {struct fuel} : M string :=
  match fuel with
  | O => raise RecursionError
  | S fuel =>
    let element (a : pyval) : M string :=
      match a with
      | PRef p =>
        let! o := read (fun h => Ok (h !! p)) in
        match o with
        | Some (DimensionObject _) => DimensionObject_to_string fuel p use_x
        | Some (ShapeOperator _ _ _) => ShapeOperator_to_string fuel p use_x
        | Some (ShapeObject _ _ _) => ShapeObject_to_string fuel p use_x
        | Some Foreign => raise AttributeError
        | None => raise SystemError
        end
      | _ => raise AttributeError
      end in
    let! s := get_shape self in
    match s.1.1 with
    | None => raise TypeError
    | Some l =>
      let! shapes := forM element l in
      ret ("(" ++ String.concat ", " shapes ++ ")")
    end
  end.

(** ** Kernels of [onnxrt/ops_cpu]

    Tensor elements are exact rationals: every finite float is one, and
    the rounding of float32 arithmetic is outside the model. *)

(** *** LabelEncoder *)

(** An element of a 1-D array: a float, an int64 or a string. *)
Inductive scalar : Set :=
  | SFloat (q : Q)
  | SInt (z : Z)
  | SStr (s : string).

(** Equality of dict keys: numbers compare by value across int and float,
    a string only equals the same string. *)
Definition scalar_eqb (a b : scalar) : bool :=
  match a, b with
  | SStr s, SStr t => bool_decide (s = t)
  | SStr _, _ | _, SStr _ => false
  | SFloat p, SFloat q => Qeq_bool p q
  | SFloat p, SInt z => Qeq_bool p (inject_Z z)
  | SInt z, SFloat q => Qeq_bool (inject_Z z) q
  | SInt y, SInt z => bool_decide (y = z)
  end.

(** A [dict] in insertion order. *)
Definition dict := list (scalar * scalar).

(** [d[k] = v] *)
Fixpoint dict_set (d : dict) (k v : scalar) : dict :=
  match d with
  | [] => [(k, v)]
  | (k', v') :: d =>
    if scalar_eqb k' k then (k', v) :: d else (k', v') :: dict_set d k v
  end.

(** [d.get(k, default)] *)
Fixpoint dict_get (d : dict) (k : scalar) (default : scalar) : scalar :=
  match d with
  | [] => default
  | (k', v') :: d => if scalar_eqb k' k then v' else dict_get d k default
  end.

(** [{k: v for k, v in zip(keys, values)}] *)
Definition dict_of_zip (keys values : list scalar) : dict :=
  foldl (fun d kv => dict_set d kv.1 kv.2) [] (zip keys values).

(** The attributes of the kernel, [LabelEncoder.atts]. *)
Record LabelEncoder_atts : Set := {
  default_float : Q;
  default_int64 : Z;
  default_string : string;
  keys_floats : list Q;
  keys_int64s : list Z;
  keys_strings : list string;
  values_floats : list Q;
  values_int64s : list Z;
  values_strings : list string;
}.



(** What [LabelEncoder.__init__] adds to the instance. *)
Record LabelEncoder : Set := {
  classes_ : dict;
  default_ : scalar;
  dtype_ : dtype;
}.

(** [LabelEncoder.__init__] after [OpRun.__init__]; [has_classes_strings]
    is [hasattr(self, 'classes_strings')]. *)
Definition LabelEncoder__init__ (atts : LabelEncoder_atts)
    (has_classes_strings : bool) : result LabelEncoder :=
  if bool_decide (0 < length (keys_floats atts)) then
    Ok {| classes_ := dict_of_zip (SFloat <$> keys_floats atts)
                                  (SFloat <$> values_floats atts);
          default_ := SFloat (default_float atts);
          dtype_ := "float32" |}
  else if bool_decide (0 < length (keys_int64s atts)) then
    Ok {| classes_ := dict_of_zip (SInt <$> keys_int64s atts)
                                  (SInt <$> values_int64s atts);
          default_ := SInt (default_int64 atts);
          dtype_ := "int64" |}
  else if bool_decide (0 < length (keys_strings atts)) then
    Ok {| classes_ := dict_of_zip (SStr <$> keys_strings atts)
                                  (SStr <$> values_strings atts);
          default_ := SStr (default_string atts);
          dtype_ := "str" |}
  else if has_classes_strings then Raise RuntimeError
  else Raise RuntimeError.

(** [LabelEncoder._run(x)] on a 1-D array [x]: the values stored in [res].
    The conversion numpy applies when it stores into an array of [dtype_]
    is not modelled; table values and default already have that type. *)
Definition LabelEncoder_run (self : LabelEncoder) (x : list scalar) : list scalar :=
  (fun xi => dict_get (classes_ self) xi (default_ self)) <$> x.

(** *** LinearRegressor *)

(** An input array: 1-D, or 2-D with [cols] columns. *)
Inductive tensor : Set :=
  | Vec (v : list Q)
  | Mat (cols : nat) (rows : list (list Q)).

(** The attributes after [OpRunUnaryNum.__init__]: [LinearRegressor.atts]
    with the node's values; [None] is the declared default of
    [coefficients] and [intercepts]. *)
Record LinearRegressor_atts : Set := {
  coefficients : option (list Q);
  intercepts : option (list Q);
  targets : Z;
  post_transform : string;
}.

(** The instance after [__init__]: [coefficients] is now the matrix
    [reshape(targets, n).T], of [n] rows and [targets] columns. *)
Record LinearRegressor : Set := {
  coefficients_T : list (list Q);
  n_features : nat;
  n_targets : nat;
  self_intercepts : option (list Q);
  self_post_transform : string;
}.

(** [flat.reshape(targets, n).T]: entry [(j, t)] is [flat[t * n + j]]. *)
Definition reshape_T (flat : list Q) (targets n : nat) : list (list Q) :=
  (fun j => (fun t => default 0%Q (flat !! (t * n + j))) <$> seq 0 targets) <$> seq 0 n.

(** [LinearRegressor.__init__] after the base class filled the attributes.
    [//] by zero raises; [reshape] raises when a size is negative or the
    sizes do not multiply to the length. *)
Definition LinearRegressor__init__ (atts : LinearRegressor_atts) : result LinearRegressor :=
  match coefficients atts with
  | None => Raise TypeError
  | Some flat =>
    if bool_decide (targets atts = 0)%Z then Raise ZeroDivisionError
    else
      let n := (Z.of_nat (length flat) `div` targets atts)%Z in
      if bool_decide (0 < targets atts /\ targets atts * n = Z.of_nat (length flat))%Z then
        Ok {| coefficients_T := reshape_T flat (Z.to_nat (targets atts)) (Z.to_nat n);
              n_features := Z.to_nat n;
              n_targets := Z.to_nat (targets atts);
              self_intercepts := intercepts atts;
              self_post_transform := post_transform atts |}
      else Raise ValueError
  end.

(** One row of [numpy.dot(x, coefficients)]. *)
Definition dot_row (row : list Q) (m : list (list Q)) (targets : nat) : list Q :=
  (fun t => foldl Qplus 0%Q
     (zip_with (fun xj cj => Qmult xj (default 0%Q (cj !! t))) row m)) <$> seq 0 targets.

(** [numpy.dot(x, self.coefficients)]: the inner sizes must agree. *)
Definition dot (self : LinearRegressor) (x : tensor) : result tensor :=
  match x with
  | Vec v =>
    if bool_decide (length v = n_features self) then
      Ok (Vec (dot_row v (coefficients_T self) (n_targets self)))
    else Raise ValueError
  | Mat cols rows =>
    if bool_decide (cols = n_features self /\ Forall (fun r => length r = cols) rows) then
      Ok (Mat (n_targets self)
              ((fun r => dot_row r (coefficients_T self) (n_targets self)) <$> rows))
    else Raise ValueError
  end.

(** [score += intercepts]: the intercepts broadcast over the last axis when
    there is one of them or one per target. *)
Definition add_intercepts (self : LinearRegressor) (score : tensor) : result tensor :=
  match self_intercepts self with
  | None => Ok score
  | Some b =>
    if bool_decide (length b = n_targets self \/ length b = 1) then
      let bt t := default 0%Q (b !! (if bool_decide (length b = 1) then 0 else t)) in
      let add_row r := imap (fun t s => Qplus s (bt t)) r in
      Ok (match score with
          | Vec v => Vec (add_row v)
          | Mat c rows => Mat c (add_row <$> rows)
          end)
    else Raise ValueError
  end.

(** The score before [post_transform] is looked at. *)
Definition LinearRegressor_score (self : LinearRegressor) (x : tensor) : result tensor :=
  let* score := dot self x in
  add_intercepts self score.

(** [LinearRegressor._run(x)]; the 1-tuple it returns is its only
    component here. *)
Definition LinearRegressor_run (self : LinearRegressor) (x : tensor) : result tensor :=
  let* score := LinearRegressor_score self x in
  if bool_decide (self_post_transform self = "NONE") then Ok score
  else Raise NotImplementedError.

(** ** Notions the statements below use *)

(** The code shared by [__add__] and [__mul__]. *)
Definition binary_operator (k : opkind) (fuel : nat) (self : addr) (obj : pyval) : M addr :=
  let! y := DimensionObject_same_ fuel obj in
  let! op := ShapeOperator__init__ k (PRef self) (PRef y) in
  DimensionObject__init__ fuel (PRef op).

(** A small heap for examples: an unknown dimension, the dimensions [5]
    and [3], and the symbolic dimension ['n']. *)
Definition example_heap : heap :=
  [DimensionObject PNone; DimensionObject (PInt 5); DimensionObject (PInt 3);
   DimensionObject (PStr "n")].

(** The names of the symbolic dimensions that occur in the object at an
    address: the free symbols of a dimension. *)
Inductive free_symbol (h : heap) : addr -> string -> Prop :=
  | free_symbol_name a s :
      h !! a = Some (DimensionObject (PStr s)) -> free_symbol h a s
  | free_symbol_nested a b s :
      h !! a = Some (DimensionObject (PRef b)) ->
      free_symbol h b s -> free_symbol h a s
  | free_symbol_left a k x y s :
      h !! a = Some (ShapeOperator k (PRef x) y) ->
      free_symbol h x s -> free_symbol h a s
  | free_symbol_right a k x y s :
      h !! a = Some (ShapeOperator k x (PRef y)) ->
      free_symbol h y s -> free_symbol h a s.

(** The binding resolves every free symbol of the object to an integer. *)
Definition resolves (kwargs : gmap string evalue) (h : heap) (a : addr) : Prop :=
  forall s, free_symbol h a s -> exists z, kwargs !! s = Some (EInt z).

(** The object is built from integer and symbolic dimensions only: no
    unknown placeholder occurs in it. *)
Inductive no_unknown (h : heap) : addr -> Prop :=
  | no_unknown_int a z :
      h !! a = Some (DimensionObject (PInt z)) -> no_unknown h a
  | no_unknown_name a s :
      h !! a = Some (DimensionObject (PStr s)) -> no_unknown h a
  | no_unknown_nested a b :
      h !! a = Some (DimensionObject (PRef b)) ->
      no_unknown h b -> no_unknown h a
  | no_unknown_operator a k x y :
      h !! a = Some (ShapeOperator k (PRef x) (PRef y)) ->
      is_DimensionObject h (PRef x) = true ->
      is_DimensionObject h (PRef y) = true ->
      no_unknown h x -> no_unknown h y -> no_unknown h a.

(** [evaluate(bind)] of [A + B] is the integer sum of [evaluate(bind)] of
    [A] and of [B]: the sum [A + B] is built, and with enough fuel the
    three evaluations return integers [za], [zb] and [za + zb]. *)
Definition evaluate_add_is_sum (kwargs : gmap string evalue) (h : heap)
    (a b : addr) : Prop :=
  exists za zb r h' n,
    (forall fuel, DimensionObject__add__ fuel a (PRef b) h = Ok (r, h')) /\
    forall m, n <= m ->
      DimensionObject_evaluate m h kwargs a = Ok (EInt za) /\
      DimensionObject_evaluate m h kwargs b = Ok (EInt zb) /\
      DimensionObject_evaluate m h' kwargs r = Ok (EInt (za + zb)).

(** A heap with shapes for examples: the dimensions [3], [4], [3], [5],
    the shapes [(3, 4)] and [(3, 5)], an unknown shape, and the shape
    [(3,)]. *)
Definition example_shapes : heap :=
  [DimensionObject (PInt 3); DimensionObject (PInt 4);
   DimensionObject (PInt 3); DimensionObject (PInt 5);
   ShapeObject (Some [PRef 0; PRef 1]) (Some "float32") (Some "X");
   ShapeObject (Some [PRef 2; PRef 3]) (Some "float32") (Some "Y");
   ShapeObject None (Some "float32") None;
   ShapeObject (Some [PRef 0]) (Some "float32") None].

(** The calls that return a shape object. *)
Inductive shape_call : Type :=
  | CallInit (shape : shape_arg) (dtype : option dtype) (use_n1 : bool)
             (name : option string)
  | CallCopy (self : addr) (dtype : option dtype) (name : option string)
  | CallReduce (self : addr) (axis : Z) (keepdims : bool) (dtype : option dtype)
  | CallSqueeze (self : addr) (axis : axis_arg)
  | CallTranspose (self : addr) (perm : list Z)
  | CallEvaluate (self : addr) (kwargs : gmap string evalue).

Definition run_call (fuel : nat) (c : shape_call) : M addr :=
  match c with
  | CallInit shape dtype use_n1 name => ShapeObject__init__ fuel shape dtype use_n1 name
  | CallCopy self dtype name => ShapeObject_copy fuel self dtype name
  | CallReduce self axis keepdims dtype => ShapeObject_reduce fuel self axis keepdims dtype
  | CallSqueeze self axis => ShapeObject_squeeze fuel self axis
  | CallTranspose self perm => ShapeObject_transpose fuel self perm
  | CallEvaluate self kwargs => ShapeObject_evaluate fuel kwargs self
  end.

(** The element type the constructor resolves from its arguments: the
    array's, the dict's ['elem'] (['map'] for a map), or the [dtype]
    argument; [None] also stands for "none was resolved". *)
Definition resolved_dtype (shape : shape_arg) (dtype_arg : option dtype) : option dtype :=
  match shape with
  | ShNdarray _ dt => Some dt
  | ShDict kind _ elem =>
    if bool_decide (kind = "tensor") then elem
    else if bool_decide (kind = "map") then Some "map" else None
  | ShSeq _ | ShNone => dtype_arg
  | ShOther => None
  end.




(** The regressor of the example: coefficients [1, 2], intercepts [1], one
    target; [post_transform] as given. *)
Definition regressor_atts (post : string) : LinearRegressor_atts :=
  {| coefficients := Some [1; 2]%Q; intercepts := Some [1%Q];
     targets := 1; post_transform := post |}.

(** A dimension or operator the constructors can have built, with a bound
    [n] on how deep it nests: [_dim] is [None], an integer other than [0],
    a string other than ['?'], or a reference to a built DimensionObject or
    ShapeOperator; the arguments of an operator are built
    DimensionObjects. *)
Inductive built (h : heap) : nat -> addr -> Prop :=
  | built_unknown n a :
      h !! a = Some (DimensionObject PNone) -> built h n a
  | built_int n a z :
      h !! a = Some (DimensionObject (PInt z)) -> z <> 0%Z -> built h n a
  | built_name n a s :
      h !! a = Some (DimensionObject (PStr s)) -> s <> "?" -> built h n a
  | built_nested n a b :
      h !! a = Some (DimensionObject (PRef b)) ->
      built h n b -> built h (S n) a
  | built_operator n a k x y :
      h !! a = Some (ShapeOperator k (PRef x) (PRef y)) ->
      is_DimensionObject h (PRef x) = true ->
      is_DimensionObject h (PRef y) = true ->
      built h n x -> built h n y -> built h (S n) a.

(** Every DimensionObject and ShapeOperator of the heap is built. *)
Definition heap_built (h : heap) : Prop :=
  forall a o, h !! a = Some o ->
    match o with
    | DimensionObject _ | ShapeOperator _ _ _ => exists n, built h n a
    | _ => True
    end.

(** The heap after [DimensionObject(5)], [DimensionObject('n')] and their
    sum. *)
Definition example_sum_heap : heap :=
  [DimensionObject (PInt 5); DimensionObject (PStr "n");
   ShapeOperator OpAdd (PRef 0) (PRef 1); DimensionObject (PRef 2)].

(** The elements of [l] are dimensions holding the integers [zs]. *)
Definition int_dims (h : heap) (l : list pyval) (zs : list Z) : Prop :=
  Forall2 (fun d z => exists a, d = PRef a /\
                                h !! a = Some (DimensionObject (PInt z))) l zs.

(** Lexicographic [>] on integer tuples, over the common prefix. *)
Fixpoint lex_gt (l1 l2 : list Z) : bool :=
  match l1, l2 with
  | x :: l1, y :: l2 =>
    if bool_decide (x > y)%Z then true
    else if bool_decide (x < y)%Z then false
    else lex_gt l1 l2
  | _, _ => false
  end.

(** The order on shapes of integer dimensions ([None]: the unknown
    shape): unknown above known, then by rank, then lexicographic. *)
Definition shape_order (s1 s2 : option (list Z)) : bool :=
  match s1, s2 with
  | None, None => false
  | None, Some _ => true
  | Some _, None => false
  | Some z1, Some z2 =>
    if bool_decide (length z2 < length z1) then true
    else if bool_decide (length z1 < length z2) then false
    else lex_gt z1 z2
  end.

(** The shape at an address stands for the integer tuple [zs], or is the
    unknown shape. *)
Definition int_shape (h : heap) (s : addr) (zs : option (list Z)) : Prop :=
  exists sh dt nm,
    h !! s = Some (ShapeObject sh dt nm) /\
    match sh, zs with
    | None, None => True
    | Some l, Some z => int_dims h l z
    | _, _ => False
    end.

(** The elements of a shape's list are references to built objects that
    nest at most [n] deep. *)
Definition built_dims (h : heap) (n : nat) (l : list pyval) : Prop :=
  Forall (fun e => exists d, e = PRef d /\ built h n d) l.

(** The elements of [l] at the positions, counted from [i], that [axes]
    does not list. *)
Fixpoint omit_from {A} (i : nat) (axes : list nat) (l : list A) : list A :=
  match l with
  | [] => []
  | x :: l =>
    if bool_decide (i ∈ axes) then omit_from (S i) axes l
    else x :: omit_from (S i) axes l
  end.

Definition omit {A} (axes : list nat) (l : list A) : list A := omit_from 0 axes l.

(** What [evaluate] returns for a dimension at [a] that holds [_dim], an
    integer, a string or [None]. *)
Definition plain_value (kwargs : gmap string evalue) (a : addr) (_dim : pyval) : evalue :=
  match _dim with
  | PInt z => EInt z
  | PStr s => default (EStr s) (kwargs !! s)
  | _ => EStr ("n" ++ hex_id a)
  end.

(** What [DimensionObject(v)] stores for an evaluated value [v]. *)
Definition dim_of_value (v : evalue) : pyval :=
  match v with
  | EInt z => if bool_decide (z = 0%Z) then PNone else PInt z
  | EStr s => if bool_decide (s = "?") then PNone else PStr s
  end.

(** The elements of [l] are the dimensions at the addresses of [ds], which
    hold the paired values: integers, strings or [None]. *)
Definition plain_dims (h : heap) (l : list pyval) (ds : list (addr * pyval)) : Prop :=
  Forall2 (fun e ad => e = PRef ad.1 /\
                       h !! ad.1 = Some (DimensionObject ad.2) /\
                       forall p, ad.2 <> PRef p) l ds.

(** A heap with the shape [('n', 2, None)]. *)
Definition example_symbolic : heap :=
  [DimensionObject (PStr "n"); DimensionObject (PInt 2); DimensionObject PNone;
   ShapeObject (Some [PRef 0; PRef 1; PRef 2]) (Some "float32") (Some "S")].

(** The text [str(z)] of the integer a dimension holds, for the elements
    of a shape that are such dimensions. *)
Definition int_text (h : heap) (e : pyval) : string :=
  match e with
  | PRef a =>
    match h !! a with
    | Some (DimensionObject (PInt z)) => str_of_int z
    | _ => ""
    end
  | _ => ""
  end.

(** The values the dimensions of a new shape hold when the constructor is
    given [use_n1]: an unknown first dimension is named ['n']. *)
Definition named_first (use_n1 : bool) (ds : list pyval) : list pyval :=
  match ds with
  | PNone :: tl => if use_n1 then PStr "n" :: tl else ds
  | _ => ds
  end.

(** The element type a scalar has. *)
Definition scalar_kind (s : scalar) : dtype :=
  match s with
  | SFloat _ => "float32"
  | SInt _ => "int64"
  | SStr _ => "str"
  end.





(** * Properties *)

Local Open Scope list_scope.

(** ** Reasoning about the heap monad *)

Lemma bind_Ok {A B} (m : M A) (k : A -> M B) h b h' :
  bind m k h = Ok (b, h') <->
  exists a h1, m h = Ok (a, h1) /\ k a h1 = Ok (b, h').
Proof.
  unfold bind. split.
  - destruct (m h) as [[a h1]|e]; [eauto | discriminate].
  - intros (a & h1 & -> & Hk). exact Hk.
Qed.

Lemma read_Ok {A} (f : heap -> result A) h a h' :
  read f h = Ok (a, h') <-> f h = Ok a /\ h' = h.
Proof.
  unfold read. split.
  - destruct (f h); intros H; inversion H; auto.
  - intros [-> ->]. reflexivity.
Qed.

Lemma lookup_alloc_old (h : heap) (o o' : object) p :
  h !! p = Some o -> (h ++ [o'])%list !! p = Some o.
Proof. intros H. by apply lookup_app_l_Some. Qed.

Lemma lookup_alloc_new (h : heap) (o : object) :
  (h ++ [o])%list !! length h = Some o.
Proof. by rewrite lookup_app_r, Nat.sub_diag. Qed.

Lemma lookup_fresh (h : heap) : h !! length h = None.
Proof. by apply lookup_ge_None_2. Qed.

(** Inverts a successful run of monadic code, one [bind] at a time. *)
Ltac inv_M :=
  repeat match goal with
  | H : bind _ _ _ = Ok _ |- _ =>
      apply bind_Ok in H; destruct H as (? & ? & ? & H)
  | H : read _ _ = Ok _ |- _ =>
      apply read_Ok in H; destruct H as [H ?]; subst
  | H : ret _ _ = Ok _ |- _ => unfold ret in H; inversion H; clear H; subst
  | H : alloc _ _ = Ok _ |- _ => unfold alloc in H; inversion H; clear H; subst
  | H : store _ _ _ = Ok _ |- _ => unfold store in H; inversion H; clear H; subst
  | H : raise _ _ = Ok _ |- _ => discriminate H
  | H : Raise _ = Ok _ |- _ => discriminate H
  | H : Ok _ = Ok _ |- _ => inversion H; clear H; subst
  end.

(** ** Unfolding the recursive methods by one call *)

Lemma DimensionObject_evaluate_S fuel (h : heap) kwargs self :
  DimensionObject_evaluate (S fuel) h kwargs self =
    match h !! self with
    | Some (DimensionObject _dim) =>
      match _dim with
      | PInt z => Ok (EInt z)
      | PRef res =>
        match h !! res with
        | Some (DimensionObject _) => DimensionObject_evaluate fuel h kwargs res
        | Some (ShapeOperator _ _ _) => ShapeOperator_evaluate fuel h kwargs res
        | Some _ => Raise NotImplementedError
        | None => Raise SystemError
        end
      | PStr s =>
        match kwargs !! s with
        | Some res => Ok res
        | None => Ok (EStr s)
        end
      | PNone => Ok (EStr ("n" ++ hex_id self))
      end
    | _ => Raise SystemError
    end.
Proof. reflexivity. Qed.

Lemma ShapeOperator_evaluate_S fuel (h : heap) kwargs self :
  ShapeOperator_evaluate (S fuel) h kwargs self =
    match h !! self with
    | Some (ShapeOperator k x y) =>
      let arg (a : pyval) :=
        match a with
        | PRef p =>
          if is_DimensionObject h a then DimensionObject_evaluate fuel h kwargs p
          else Raise SystemError
        | _ => Raise SystemError
        end in
      rbind (arg x) (fun vx => rbind (arg y) (fun vy => Ok (apply_operator k vx vy)))
    | _ => Raise SystemError
    end.
Proof. reflexivity. Qed.

Lemma DimensionObject__eq__S fuel (h : heap) self v :
  DimensionObject__eq__ (S fuel) h self v =
    match h !! self with
    | Some (DimensionObject _dim) =>
      match v with
      | PInt _ | PStr _ => py_eq fuel h _dim v
      | PRef pv =>
        match h !! pv with
        | Some (DimensionObject _) => py_eq fuel h v _dim
        | Some (ShapeOperator _ _ _) =>
          rbind (ShapeOperator_evaluate fuel h ∅ pv)
                (fun ve => py_eq fuel h (pyval_of ve) _dim)
        | Some _ => Raise TypeError
        | None => Raise SystemError
        end
      | PNone => Ok (bool_decide (_dim = PNone))
      end
    | _ => Raise SystemError
    end.
Proof. reflexivity. Qed.

Lemma ShapeObject__eq__S fuel (h : heap) self a :
  ShapeObject__eq__ (S fuel) h self a =
    match h !! self with
    | Some (ShapeObject self_shape _ _) =>
      match a with
      | PRef pa =>
        match h !! pa with
        | Some (ShapeObject a_shape _ _) =>
          match self_shape, a_shape with
          | None, None => Ok true
          | None, Some _ | Some _, None => Ok false
          | Some l1, Some l2 =>
            if bool_decide (length l1 ≠ length l2) then Ok false
            else zip_all_eq (py_eq fuel h) l1 l2
          end
        | Some _ => Raise AttributeError
        | None => Raise SystemError
        end
      | _ => Raise AttributeError
      end
    | _ => Raise SystemError
    end.
Proof. reflexivity. Qed.

Lemma py_eq_dimension fuel (h : heap) a d b :
  h !! a = Some (DimensionObject d) ->
  py_eq fuel h (PRef a) b = DimensionObject__eq__ fuel h a b.
Proof. intros Ha. unfold py_eq, rich_eq. by rewrite Ha. Qed.

Lemma DimensionObject__eq__unknowns fuel (h : heap) a b :
  h !! a = Some (DimensionObject PNone) ->
  h !! b = Some (DimensionObject PNone) ->
  DimensionObject__eq__ (S (S fuel)) h a (PRef b) = Ok true.
Proof.
  intros Ha Hb. rewrite DimensionObject__eq__S, Ha, Hb.
  rewrite (py_eq_dimension _ _ _ _ _ Hb), DimensionObject__eq__S, Hb.
  reflexivity.
Qed.

(** ** DimensionObject: construction *)

(** A ShapeOperator is neither [0] nor ['?']: [==] falls back to identity. *)
Lemma py_eq_operator_const fuel h op k x y c :
  h !! op = Some (ShapeOperator k x y) ->
  (c = PInt 0 \/ c = PStr "?") ->
  py_eq fuel h (PRef op) c = Ok false.
Proof.
  intros Hop [-> | ->]; unfold py_eq, rich_eq; rewrite Hop; reflexivity.
Qed.

Lemma DimensionObject__init__operator fuel h op k x y :
  h !! op = Some (ShapeOperator k x y) ->
  DimensionObject__init__ fuel (PRef op) h =
    Ok (length h, (h ++ [DimensionObject (PRef op)])%list).
Proof.
  intros Hop. unfold DimensionObject__init__, bind, read.
  rewrite !(py_eq_operator_const _ _ _ _ _ _ _ Hop) by auto. simpl.
  unfold is_ShapeOperator. rewrite Hop. reflexivity.
Qed.

Lemma DimensionObject__init__int fuel h z :
  DimensionObject__init__ fuel (PInt z) h =
    Ok (length h,
        (h ++ [DimensionObject (if bool_decide (z = 0%Z) then PNone else PInt z)])%list).
Proof.
  unfold DimensionObject__init__, bind, read, py_eq, rich_eq. simpl.
  destruct (bool_decide (z = 0%Z)); reflexivity.
Qed.

Lemma bind_step {A B} (m : M A) (k : A -> M B) h a h1 :
  m h = Ok (a, h1) -> bind m k h = k a h1.
Proof. intros H. unfold bind. by rewrite H. Qed.

Lemma DimensionObject_same_dim fuel h b db :
  h !! b = Some (DimensionObject db) ->
  DimensionObject_same_ fuel (PRef b) h = Ok (b, h).
Proof.
  intros Hb. unfold DimensionObject_same_, bind, read. simpl. by rewrite Hb.
Qed.

Lemma ShapeOperator__init__dims k h a b da db :
  h !! a = Some (DimensionObject da) ->
  h !! b = Some (DimensionObject db) ->
  ShapeOperator__init__ k (PRef a) (PRef b) h =
    Ok (length h, (h ++ [ShapeOperator k (PRef a) (PRef b)])%list).
Proof.
  intros Ha Hb. unfold ShapeOperator__init__, bind, alloc, read. simpl.
  by rewrite (lookup_alloc_old _ _ _ _ Ha), (lookup_alloc_old _ _ _ _ Hb).
Qed.

Lemma binary_operator_frame k fuel h a b da db :
  h !! a = Some (DimensionObject da) ->
  h !! b = Some (DimensionObject db) ->
  binary_operator k fuel a (PRef b) h =
    Ok (S (length h),
        (h ++ [ShapeOperator k (PRef a) (PRef b);
               DimensionObject (PRef (length h))])%list).
Proof.
  intros Ha Hb. unfold binary_operator.
  rewrite (bind_step _ _ _ _ _ (DimensionObject_same_dim fuel _ _ _ Hb)).
  rewrite (bind_step _ _ _ _ _ (ShapeOperator__init__dims k _ _ _ _ _ Ha Hb)).
  erewrite DimensionObject__init__operator by apply lookup_alloc_new.
  rewrite length_app. simpl. rewrite Nat.add_1_r, <- app_assoc. reflexivity.
Qed.

(** ** C1: ordering of dimensions *)

(** C1, as stated, fails: the claim says an unknown dimension is never
    reported greater than a known integer, but [__gt__] returns [True] for
    the unknown dimension against the dimension [5]. *)
Lemma C1_unknown_never_greater_counterexample :
  ~ (forall fuel (h : heap) u k z,
       h !! u = Some (DimensionObject PNone) ->
       h !! k = Some (DimensionObject (PInt z)) ->
       DimensionObject__gt__ fuel h u (PRef k) <> Ok true).
Proof.
  intros H. apply (H 1 example_heap 0 1 5%Z); reflexivity.
Qed.

(** C1, amended: for an unknown dimension [u] and known integer dimensions
    [k], [j], [u > k] is always [True] and [k > u] is always [False] (a
    known integer is never greater than an unknown), and [k > j] is the
    comparison of the two integers. *)
Theorem C1_gt_unknown_and_known fuel (h : heap) u k j z y :
  h !! u = Some (DimensionObject PNone) ->
  h !! k = Some (DimensionObject (PInt z)) ->
  h !! j = Some (DimensionObject (PInt y)) ->
  DimensionObject__gt__ fuel h u (PRef k) = Ok true /\
  DimensionObject__gt__ fuel h k (PRef u) = Ok false /\
  DimensionObject__gt__ fuel h k (PRef j) = Ok (bool_decide (z > y)%Z).
Proof.
  intros Hu Hk Hj. unfold DimensionObject__gt__.
  rewrite Hu, Hk, Hj. auto.
Qed.

Lemma C1_gt_unknown_and_known_witness :
  DimensionObject__gt__ 1 example_heap 0 (PRef 1) = Ok true /\
  DimensionObject__gt__ 1 example_heap 1 (PRef 0) = Ok false /\
  DimensionObject__gt__ 1 example_heap 1 (PRef 2) = Ok (bool_decide (5 > 3)%Z).
Proof.
  apply (C1_gt_unknown_and_known 1 example_heap 0 1 2 5 3); reflexivity.
Defined.

(** ** C8: [+] and [*] do not touch their operands *)

Lemma binary_operator_spec k fuel (h : heap) a b da db :
  h !! a = Some (DimensionObject da) ->
  h !! b = Some (DimensionObject db) ->
  exists r op h',
    binary_operator k fuel a (PRef b) h = Ok (r, h') /\
    h !! r = None /\ h !! op = None /\
    h' !! r = Some (DimensionObject (PRef op)) /\
    h' !! op = Some (ShapeOperator k (PRef a) (PRef b)) /\
    h' !! a = Some (DimensionObject da) /\
    h' !! b = Some (DimensionObject db) /\
    (forall p o, h !! p = Some o -> h' !! p = Some o).
Proof.
  intros Ha Hb.
  eexists (S (length h)), (length h), _.
  split; [exact (binary_operator_frame k fuel h a b da db Ha Hb)|].
  assert (Hold : forall p o, h !! p = Some o ->
    (h ++ [ShapeOperator k (PRef a) (PRef b);
           DimensionObject (PRef (length h))])%list !! p = Some o)
    by (intros p o Hp; by apply lookup_app_l_Some).
  repeat split; auto.
  - apply lookup_ge_None_2. lia.
  - apply lookup_fresh.
  - rewrite lookup_app_r by lia. by replace (S (length h) - length h) with 1 by lia.
  - rewrite lookup_app_r by lia. by rewrite Nat.sub_diag.
Qed.

(** C8: for dimensions [A] (at [a]) and [B] (at [b]), [A + B] and [A * B]
    each return a new object [r], a dimension whose [_dim] is a new
    operator node over the two operands (nothing is evaluated), and every
    object of the heap before the call, [A] and [B] among them, is the
    same after it. *)
Theorem C8_add_mul_leave_operands_unchanged fuel (h : heap) a b da db :
  h !! a = Some (DimensionObject da) ->
  h !! b = Some (DimensionObject db) ->
  (exists r op h',
     DimensionObject__add__ fuel a (PRef b) h = Ok (r, h') /\
     h !! r = None /\ h !! op = None /\
     h' !! r = Some (DimensionObject (PRef op)) /\
     h' !! op = Some (ShapeOperator OpAdd (PRef a) (PRef b)) /\
     h' !! a = Some (DimensionObject da) /\
     h' !! b = Some (DimensionObject db) /\
     (forall p o, h !! p = Some o -> h' !! p = Some o)) /\
  (exists r op h',
     DimensionObject__mul__ fuel a (PRef b) h = Ok (r, h') /\
     h !! r = None /\ h !! op = None /\
     h' !! r = Some (DimensionObject (PRef op)) /\
     h' !! op = Some (ShapeOperator OpMul (PRef a) (PRef b)) /\
     h' !! a = Some (DimensionObject da) /\
     h' !! b = Some (DimensionObject db) /\
     (forall p o, h !! p = Some o -> h' !! p = Some o)).
Proof.
  intros Ha Hb. split.
  - exact (binary_operator_spec OpAdd fuel h a b da db Ha Hb).
  - exact (binary_operator_spec OpMul fuel h a b da db Ha Hb).
Qed.

Lemma C8_add_mul_leave_operands_unchanged_witness :
  (exists r op h',
     DimensionObject__add__ 1 3 (PRef 1) example_heap = Ok (r, h') /\
     example_heap !! r = None /\ example_heap !! op = None /\
     h' !! r = Some (DimensionObject (PRef op)) /\
     h' !! op = Some (ShapeOperator OpAdd (PRef 3) (PRef 1)) /\
     h' !! 3 = Some (DimensionObject (PStr "n")) /\
     h' !! 1 = Some (DimensionObject (PInt 5)) /\
     (forall p o, example_heap !! p = Some o -> h' !! p = Some o)) /\
  (exists r op h',
     DimensionObject__mul__ 1 3 (PRef 1) example_heap = Ok (r, h') /\
     example_heap !! r = None /\ example_heap !! op = None /\
     h' !! r = Some (DimensionObject (PRef op)) /\
     h' !! op = Some (ShapeOperator OpMul (PRef 3) (PRef 1)) /\
     h' !! 3 = Some (DimensionObject (PStr "n")) /\
     h' !! 1 = Some (DimensionObject (PInt 5)) /\
     (forall p o, example_heap !! p = Some o -> h' !! p = Some o)).
Proof.
  apply (C8_add_mul_leave_operands_unchanged 1 example_heap 3 1); reflexivity.
Defined.

(** ** C9: the integer [0] is the unknown dimension *)

Lemma DimensionObject__init__unknown fuel (h : heap) obj :
  obj = PNone \/ obj = PInt 0 \/ obj = PStr "?" ->
  DimensionObject__init__ fuel obj h =
    Ok (length h, (h ++ [DimensionObject PNone])%list).
Proof. intros [-> | [-> | ->]]; reflexivity. Qed.

(** C9: [DimensionObject(0)], [DimensionObject(None)] and
    [DimensionObject('?')] all store the unknown placeholder [None] in
    [_dim] (so no dimension built from [0] holds the integer [0]), and
    [DimensionObject(0) == DimensionObject(None)] is [True]. *)
Theorem C9_zero_is_the_unknown_dimension fuel (h : heap) :
  DimensionObject__init__ fuel (PInt 0) h =
    Ok (length h, (h ++ [DimensionObject PNone])%list) /\
  DimensionObject__init__ fuel PNone h =
    Ok (length h, (h ++ [DimensionObject PNone])%list) /\
  DimensionObject__init__ fuel (PStr "?") h =
    Ok (length h, (h ++ [DimensionObject PNone])%list) /\
  exists a h1 b h2,
    DimensionObject__init__ fuel (PInt 0) h = Ok (a, h1) /\
    DimensionObject__init__ fuel PNone h1 = Ok (b, h2) /\
    a <> b /\
    h2 !! a = Some (DimensionObject PNone) /\
    h2 !! b = Some (DimensionObject PNone) /\
    py_eq (S (S fuel)) h2 (PRef a) (PRef b) = Ok true /\
    DimensionObject__eq__ (S (S fuel)) h2 a (PRef b) = Ok true.
Proof.
  repeat split; try (apply DimensionObject__init__unknown; auto).
  exists (length h), (h ++ [DimensionObject PNone])%list,
         (S (length h)), (h ++ [DimensionObject PNone; DimensionObject PNone])%list.
  assert (Ha : (h ++ [DimensionObject PNone; DimensionObject PNone])%list
                 !! length h = Some (DimensionObject PNone))
    by (rewrite lookup_app_r by lia; by rewrite Nat.sub_diag).
  assert (Hb : (h ++ [DimensionObject PNone; DimensionObject PNone])%list
                 !! S (length h) = Some (DimensionObject PNone))
    by (rewrite lookup_app_r by lia;
        by replace (S (length h) - length h) with 1 by lia).
  split_and!; auto.
  - rewrite DimensionObject__init__unknown by auto.
    rewrite length_app, <- app_assoc. simpl. by rewrite Nat.add_1_r.
  - rewrite (py_eq_dimension _ _ _ _ _ Ha). by apply DimensionObject__eq__unknowns.
  - by apply DimensionObject__eq__unknowns.
Qed.

(** ** C5: [evaluate] over [+] *)

(** More fuel does not change a result. *)
Lemma evaluate_fuel_mono n :
  forall (h : heap) kwargs a v m, n <= m ->
    (DimensionObject_evaluate n h kwargs a = Ok v ->
     DimensionObject_evaluate m h kwargs a = Ok v) /\
    (ShapeOperator_evaluate n h kwargs a = Ok v ->
     ShapeOperator_evaluate m h kwargs a = Ok v).
Proof.
  induction n as [|n IH]; intros h kwargs a v m Hm.
  - split; discriminate.
  - destruct m as [|m]; [lia|]. assert (Hnm : n <= m) by lia.
    rewrite !DimensionObject_evaluate_S, !ShapeOperator_evaluate_S.
    split; intros H.
    + destruct (h !! a) as [[d| | |]|]; try discriminate.
      destruct d as [| | |res]; try assumption.
      destruct (h !! res) as [[| | |]|]; try discriminate.
      * by apply (IH h kwargs res v m Hnm).
      * by apply (IH h kwargs res v m Hnm).
    + destruct (h !! a) as [[|k x y| |]|]; try discriminate.
      cbv zeta in *.
      destruct x as [| | |px]; try discriminate.
      destruct (is_DimensionObject h (PRef px)); try discriminate.
      destruct (DimensionObject_evaluate n h kwargs px) as [vx|] eqn:Ex;
        try discriminate.
      apply (IH h kwargs px vx m Hnm) in Ex. rewrite Ex.
      simpl in *.
      destruct y as [| | |py]; try discriminate.
      destruct (is_DimensionObject h (PRef py)); try discriminate.
      destruct (DimensionObject_evaluate n h kwargs py) as [vy|] eqn:Ey;
        try discriminate.
      apply (IH h kwargs py vy m Hnm) in Ey. rewrite Ey. exact H.
Qed.

Lemma is_DimensionObject_extend (h h2 : heap) v :
  is_DimensionObject h v = true -> is_DimensionObject (h ++ h2) v = true.
Proof.
  destruct v as [| | |p]; simpl; try discriminate.
  destruct (h !! p) as [o|] eqn:Hp; [|discriminate].
  by rewrite (lookup_app_l_Some _ _ _ _ Hp).
Qed.

(** Objects allocated later do not change a result. *)
Lemma evaluate_heap_extend n :
  forall (h h2 : heap) kwargs a v,
    (DimensionObject_evaluate n h kwargs a = Ok v ->
     DimensionObject_evaluate n (h ++ h2) kwargs a = Ok v) /\
    (ShapeOperator_evaluate n h kwargs a = Ok v ->
     ShapeOperator_evaluate n (h ++ h2) kwargs a = Ok v).
Proof.
  induction n as [|n IH]; intros h h2 kwargs a v.
  - split; discriminate.
  - rewrite !DimensionObject_evaluate_S, !ShapeOperator_evaluate_S.
    split; intros H.
    + destruct (h !! a) as [o|] eqn:Ha; [|discriminate].
      rewrite (lookup_app_l_Some _ _ _ _ Ha).
      destruct o as [d| | |]; try discriminate.
      destruct d as [| | |res]; try assumption.
      destruct (h !! res) as [o|] eqn:Hres; [|discriminate].
      rewrite (lookup_app_l_Some _ _ _ _ Hres).
      destruct o; try discriminate; by apply IH.
    + destruct (h !! a) as [o|] eqn:Ha; [|discriminate].
      rewrite (lookup_app_l_Some _ _ _ _ Ha).
      destruct o as [|k x y| |]; try discriminate.
      cbv zeta in *.
      destruct x as [| | |px]; try discriminate.
      destruct (is_DimensionObject h (PRef px)) eqn:Dx; try discriminate.
      rewrite (is_DimensionObject_extend _ h2 _ Dx).
      destruct (DimensionObject_evaluate n h kwargs px) as [vx|] eqn:Ex;
        try discriminate.
      apply (IH h h2 kwargs px vx) in Ex. rewrite Ex.
      simpl in *.
      destruct y as [| | |py]; try discriminate.
      destruct (is_DimensionObject h (PRef py)) eqn:Dy; try discriminate.
      rewrite (is_DimensionObject_extend _ h2 _ Dy).
      destruct (DimensionObject_evaluate n h kwargs py) as [vy|] eqn:Ey;
        try discriminate.
      apply (IH h h2 kwargs py vy) in Ey. rewrite Ey. exact H.
Qed.

(** Without an unknown placeholder, and with every free symbol bound to an
    integer, evaluation returns an integer once the fuel covers the depth
    of the object. *)
Lemma no_unknown_evaluates kwargs (h : heap) a :
  no_unknown h a -> resolves kwargs h a ->
  exists z n, forall m, n <= m ->
    match h !! a with
    | Some (DimensionObject _) => DimensionObject_evaluate m h kwargs a = Ok (EInt z)
    | Some (ShapeOperator _ _ _) => ShapeOperator_evaluate m h kwargs a = Ok (EInt z)
    | _ => False
    end.
Proof.
  induction 1 as [a z Ha|a s Ha|a b Ha Hb IH|a k x y Ha Dx Dy Hx IHx Hy IHy];
    intros Hres.
  - exists z, 1. intros [|m] Hm; [lia|].
    by rewrite Ha, DimensionObject_evaluate_S, Ha.
  - destruct (Hres s) as [z Hz]; [by apply free_symbol_name|].
    exists z, 1. intros [|m] Hm; [lia|].
    by rewrite Ha, DimensionObject_evaluate_S, Ha, Hz.
  - destruct IH as (z & n & IH).
    { intros s Hs. apply Hres. by eapply free_symbol_nested. }
    exists z, (S n). intros [|m] Hm; [lia|].
    rewrite Ha, DimensionObject_evaluate_S, Ha.
    specialize (IH m ltac:(lia)).
    destruct (h !! b) as [[| | |]|]; done.
  - destruct IHx as (zx & nx & IHx).
    { intros s Hs. apply Hres. by eapply free_symbol_left. }
    destruct IHy as (zy & ny & IHy).
    { intros s Hs. apply Hres. by eapply free_symbol_right. }
    exists (_fct k zx zy), (S (Nat.max nx ny)). intros [|m] Hm; [lia|].
    rewrite Ha, ShapeOperator_evaluate_S, Ha. cbv beta iota zeta.
    specialize (IHx m ltac:(lia)). specialize (IHy m ltac:(lia)).
    rewrite Dx, Dy. simpl in Dx, Dy.
    destruct (h !! x) as [[| | |]|]; try discriminate.
    destruct (h !! y) as [[| | |]|]; try discriminate.
    by rewrite IHx, IHy.
Qed.

Lemma DimensionObject__add__binary fuel self obj :
  DimensionObject__add__ fuel self obj = binary_operator OpAdd fuel self obj.
Proof. reflexivity. Qed.

(** The sum of two dimensions that evaluate to integers evaluates to the
    sum of the integers. *)
Lemma evaluate_add kwargs (h : heap) a b da db za zb n :
  h !! a = Some (DimensionObject da) ->
  h !! b = Some (DimensionObject db) ->
  (forall m, n <= m -> DimensionObject_evaluate m h kwargs a = Ok (EInt za)) ->
  (forall m, n <= m -> DimensionObject_evaluate m h kwargs b = Ok (EInt zb)) ->
  let h' := (h ++ [ShapeOperator OpAdd (PRef a) (PRef b);
                   DimensionObject (PRef (length h))])%list in
  (forall fuel, DimensionObject__add__ fuel a (PRef b) h = Ok (S (length h), h')) /\
  forall m, S (S n) <= m ->
    DimensionObject_evaluate m h' kwargs (S (length h)) = Ok (EInt (za + zb)).
Proof.
  intros Ha Hb Ea Eb h'. split.
  - intros fuel. rewrite DimensionObject__add__binary.
    by eapply binary_operator_frame.
  - intros [|[|m]] Hm; [lia|lia|].
    assert (Hr : h' !! S (length h) = Some (DimensionObject (PRef (length h)))).
    { unfold h'. rewrite lookup_app_r by lia.
      by replace (S (length h) - length h) with 1 by lia. }
    assert (Hop : h' !! length h = Some (ShapeOperator OpAdd (PRef a) (PRef b))).
    { unfold h'. rewrite lookup_app_r by lia. by rewrite Nat.sub_diag. }
    assert (Ha' : h' !! a = Some (DimensionObject da)) by by apply lookup_app_l_Some.
    assert (Hb' : h' !! b = Some (DimensionObject db)) by by apply lookup_app_l_Some.
    rewrite DimensionObject_evaluate_S, Hr, Hop.
    assert (Da : is_DimensionObject h' (PRef a) = true) by (simpl; by rewrite Ha').
    assert (Db : is_DimensionObject h' (PRef b) = true) by (simpl; by rewrite Hb').
    rewrite ShapeOperator_evaluate_S, Hop. cbv beta iota zeta.
    rewrite Da, Db.
    unfold h'.
    rewrite (proj1 (evaluate_heap_extend m h _ kwargs a (EInt za)) (Ea m ltac:(lia))).
    rewrite (proj1 (evaluate_heap_extend m h _ kwargs b (EInt zb)) (Eb m ltac:(lia))).
    reflexivity.
Qed.

(** What the code returns when one operand is unknown: the unknown
    dimension at address 0 evaluates to the generated name ["n0"], and its
    sum with the dimension [5] to the string ["(n0)+(5)"]. *)
Lemma evaluate_add_unknown :
  DimensionObject_evaluate 3 example_heap ∅ 0 = Ok (EStr "n0") /\
  exists r h', DimensionObject__add__ 3 0 (PRef 1) example_heap = Ok (r, h') /\
               DimensionObject_evaluate 3 h' ∅ r = Ok (EStr "(n0)+(5)").
Proof. split; [reflexivity|]. eexists _, _. split; reflexivity. Qed.

(** C5, as stated, fails: with the unknown dimension for [A] and the
    dimension [5] for [B] there is no free symbol to resolve, so every
    binding qualifies, and yet [A] evaluates to a generated name and
    [A + B] to the string ["(n0)+(5)"], not to an integer sum. *)
Lemma C5_evaluate_add_counterexample :
  ~ (forall kwargs (h : heap) a b da db,
       h !! a = Some (DimensionObject da) ->
       h !! b = Some (DimensionObject db) ->
       resolves kwargs h a -> resolves kwargs h b ->
       evaluate_add_is_sum kwargs h a b) /\
  resolves ∅ example_heap 0 /\ resolves ∅ example_heap 1 /\
  exists r h',
    DimensionObject__add__ 3 0 (PRef 1) example_heap = Ok (r, h') /\
    DimensionObject_evaluate 3 h' ∅ r = Ok (EStr "(n0)+(5)").
Proof.
  assert (R0 : resolves ∅ example_heap 0)
    by (intros s Hs; inversion Hs; discriminate).
  assert (R1 : resolves ∅ example_heap 1)
    by (intros s Hs; inversion Hs; discriminate).
  split_and!; [|exact R0|exact R1|exact (proj2 evaluate_add_unknown)].
  intros H.
  destruct (H ∅ example_heap 0 1 PNone (PInt 5) eq_refl eq_refl R0 R1)
    as (za & zb & r & h' & n & _ & E).
  destruct (E (S n)) as [Ea _]; [lia|]. discriminate Ea.
Qed.

(** C5, amended: for dimensions [A] and [B] in which no unknown
    placeholder occurs, and every binding that resolves every free symbol
    of [A] and [B] to an integer, [A + B] evaluates under the binding to
    the integer sum of what [A] and [B] evaluate to. *)
Theorem C5_evaluate_add_is_sum kwargs (h : heap) a b da db :
  h !! a = Some (DimensionObject da) ->
  h !! b = Some (DimensionObject db) ->
  no_unknown h a -> no_unknown h b ->
  resolves kwargs h a -> resolves kwargs h b ->
  evaluate_add_is_sum kwargs h a b.
Proof.
  intros Ha Hb Ka Kb Ra Rb.
  destruct (no_unknown_evaluates kwargs h a Ka Ra) as (za & na & Ea).
  destruct (no_unknown_evaluates kwargs h b Kb Rb) as (zb & nb & Eb).
  rewrite Ha in Ea. rewrite Hb in Eb.
  destruct (evaluate_add kwargs h a b da db za zb (Nat.max na nb) Ha Hb)
    as [Hadd Esum].
  { intros m Hm. apply Ea. lia. }
  { intros m Hm. apply Eb. lia. }
  eexists za, zb, (S (length h)), _, (S (S (Nat.max na nb))).
  split; [exact Hadd|].
  intros m Hm. split_and!.
  - apply Ea. lia.
  - apply Eb. lia.
  - by apply Esum.
Qed.

Lemma example_resolves_n :
  resolves {["n" := EInt 7]} example_heap 3.
Proof.
  intros s Hs. inversion Hs as [a s' H| a b s' H| a k x y s' H| a k x y s' H];
    try discriminate H.
  injection H as <-. exists 7%Z. apply lookup_singleton_eq.
Qed.

Lemma example_resolves_5 kwargs : resolves kwargs example_heap 1.
Proof. intros s Hs. inversion Hs as [? ? H|? ? ? H|? ? ? ? ? H|? ? ? ? ? H]; discriminate H. Qed.

Lemma C5_evaluate_add_is_sum_witness :
  evaluate_add_is_sum {["n" := EInt 7]} example_heap 3 1.
Proof.
  apply (C5_evaluate_add_is_sum {["n" := EInt 7]} example_heap 3 1
           (PStr "n") (PInt 5)).
  - reflexivity.
  - reflexivity.
  - apply (no_unknown_name example_heap 3 "n"). reflexivity.
  - apply (no_unknown_int example_heap 1 5). reflexivity.
  - exact example_resolves_n.
  - exact (example_resolves_5 _).
Defined.

(** ** C2: equality of shapes *)

(** The loop stops with [False] at the first pair that is not equal; the
    pairs after it are not compared. *)
Lemma zip_all_eq_first_false (eq : pyval -> pyval -> result bool) i :
  forall (l1 l2 : list pyval) d1 d2,
    l1 !! i = Some d1 -> l2 !! i = Some d2 ->
    eq d1 d2 = Ok false ->
    (forall j e1 e2, j < i -> l1 !! j = Some e1 -> l2 !! j = Some e2 ->
                     eq e1 e2 = Ok true) ->
    zip_all_eq eq l1 l2 = Ok false.
Proof.
  induction i as [|i IH]; intros [|x1 l1] [|x2 l2] d1 d2 H1 H2 Hne Hbefore;
    try discriminate.
  - injection H1 as ->. injection H2 as ->. simpl. by rewrite Hne.
  - simpl. rewrite (Hbefore 0 x1 x2) by (lia || reflexivity). simpl.
    apply (IH l1 l2 d1 d2 H1 H2 Hne).
    intros j e1 e2 Hj. apply (Hbefore (S j)). lia.
Qed.

(** C2: [self == a] for two shapes. One unknown-shape sentinel against a
    known shape gives [False]; two sentinels give [True]; two known shapes
    of different rank give [False]; and two known shapes of equal rank
    give [False] at the first dimension pair that compares unequal,
    whatever the pairs after it are. *)
Theorem C2_shape_equality fuel (h : heap) self a sh1 dt1 nm1 sh2 dt2 nm2 :
  h !! self = Some (ShapeObject sh1 dt1 nm1) ->
  h !! a = Some (ShapeObject sh2 dt2 nm2) ->
  (sh1 = None /\ sh2 = None ->
     ShapeObject__eq__ (S fuel) h self (PRef a) = Ok true) /\
  ((sh1 = None /\ sh2 <> None) \/ (sh1 <> None /\ sh2 = None) ->
     ShapeObject__eq__ (S fuel) h self (PRef a) = Ok false) /\
  (forall l1 l2, sh1 = Some l1 -> sh2 = Some l2 -> length l1 <> length l2 ->
     ShapeObject__eq__ (S fuel) h self (PRef a) = Ok false) /\
  (forall l1 l2 i d1 d2,
     sh1 = Some l1 -> sh2 = Some l2 -> length l1 = length l2 ->
     l1 !! i = Some d1 -> l2 !! i = Some d2 ->
     py_eq fuel h d1 d2 = Ok false ->
     (forall j e1 e2, j < i -> l1 !! j = Some e1 -> l2 !! j = Some e2 ->
                      py_eq fuel h e1 e2 = Ok true) ->
     ShapeObject__eq__ (S fuel) h self (PRef a) = Ok false).
Proof.
  intros Hs Ha. rewrite ShapeObject__eq__S, Hs, Ha. split_and!.
  - by intros [-> ->].
  - intros [[-> H]|[H ->]].
    + by destruct sh2.
    + by destruct sh1.
  - intros l1 l2 -> -> Hlen. by rewrite bool_decide_eq_true_2.
  - intros l1 l2 i d1 d2 -> -> Hlen H1 H2 Hne Hbefore.
    rewrite bool_decide_eq_false_2 by (intros H; by apply H).
    by eapply zip_all_eq_first_false.
Qed.

Lemma C2_shape_equality_witness :
  ShapeObject__eq__ 3 example_shapes 4 (PRef 5) = Ok false.
Proof.
  apply (proj2 (proj2 (proj2
           (C2_shape_equality 2 example_shapes 4 5
              (Some [PRef 0; PRef 1]) (Some "float32") (Some "X")
              (Some [PRef 2; PRef 3]) (Some "float32") (Some "Y")
              eq_refl eq_refl)))
           [PRef 0; PRef 1] [PRef 2; PRef 3] 1 (PRef 1) (PRef 3));
    try reflexivity.
  intros [|j] e1 e2 Hj H1 H2; [|lia].
  injection H1 as <-. injection H2 as <-. reflexivity.
Defined.

(** The four cases of C2 on concrete shapes: [(3, 4) == (3, 5)] is decided
    by the second pair, [(3, 4) == (3,)] by the rank, and the unknown shape
    only equals itself. *)
Lemma C2_shape_equality_examples :
  ShapeObject__eq__ 3 example_shapes 4 (PRef 5) = Ok false /\
  ShapeObject__eq__ 3 example_shapes 4 (PRef 7) = Ok false /\
  ShapeObject__eq__ 3 example_shapes 6 (PRef 4) = Ok false /\
  ShapeObject__eq__ 3 example_shapes 4 (PRef 6) = Ok false /\
  ShapeObject__eq__ 3 example_shapes 6 (PRef 6) = Ok true /\
  ShapeObject__eq__ 3 example_shapes 4 (PRef 4) = Ok true.
Proof. split_and!; reflexivity. Qed.

(** ** C7: reading and writing past the end of a shape *)

Lemma get_shape_Ok (h : heap) self sh dt nm :
  h !! self = Some (ShapeObject sh dt nm) ->
  get_shape self h = Ok ((sh, dt, nm), h).
Proof. intros Hs. unfold get_shape, read. by rewrite Hs. Qed.

(** The loop allocates [n] new dimensions [1] and appends them in order. *)
Lemma append_ones_spec fuel n :
  forall (l : list pyval) (h : heap),
    append_ones fuel n l h =
      Ok ((l ++ (PRef <$> seq (length h) n))%list,
          (h ++ replicate n (DimensionObject (PInt 1)))%list).
Proof.
  induction n as [|n IH]; intros l h; simpl.
  - unfold ret. by rewrite !app_nil_r.
  - rewrite (bind_step _ _ _ _ _ (DimensionObject__init__int fuel h 1)).
    rewrite IH, length_app. simpl. rewrite Nat.add_1_r, <- !app_assoc.
    reflexivity.
Qed.

(** C7: for a shape of known rank [n = len(l)] and an index [i >= n],
    [self[i]] is the integer [1], and [self[i] = v] appends new dimensions
    equal to [1] until the list has length [i + 1], then stores [v] at
    position [i]; nothing else in the heap changes. *)
Theorem C7_index_past_the_end fuel (h : heap) self l dt nm (i : Z) v :
  h !! self = Some (ShapeObject (Some l) dt nm) ->
  (Z.of_nat (length l) <= i)%Z ->
  ShapeObject__getitem__ h self i = Ok (PInt 1) /\
  exists pad h',
    ShapeObject__setitem__ fuel self i v h = Ok (tt, h') /\
    length (l ++ pad) = Z.to_nat i + 1 /\
    Forall (fun d => exists a, d = PRef a /\ h !! a = None /\
                               h' !! a = Some (DimensionObject (PInt 1))) pad /\
    h' !! self = Some (ShapeObject (Some (<[Z.to_nat i := v]> (l ++ pad))) dt nm) /\
    <[Z.to_nat i := v]> (l ++ pad) !! Z.to_nat i = Some v /\
    (forall j, j < length l -> <[Z.to_nat i := v]> (l ++ pad) !! j = l !! j) /\
    (forall p o, p <> self -> h !! p = Some o -> h' !! p = Some o).
Proof.
  intros Hs Hi. split.
  { unfold ShapeObject__getitem__. rewrite Hs.
    by rewrite bool_decide_eq_true_2 by lia. }
  set (n := Z.to_nat (i + 1 - Z.of_nat (length l))).
  set (pad := PRef <$> seq (length h) n).
  assert (Hlen : length (l ++ pad) = Z.to_nat i + 1).
  { unfold pad. rewrite length_app, length_fmap, length_seq. unfold n. lia. }
  assert (Hself : self < length h) by (by eapply lookup_lt_Some).
  eexists pad, _. split_and!.
  - unfold ShapeObject__setitem__.
    rewrite (bind_step _ _ _ _ _ (get_shape_Ok h self _ _ _ Hs)).
    rewrite (bind_step _ _ _ _ _ (append_ones_spec fuel n l h)).
    fold pad. unfold list_setitem, py_index.
    rewrite bool_decide_eq_true_2 by lia.
    rewrite bool_decide_eq_true_2 by (rewrite Hlen; lia).
    reflexivity.
  - exact Hlen.
  - unfold pad. apply Forall_fmap, Forall_forall. intros a Ha.
    apply elem_of_seq in Ha. exists a. split_and!; [done| |].
    + apply lookup_ge_None_2. lia.
    + rewrite list_lookup_insert_ne by lia.
      rewrite lookup_app_r by lia. apply lookup_replicate_2. lia.
  - apply list_lookup_insert_eq. rewrite length_app. lia.
  - apply list_lookup_insert_eq. lia.
  - intros j Hj. rewrite list_lookup_insert_ne by lia. by apply lookup_app_l.
  - intros p o Hp Ho. rewrite list_lookup_insert_ne by done.
    by apply lookup_app_l_Some.
Qed.

Lemma C7_index_past_the_end_witness :
  ShapeObject__getitem__ example_shapes 4 5 = Ok (PInt 1) /\
  exists pad h',
    ShapeObject__setitem__ 1 4 5 (PInt 9) example_shapes = Ok (tt, h') /\
    length ([PRef 0; PRef 1] ++ pad) = Z.to_nat 5 + 1 /\
    Forall (fun d => exists a, d = PRef a /\ example_shapes !! a = None /\
                               h' !! a = Some (DimensionObject (PInt 1))) pad /\
    h' !! 4 = Some (ShapeObject
                      (Some (<[Z.to_nat 5 := PInt 9]> ([PRef 0; PRef 1] ++ pad)))
                      (Some "float32") (Some "X")) /\
    <[Z.to_nat 5 := PInt 9]> ([PRef 0; PRef 1] ++ pad) !! Z.to_nat 5 = Some (PInt 9) /\
    (forall j, j < length [PRef 0; PRef 1] ->
       <[Z.to_nat 5 := PInt 9]> ([PRef 0; PRef 1] ++ pad) !! j = [PRef 0; PRef 1] !! j) /\
    (forall p o, p <> 4 -> example_shapes !! p = Some o -> h' !! p = Some o).
Proof.
  apply (C7_index_past_the_end 1 example_shapes 4 [PRef 0; PRef 1]
           (Some "float32") (Some "X") 5 (PInt 9)).
  - reflexivity.
  - simpl. lia.
Defined.

(** The same write, computed: the list [(3, 4)] becomes
    [(3, 4, 1, 1, 1, 9)]. *)
Lemma C7_setitem_example :
  exists h',
    ShapeObject__setitem__ 1 4 5 (PInt 9) example_shapes = Ok (tt, h') /\
    h' !! 4 = Some (ShapeObject
                      (Some [PRef 0; PRef 1; PRef 8; PRef 9; PRef 10; PInt 9])
                      (Some "float32") (Some "X")) /\
    h' !! 8 = Some (DimensionObject (PInt 1)) /\
    h' !! 9 = Some (DimensionObject (PInt 1)) /\
    h' !! 10 = Some (DimensionObject (PInt 1)).
Proof. eexists. split_and!; reflexivity. Qed.

(** ** C10: the element type of a shape is never [None] *)

(** A constructor call that returns has stored the resolved element type,
    which is not [None]; the new object is the last one allocated. *)
Lemma ShapeObject__init__Ok fuel shape dtype use_n1 name (h : heap) r h' :
  ShapeObject__init__ fuel shape dtype use_n1 name h = Ok (r, h') ->
  exists sh dt,
    h' !! r = Some (ShapeObject sh (Some dt) name) /\
    resolved_dtype shape dtype = Some dt.
Proof.
  unfold ShapeObject__init__. intros H.
  apply bind_Ok in H. destruct H as ([sh [dt|]] & h1 & Hfields & H);
    [|discriminate H].
  apply bind_Ok in H. destruct H as ([] & h2 & _ & H).
  unfold alloc in H. injection H as <- <-.
  exists sh, dt. split; [apply lookup_alloc_new|].
  destruct shape as [s d|kind tshape elem|l| |]; simpl.
  - inv_M. reflexivity.
  - destruct (bool_decide (kind = "tensor")).
    + apply bind_Ok in Hfields. destruct Hfields as ([] & ? & _ & Hfields); by inv_M.
    + destruct (bool_decide (kind = "map")); by inv_M.
  - by inv_M.
  - by inv_M.
  - by inv_M.
Qed.

Lemma get_shape_inv (h : heap) self s h' :
  get_shape self h = Ok (s, h') ->
  h' = h /\ h !! self = Some (ShapeObject s.1.1 s.1.2 s.2).
Proof.
  unfold get_shape. intros H. apply read_Ok in H. destruct H as [H ->].
  split; [done|].
  destruct (h !! self) as [[| |sh dt nm|]|]; try discriminate.
  by injection H as <-.
Qed.

Lemma ShapeObject_copy_Ok fuel self dtype name (h : heap) r h' :
  ShapeObject_copy fuel self dtype name h = Ok (r, h') ->
  exists sh dt nm, h' !! r = Some (ShapeObject sh (Some dt) nm).
Proof.
  unfold ShapeObject_copy. intros H.
  apply bind_Ok in H. destruct H as ([[[l|] sdt] snm] & h1 & _ & H);
    apply ShapeObject__init__Ok in H; destruct H as (sh & dt & H & _); eauto.
Qed.

(** An attribute write that keeps the element type. *)
Lemma store_keeps_dtype (h : heap) cp sh dt nm sh' :
  h !! cp = Some (ShapeObject sh dt nm) ->
  <[cp := ShapeObject sh' dt nm]> h !! cp = Some (ShapeObject sh' dt nm).
Proof. intros H. apply list_lookup_insert_eq. by eapply lookup_lt_Some. Qed.

Lemma ShapeObject_drop_axis_keeps_dtype (h : heap) cp axis sh dt nm h' :
  h !! cp = Some (ShapeObject sh dt nm) ->
  ShapeObject_drop_axis cp axis h = Ok (tt, h') ->
  exists sh', h' !! cp = Some (ShapeObject sh' dt nm).
Proof.
  intros Hcp H. unfold ShapeObject_drop_axis in H.
  rewrite (bind_step _ _ _ _ _ (get_shape_Ok h cp _ _ _ Hcp)) in H.
  destruct sh as [l|].
  - destruct (match axis with
              | AxisInt i => list_delitem l i
              | AxisSeq axes => delitems l (merge_sort (flip Z.le) axes)
              end) as [l'|e]; [|discriminate H].
    unfold store in H. injection H as <-.
    exists (Some l'). by eapply store_keeps_dtype.
  - unfold ret in H. injection H as <-. eauto.
Qed.

(** C10: a constructor call whose resolved element type is [None] raises,
    and whenever the constructor, [copy], [reduce], [squeeze], [transpose]
    or [evaluate] returns a shape, the element type stored in that shape
    is not [None]. *)
Theorem C10_dtype_is_never_None fuel (c : shape_call) (h : heap) :
  (forall shape dtype use_n1 name,
     c = CallInit shape dtype use_n1 name ->
     resolved_dtype shape dtype = None ->
     exists e, run_call fuel c h = Raise e) /\
  (forall r h',
     run_call fuel c h = Ok (r, h') ->
     exists sh dt nm, h' !! r = Some (ShapeObject sh (Some dt) nm)).
Proof.
  split.
  - intros shape dtype use_n1 name -> Hnone. simpl.
    destruct (ShapeObject__init__ fuel shape dtype use_n1 name h)
      as [[r h']|e] eqn:H; [|eauto].
    apply ShapeObject__init__Ok in H. destruct H as (sh & dt & _ & H).
    congruence.
  - intros r h' H. destruct c as [shape dtype use_n1 name|self dtype name
      |self axis keepdims dtype|self axis|self perm|self kwargs]; simpl in H.
    + apply ShapeObject__init__Ok in H. destruct H as (sh & dt & H & _). eauto.
    + by eapply ShapeObject_copy_Ok.
    + unfold ShapeObject_reduce in H.
      apply bind_Ok in H. destruct H as ([[[l|] sdt] [snm|]] & h1 & _ & H);
        try (by eapply ShapeObject_copy_Ok).
      * destruct (bool_decide _); [|discriminate H].
        apply bind_Ok in H. destruct H as (cp & h2 & _ & H).
        apply ShapeObject__init__Ok in H. destruct H as (sh & dt & H & _). eauto.
      * destruct (bool_decide _); [|discriminate H].
        apply bind_Ok in H. destruct H as (cp & h2 & _ & H).
        apply ShapeObject__init__Ok in H. destruct H as (sh & dt & H & _). eauto.
    + unfold ShapeObject_squeeze in H.
      apply bind_Ok in H. destruct H as (s & h1 & _ & H).
      apply bind_Ok in H. destruct H as (cp & h2 & Hcp & H).
      apply bind_Ok in H. destruct H as ([] & h3 & Hdrop & H).
      unfold ret in H. injection H as <- <-.
      apply ShapeObject_copy_Ok in Hcp. destruct Hcp as (sh & dt & nm & Hcp).
      destruct (ShapeObject_drop_axis_keeps_dtype _ _ _ _ _ _ _ Hcp Hdrop) as [sh' H].
      eauto.
    + unfold ShapeObject_transpose in H.
      apply bind_Ok in H. destruct H as ([[[l|] sdt] snm] & h1 & _ & H);
        [|by eapply ShapeObject_copy_Ok].
      apply bind_Ok in H. destruct H as (cp & h2 & Hcp & H).
      apply bind_Ok in H. destruct H as (cs & h3 & Hget & H).
      apply get_shape_inv in Hget. destruct Hget as [-> Hget].
      destruct (transpose_dims l perm) as [ds|e]; [|discriminate H].
      apply bind_Ok in H. destruct H as ([] & h4 & Hst & H).
      unfold ret in H. injection H as <- <-.
      unfold store in Hst. injection Hst as <-.
      apply ShapeObject__init__Ok in Hcp. destruct Hcp as (sh & dt & Hcp & _).
      rewrite Hcp in Hget. injection Hget as E1 E2 E3.
      rewrite <- E2, <- E3.
      exists (Some ds), dt, (Some (format_name snm ++ "-TR")%string).
      by eapply store_keeps_dtype.
    + destruct fuel as [|fuel]; [discriminate H|]. simpl in H.
      apply bind_Ok in H. destruct H as (s & h1 & _ & H).
      apply bind_Ok in H. destruct H as (vs & h2 & _ & H).
      apply ShapeObject__init__Ok in H. destruct H as (sh & dt & H & _). eauto.
Qed.

Lemma C10_dtype_is_never_None_witness :
  (exists e, run_call 2 (CallInit (ShSeq [PInt 3]) None false None) [] = Raise e) /\
  (exists sh dt nm,
     (example_shapes ++
        [DimensionObject (PRef 0); DimensionObject (PRef 1);
         ShapeObject (Some [PRef 8; PRef 9]) (Some "float32") (Some "X")])
       !! 10 = Some (ShapeObject sh (Some dt) nm)).
Proof.
  split.
  - apply (proj1 (C10_dtype_is_never_None 2
                    (CallInit (ShSeq [PInt 3]) None false None) [])
             (ShSeq [PInt 3]) None false None); reflexivity.
  - apply (proj2 (C10_dtype_is_never_None 2 (CallCopy 4 None None) example_shapes)
             10 _). reflexivity.
Defined.

(** Each of the calls of C10 returns on the example heap. *)
Lemma C10_calls_return :
  (exists r h', run_call 2 (CallInit (ShSeq [PInt 3; PNone]) (Some "int64") true None)
                  example_shapes = Ok (r, h')) /\
  (exists r h', run_call 2 (CallCopy 4 None None) example_shapes = Ok (r, h')) /\
  (exists r h', run_call 2 (CallReduce 4 1 false None) example_shapes = Ok (r, h')) /\
  (exists r h', run_call 2 (CallSqueeze 4 (AxisInt 0)) example_shapes = Ok (r, h')) /\
  (exists r h', run_call 2 (CallTranspose 4 [1; 0]%Z) example_shapes = Ok (r, h')) /\
  (exists r h', run_call 2 (CallEvaluate 4 ∅) example_shapes = Ok (r, h')).
Proof. split_and!; eexists _, _; reflexivity. Qed.

(** ** C3: the lookup kernel *)



(** The lookup in general: an element equal to no key gets the default. *)
Lemma LabelEncoder_run_miss (self : LabelEncoder) (x : list scalar) i xi :
  x !! i = Some xi ->
  Forall (fun kv => scalar_eqb kv.1 xi = false) (classes_ self) ->
  LabelEncoder_run self x !! i = Some (default_ self).
Proof.
  intros Hx Hmiss. unfold LabelEncoder_run. rewrite list_lookup_fmap, Hx. simpl.
  f_equal. induction Hmiss as [|[k v] d Hk _ IH]; simpl; [done|].
  simpl in Hk. by rewrite Hk.
Qed.

(** ** C4: the regression example *)

(** C4: the regressor with coefficients [1, 2], intercepts [1], one target
    and post_transform NONE maps the vector [3, 4] to the single score
    [3*1 + 4*2 + 1 = 12]. *)
Theorem C4_linear_regressor_example :
  exists self,
    LinearRegressor__init__ (regressor_atts "NONE") = Ok self /\
    LinearRegressor_run self (Vec [3; 4]%Q) = Ok (Vec [12%Q]).
Proof. eexists. split; reflexivity. Qed.

(** ** C6: [post_transform] *)

Lemma LinearRegressor__init__post_transform atts self :
  LinearRegressor__init__ atts = Ok self ->
  self_post_transform self = post_transform atts.
Proof.
  unfold LinearRegressor__init__. intros H.
  destruct (coefficients atts); [|discriminate].
  repeat case_bool_decide; try discriminate.
  by injection H as <-.
Qed.

(** C6, as stated, fails in its "if and only if": with post_transform NONE
    and an input of the wrong length, [numpy.dot] raises. *)
Lemma C6_error_iff_counterexample :
  ~ (forall atts self x,
       LinearRegressor__init__ atts = Ok self ->
       ((exists e, LinearRegressor_run self x = Raise e) <->
        post_transform atts <> "NONE")).
Proof.
  intros H.
  destruct (LinearRegressor__init__ (regressor_atts "NONE")) as [self|] eqn:E;
    [|discriminate].
  apply (proj1 (H (regressor_atts "NONE") self (Vec [3%Q]) E)); [|reflexivity].
  exists ValueError. vm_compute in E. injection E as <-. reflexivity.
Qed.

(** C6, amended: with a post_transform other than NONE the run never
    returns a result, and it raises the unimplemented-semantics error
    whenever the score itself can be computed; with NONE the score is
    returned unchanged; and for an input whose score can be computed an
    error is raised if and only if post_transform differs from NONE. *)
Theorem C6_post_transform atts self x :
  LinearRegressor__init__ atts = Ok self ->
  (post_transform atts <> "NONE" ->
     exists e, LinearRegressor_run self x = Raise e) /\
  (post_transform atts = "NONE" ->
     LinearRegressor_run self x = LinearRegressor_score self x) /\
  (forall score, LinearRegressor_score self x = Ok score ->
     (post_transform atts <> "NONE" ->
        LinearRegressor_run self x = Raise NotImplementedError) /\
     (post_transform atts = "NONE" -> LinearRegressor_run self x = Ok score) /\
     ((exists e, LinearRegressor_run self x = Raise e) <->
      post_transform atts <> "NONE")).
Proof.
  intros Hinit. apply LinearRegressor__init__post_transform in Hinit.
  unfold LinearRegressor_run. rewrite Hinit. split_and!.
  - intros Hpt. destruct (LinearRegressor_score self x) as [s|e]; simpl; [|eauto].
    rewrite bool_decide_eq_false_2 by done. eauto.
  - intros ->. by destruct (LinearRegressor_score self x).
  - intros score ->. simpl. split_and!.
    + intros Hpt. by rewrite bool_decide_eq_false_2.
    + intros ->. reflexivity.
    + case_bool_decide as Hpt; split.
      * intros [e He]. discriminate He.
      * intros Hne. by destruct Hne.
      * done.
      * eauto.
Qed.

Lemma C6_post_transform_witness :
  exists self,
    LinearRegressor__init__ (regressor_atts "SOFTMAX") = Ok self /\
    LinearRegressor_score self (Vec [3; 4]%Q) = Ok (Vec [12%Q]) /\
    LinearRegressor_run self (Vec [3; 4]%Q) = Raise NotImplementedError.
Proof.
  eexists. split; [reflexivity|]. split; [reflexivity|].
  eapply (proj1 (proj2 (proj2 (C6_post_transform (regressor_atts "SOFTMAX") _
                                 (Vec [3; 4]%Q) eq_refl)) (Vec [12%Q]) eq_refl)).
  discriminate.
Defined.

(** * Further properties of the shape algebra *)

(** ** Built dimensions *)

Lemma built_mono (h : heap) n a :
  built h n a -> forall m, n <= m -> built h m a.
Proof.
  induction 1 as [n a Ha|n a z Ha Hz|n a s Ha Hs|n a b Ha Hb IH
                 |n a k x y Ha Dx Dy Hx IHx Hy IHy]; intros m Hm.
  - by apply built_unknown.
  - by eapply built_int.
  - by eapply built_name.
  - destruct m as [|m]; [lia|]. eapply built_nested; [done|]. apply IH. lia.
  - destruct m as [|m]; [lia|].
    eapply built_operator; [done..| |]; [apply IHx|apply IHy]; lia.
Qed.

Lemma built_extend (h h2 : heap) n a :
  built h n a -> built (h ++ h2) n a.
Proof.
  induction 1 as [n a Ha|n a z Ha Hz|n a s Ha Hs|n a b Ha Hb IH
                 |n a k x y Ha Dx Dy Hx IHx Hy IHy].
  - apply built_unknown. by apply lookup_app_l_Some.
  - eapply built_int; [by apply lookup_app_l_Some|done].
  - eapply built_name; [by apply lookup_app_l_Some|done].
  - eapply built_nested; [by apply lookup_app_l_Some|done].
  - eapply built_operator; [by apply lookup_app_l_Some| | |done|done];
      by apply is_DimensionObject_extend.
Qed.

(** A built object is neither [0] nor ['?']. *)
Lemma built_py_eq_const (h : heap) n a c :
  c = PInt 0 \/ c = PStr "?" ->
  built h n a ->
  forall fuel, n < fuel -> py_eq fuel h (PRef a) c = Ok false.
Proof.
  intros Hc.
  induction 1 as [n a Ha|n a z Ha Hz|n a s Ha Hs|n a b Ha Hb IH
                 |n a k x y Ha Dx Dy Hx IHx Hy IHy]; intros fuel Hfuel.
  - destruct fuel as [|f]; [lia|].
    rewrite (py_eq_dimension _ _ _ _ _ Ha), DimensionObject__eq__S, Ha.
    by destruct Hc as [-> | ->].
  - destruct fuel as [|f]; [lia|].
    rewrite (py_eq_dimension _ _ _ _ _ Ha), DimensionObject__eq__S, Ha.
    destruct Hc as [-> | ->]; [|done].
    unfold py_eq, rich_eq. by rewrite bool_decide_eq_false_2.
  - destruct fuel as [|f]; [lia|].
    rewrite (py_eq_dimension _ _ _ _ _ Ha), DimensionObject__eq__S, Ha.
    destruct Hc as [-> | ->]; [done|].
    unfold py_eq, rich_eq. by rewrite bool_decide_eq_false_2.
  - destruct fuel as [|f]; [lia|].
    rewrite (py_eq_dimension _ _ _ _ _ Ha), DimensionObject__eq__S, Ha.
    destruct Hc as [-> | ->]; apply IH; lia.
  - eapply py_eq_operator_const; eauto.
Qed.

(** Wrapping a built object: [DimensionObject(d)] stores a reference to
    [d]. *)
Lemma DimensionObject__init__built (h : heap) n d fuel :
  built h n d -> n < fuel ->
  DimensionObject__init__ fuel (PRef d) h =
    Ok (length h, h ++ [DimensionObject (PRef d)]).
Proof.
  intros Hd Hfuel. unfold DimensionObject__init__, bind, read.
  rewrite (built_py_eq_const h n d (PInt 0) (or_introl eq_refl) Hd fuel Hfuel).
  rewrite (built_py_eq_const h n d (PStr "?") (or_intror eq_refl) Hd fuel Hfuel).
  simpl.
  assert (Hk : is_ShapeOperator h (PRef d) || is_DimensionObject h (PRef d) = true).
  { simpl. inversion Hd as [? ? E|? ? ? E|? ? ? E|? ? ? E|? ? ? ? ? E];
      by rewrite E. }
  simpl in Hk. by rewrite Hk.
Qed.

(** What a returning [DimensionObject(obj)] has stored, as the invariant
    of the heap needs it. *)
Lemma DimensionObject__init__stores fuel obj (h : heap) r h' :
  DimensionObject__init__ fuel obj h = Ok (r, h') ->
  exists d,
    r = length h /\ h' = h ++ [DimensionObject d] /\
    d <> PInt 0 /\ d <> PStr "?" /\
    (forall p, d = PRef p ->
       is_ShapeOperator h d || is_DimensionObject h d = true).
Proof.
  unfold DimensionObject__init__. intros H.
  apply bind_Ok in H. destruct H as (unknown & h1 & Hu & H).
  apply read_Ok in Hu. destruct Hu as [Hu ->].
  destruct unknown.
  - unfold alloc in H. injection H as <- <-. exists PNone.
    split_and!; auto; discriminate.
  - apply bind_Ok in H. destruct H as (known & h1 & Hk & H).
    apply read_Ok in Hk. destruct Hk as [Hk ->].
    destruct known; [|discriminate H].
    unfold alloc in H. injection H as <- <-. exists obj.
    split_and!; auto.
    + intros ->. discriminate Hu.
    + intros ->. discriminate Hu.
    + intros p ->. injection Hk as Hk. exact Hk.
Qed.

(** X1: whatever [DimensionObject(obj)] is given, when it returns it has
    allocated exactly one new object, a dimension whose [_dim] is never
    the integer [0] nor the string ['?']: it is [None] or [obj] itself,
    and [None] whenever [obj] is [None], [0] or ['?']; a stored reference
    points to a ShapeOperator or a DimensionObject. *)
Theorem X1_init_never_stores_zero fuel obj (h : heap) r h' :
  DimensionObject__init__ fuel obj h = Ok (r, h') ->
  exists d,
    r = length h /\ h' = h ++ [DimensionObject d] /\
    d <> PInt 0 /\ d <> PStr "?" /\
    (d = PNone \/ d = obj) /\
    (obj = PNone \/ obj = PInt 0 \/ obj = PStr "?" -> d = PNone) /\
    (forall p, d = PRef p ->
       is_ShapeOperator h d || is_DimensionObject h d = true).
Proof.
  unfold DimensionObject__init__. intros H.
  apply bind_Ok in H. destruct H as (unknown & h1 & Hu & H).
  apply read_Ok in Hu. destruct Hu as [Hu ->].
  destruct unknown.
  - unfold alloc in H. injection H as <- <-. exists PNone.
    split_and!; auto; discriminate.
  - apply bind_Ok in H. destruct H as (known & h1 & Hk & H).
    apply read_Ok in Hk. destruct Hk as [Hk ->].
    destruct known; [|discriminate H].
    unfold alloc in H. injection H as <- <-. exists obj.
    split_and!; auto.
    + intros ->. discriminate Hu.
    + intros ->. discriminate Hu.
    + intros [->|[->| ->]]; discriminate Hu.
    + intros p ->. injection Hk as Hk. exact Hk.
Qed.

Lemma X1_init_never_stores_zero_witness :
  exists d,
    4 = length example_heap /\
    example_heap ++ [DimensionObject PNone] = example_heap ++ [DimensionObject d] /\
    d <> PInt 0 /\ d <> PStr "?" /\
    (d = PNone \/ d = PInt 0) /\
    (PInt 0 = PNone \/ PInt 0 = PInt 0 \/ PInt 0 = PStr "?" -> d = PNone) /\
    (forall p, d = PRef p ->
       is_ShapeOperator example_heap d || is_DimensionObject example_heap d = true).
Proof.
  apply (X1_init_never_stores_zero 1 (PInt 0) example_heap 4
           (example_heap ++ [DimensionObject PNone])).
  reflexivity.
Defined.

Lemma heap_built_alloc_dimension (h : heap) d :
  heap_built h ->
  d <> PInt 0 -> d <> PStr "?" ->
  (forall p, d = PRef p -> is_ShapeOperator h d || is_DimensionObject h d = true) ->
  heap_built (h ++ [DimensionObject d]).
Proof.
  intros Hh H0 Hq Hp a o Ha.
  destruct (decide (a < length h)) as [Hlt|Hge].
  - rewrite lookup_app_l in Ha by done. specialize (Hh a o Ha).
    destruct o; try done; destruct Hh as [n Hn]; exists n; by apply built_extend.
  - assert (a = length h) as ->.
    { apply lookup_lt_Some in Ha. rewrite length_app in Ha. simpl in Ha. lia. }
    rewrite lookup_alloc_new in Ha. injection Ha as <-.
    destruct d as [|z|s|p].
    + exists 0. apply built_unknown, lookup_alloc_new.
    + exists 0. eapply built_int; [apply lookup_alloc_new|congruence].
    + exists 0. eapply built_name; [apply lookup_alloc_new|congruence].
    + specialize (Hp p eq_refl). simpl in Hp.
      destruct (h !! p) as [o|] eqn:Ho; [|discriminate].
      specialize (Hh p o Ho).
      destruct o; try discriminate; destruct Hh as [n Hn]; exists (S n);
        (eapply built_nested; [apply lookup_alloc_new|by apply built_extend]).
Qed.

Lemma heap_built_init fuel obj (h : heap) r h' :
  heap_built h ->
  DimensionObject__init__ fuel obj h = Ok (r, h') ->
  heap_built h'.
Proof.
  intros Hh H. apply DimensionObject__init__stores in H.
  destruct H as (d & -> & -> & H0 & Hq & Hp).
  by apply heap_built_alloc_dimension.
Qed.

Lemma heap_built_binary k fuel self obj (h : heap) r h' :
  heap_built h ->
  binary_operator k fuel self obj h = Ok (r, h') ->
  heap_built h' /\ exists n, built h' n r.
Proof.
  intros Hh H. unfold binary_operator in H.
  apply bind_Ok in H. destruct H as (y & h1 & Hy & H).
  assert (Hh1 : heap_built h1).
  { unfold DimensionObject_same_ in Hy.
    apply bind_Ok in Hy. destruct Hy as (same & h0 & Hs & Hy).
    apply read_Ok in Hs. destruct Hs as [_ ->].
    destruct same, obj; try (by eapply heap_built_init).
    unfold ret in Hy. by injection Hy as <- <-. }
  apply bind_Ok in H. destruct H as (op & h2 & Hop & H).
  unfold ShapeOperator__init__ in Hop.
  apply bind_Ok in Hop. destruct Hop as (op' & h2' & Hal & Hop).
  unfold alloc in Hal. injection Hal as <- <-.
  apply bind_Ok in Hop. destruct Hop as (checked & h2' & Hc & Hop).
  apply read_Ok in Hc. destruct Hc as [Hc ->].
  destruct checked; [|discriminate Hop].
  unfold ret in Hop. injection Hop as <- <-.
  injection Hc as Hc. apply andb_prop in Hc. destruct Hc as [Dx Dy].
  assert (Hh2 : heap_built (h1 ++ [ShapeOperator k (PRef self) (PRef y)])).
  { intros a o Ha. destruct (decide (a < length h1)) as [Hlt|Hge].
    - rewrite lookup_app_l in Ha by done. specialize (Hh1 a o Ha).
      destruct o; try done; destruct Hh1 as [n Hn]; exists n; by apply built_extend.
    - assert (a = length h1) as ->.
      { apply lookup_lt_Some in Ha. rewrite length_app in Ha. simpl in Ha. lia. }
      rewrite lookup_alloc_new in Ha. injection Ha as <-.
      assert (Hx : exists n, built h1 n self).
      { simpl in Dx. destruct (decide (self < length h1)) as [Hl|Hl].
        - rewrite lookup_app_l in Dx by done.
          destruct (h1 !! self) as [[]|] eqn:E; try discriminate.
          exact (Hh1 self _ E).
        - rewrite lookup_app_r in Dx by lia.
          destruct (self - length h1) as [|[|?]]; discriminate. }
      assert (Hy' : exists n, built h1 n y).
      { simpl in Dy. destruct (decide (y < length h1)) as [Hl|Hl].
        - rewrite lookup_app_l in Dy by done.
          destruct (h1 !! y) as [[]|] eqn:E; try discriminate.
          exact (Hh1 y _ E).
        - rewrite lookup_app_r in Dy by lia.
          destruct (y - length h1) as [|[|?]]; discriminate. }
      destruct Hx as [nx Hx]. destruct Hy' as [ny Hy'].
      exists (S (Nat.max nx ny)).
      eapply built_operator; [apply lookup_alloc_new|done|done| |];
        apply built_extend; eapply built_mono; eauto; lia. }
  split; [by eapply heap_built_init|].
  pose proof (heap_built_init _ _ _ _ _ Hh2 H) as Hh3.
  apply DimensionObject__init__stores in H. destruct H as (d & -> & -> & _).
  exact (Hh3 _ _ (lookup_alloc_new _ _)).
Qed.

Lemma heap_built_example : heap_built example_heap.
Proof.
  intros a o Ha.
  destruct a as [|[|[|[|a]]]]; simpl in Ha; try discriminate;
    injection Ha as <-; exists 0.
  - by apply built_unknown.
  - by eapply built_int.
  - by eapply built_int.
  - by eapply built_name.
Qed.

(** X2: the constructors keep the invariant that every dimension and
    operator of the heap is built: [DimensionObject(obj)], [self + obj]
    and [self * obj], whatever [obj] is, leave a heap in which no
    dimension holds [0] or ['?'], every reference of a dimension or an
    operator leads to a built object, and nesting is finite; the result of
    [+] and [*] is itself built. *)
Theorem X2_constructors_keep_heap_built fuel (h : heap) obj r h' :
  heap_built h ->
  (DimensionObject__init__ fuel obj h = Ok (r, h') -> heap_built h') /\
  (forall self,
     DimensionObject__add__ fuel self obj h = Ok (r, h') ->
     heap_built h' /\ exists n, built h' n r) /\
  (forall self,
     DimensionObject__mul__ fuel self obj h = Ok (r, h') ->
     heap_built h' /\ exists n, built h' n r).
Proof.
  intros Hh. split_and!.
  - by apply heap_built_init.
  - intros self. by apply (heap_built_binary OpAdd).
  - intros self. by apply (heap_built_binary OpMul).
Qed.

Lemma X2_constructors_keep_heap_built_witness :
  heap_built (example_heap ++ [DimensionObject (PInt 7);
                               ShapeOperator OpAdd (PRef 3) (PRef 4);
                               DimensionObject (PRef 5)]).
Proof.
  apply (proj1 (proj2 (X2_constructors_keep_heap_built 1 example_heap (PInt 7) 6 _
                         heap_built_example)) 3).
  reflexivity.
Defined.

(** ** evaluate on built dimensions *)

(** X3: [evaluate] never raises on a built dimension or operator: for
    every binding it returns an integer or a string as soon as the fuel
    exceeds the nesting depth, and more fuel gives the same value. *)
Theorem X3_evaluate_returns_on_built (h : heap) n a kwargs :
  built h n a ->
  exists v, forall fuel, n < fuel ->
    match h !! a with
    | Some (DimensionObject _) => DimensionObject_evaluate fuel h kwargs a = Ok v
    | Some (ShapeOperator _ _ _) => ShapeOperator_evaluate fuel h kwargs a = Ok v
    | _ => False
    end.
Proof.
  induction 1 as [n a Ha|n a z Ha Hz|n a s Ha Hs|n a b Ha Hb IH
                 |n a k x y Ha Dx Dy Hx IHx Hy IHy].
  - exists (EStr ("n" ++ hex_id a)). intros [|f] Hf; [lia|].
    by rewrite Ha, DimensionObject_evaluate_S, Ha.
  - exists (EInt z). intros [|f] Hf; [lia|].
    by rewrite Ha, DimensionObject_evaluate_S, Ha.
  - exists (default (EStr s) (kwargs !! s)). intros [|f] Hf; [lia|].
    rewrite Ha, DimensionObject_evaluate_S, Ha. by destruct (kwargs !! s).
  - destruct IH as [v IH]. exists v. intros [|f] Hf; [lia|].
    rewrite Ha, DimensionObject_evaluate_S, Ha.
    specialize (IH f ltac:(lia)).
    destruct (h !! b) as [[| | |]|]; done.
  - destruct IHx as [vx IHx]. destruct IHy as [vy IHy].
    exists (apply_operator k vx vy). intros [|f] Hf; [lia|].
    rewrite Ha, ShapeOperator_evaluate_S, Ha. cbv beta iota zeta.
    specialize (IHx f ltac:(lia)). specialize (IHy f ltac:(lia)).
    rewrite Dx, Dy. simpl in Dx, Dy.
    destruct (h !! x) as [[| | |]|]; try discriminate.
    destruct (h !! y) as [[| | |]|]; try discriminate.
    by rewrite IHx, IHy.
Qed.

Lemma built_example_sum : built example_sum_heap 2 3.
Proof.
  eapply built_nested; [reflexivity|].
  eapply built_operator; [reflexivity..| |].
  - by eapply built_int.
  - by eapply built_name.
Qed.

Lemma X3_evaluate_returns_on_built_witness :
  exists v, forall fuel, 2 < fuel ->
    DimensionObject_evaluate fuel example_sum_heap {["n" := EInt 7]} 3 = Ok v.
Proof.
  exact (X3_evaluate_returns_on_built example_sum_heap 2 3 {["n" := EInt 7]}
           built_example_sum).
Defined.

(** The value of a new operator node over two dimensions that evaluate. *)
Lemma evaluate_binary_operator k kwargs (h : heap) a b da db va vb n :
  h !! a = Some (DimensionObject da) ->
  h !! b = Some (DimensionObject db) ->
  (forall m, n <= m -> DimensionObject_evaluate m h kwargs a = Ok va) ->
  (forall m, n <= m -> DimensionObject_evaluate m h kwargs b = Ok vb) ->
  let h' := h ++ [ShapeOperator k (PRef a) (PRef b);
                  DimensionObject (PRef (length h))] in
  (forall fuel, binary_operator k fuel a (PRef b) h = Ok (S (length h), h')) /\
  forall m, S (S n) <= m ->
    DimensionObject_evaluate m h' kwargs (S (length h)) = Ok (apply_operator k va vb).
Proof.
  intros Ha Hb Ea Eb h'. split.
  - intros fuel. by eapply binary_operator_frame.
  - intros [|[|m]] Hm; [lia|lia|].
    assert (Hr : h' !! S (length h) = Some (DimensionObject (PRef (length h)))).
    { unfold h'. rewrite lookup_app_r by lia.
      by replace (S (length h) - length h) with 1 by lia. }
    assert (Hop : h' !! length h = Some (ShapeOperator k (PRef a) (PRef b))).
    { unfold h'. rewrite lookup_app_r by lia. by rewrite Nat.sub_diag. }
    assert (Ha' : h' !! a = Some (DimensionObject da)) by by apply lookup_app_l_Some.
    assert (Hb' : h' !! b = Some (DimensionObject db)) by by apply lookup_app_l_Some.
    rewrite DimensionObject_evaluate_S, Hr, Hop.
    assert (Da : is_DimensionObject h' (PRef a) = true) by (simpl; by rewrite Ha').
    assert (Db : is_DimensionObject h' (PRef b) = true) by (simpl; by rewrite Hb').
    rewrite ShapeOperator_evaluate_S, Hop. cbv beta iota zeta.
    rewrite Da, Db.
    unfold h'.
    rewrite (proj1 (evaluate_heap_extend m h _ kwargs a va) (Ea m ltac:(lia))).
    rewrite (proj1 (evaluate_heap_extend m h _ kwargs b vb) (Eb m ltac:(lia))).
    reflexivity.
Qed.

(** X4: for dimensions [A] and [B] that evaluate under a binding to [va]
    and [vb], [A * B] evaluates to the integer product when both are
    integers and otherwise to the string ["(va)*(vb)"], and [A + B] to the
    integer sum or to ["(va)+(vb)"]: one unresolved operand turns the
    whole expression into text, it never raises. *)
Theorem X4_evaluate_mul_and_add kwargs (h : heap) a b da db va vb n :
  h !! a = Some (DimensionObject da) ->
  h !! b = Some (DimensionObject db) ->
  (forall m, n <= m -> DimensionObject_evaluate m h kwargs a = Ok va) ->
  (forall m, n <= m -> DimensionObject_evaluate m h kwargs b = Ok vb) ->
  (exists r h',
     (forall fuel, DimensionObject__mul__ fuel a (PRef b) h = Ok (r, h')) /\
     forall m, S (S n) <= m ->
       DimensionObject_evaluate m h' kwargs r =
         Ok (match va, vb with
             | EInt x, EInt y => EInt (x * y)
             | _, _ => EStr ("(" ++ format_evalue va ++ ")*(" ++ format_evalue vb ++ ")")
             end)) /\
  (exists r h',
     (forall fuel, DimensionObject__add__ fuel a (PRef b) h = Ok (r, h')) /\
     forall m, S (S n) <= m ->
       DimensionObject_evaluate m h' kwargs r =
         Ok (match va, vb with
             | EInt x, EInt y => EInt (x + y)
             | _, _ => EStr ("(" ++ format_evalue va ++ ")+(" ++ format_evalue vb ++ ")")
             end)).
Proof.
  intros Ha Hb Ea Eb. split.
  - destruct (evaluate_binary_operator OpMul kwargs h a b da db va vb n Ha Hb Ea Eb)
      as [Hop Ev].
    eexists _, _. split; [exact Hop|]. intros m Hm. rewrite (Ev m Hm).
    by destruct va, vb.
  - destruct (evaluate_binary_operator OpAdd kwargs h a b da db va vb n Ha Hb Ea Eb)
      as [Hop Ev].
    eexists _, _. split; [exact Hop|]. intros m Hm. rewrite (Ev m Hm).
    by destruct va, vb.
Qed.

Lemma X4_evaluate_mul_and_add_witness :
  (exists r h',
     (forall fuel, DimensionObject__mul__ fuel 3 (PRef 1) example_heap = Ok (r, h')) /\
     forall m, 3 <= m ->
       DimensionObject_evaluate m h' ∅ r = Ok (EStr "(n)*(5)")) /\
  (exists r h',
     (forall fuel, DimensionObject__add__ fuel 3 (PRef 1) example_heap = Ok (r, h')) /\
     forall m, 3 <= m ->
       DimensionObject_evaluate m h' ∅ r = Ok (EStr "(n)+(5)")).
Proof.
  apply (X4_evaluate_mul_and_add ∅ example_heap 3 1 (PStr "n") (PInt 5)
           (EStr "n") (EInt 5) 1); try reflexivity.
  - intros [|m] Hm; [lia|reflexivity].
  - intros [|m] Hm; [lia|reflexivity].
Defined.

(** ** Equality and ordering of dimensions *)

Lemma py_eq_value_operator fuel (h : heap) ve op k x y :
  h !! op = Some (ShapeOperator k x y) ->
  py_eq fuel h (pyval_of ve) (PRef op) = Ok false.
Proof. intros Hop. unfold py_eq, rich_eq. destruct ve; simpl; by rewrite Hop. Qed.

Lemma DimensionObject__eq__self_leaf fuel (h : heap) d _dim :
  h !! d = Some (DimensionObject _dim) ->
  (forall p, _dim <> PRef p) ->
  DimensionObject__eq__ (S (S fuel)) h d (PRef d) = Ok true.
Proof.
  intros Hd Hleaf. rewrite DimensionObject__eq__S, Hd.
  rewrite (py_eq_dimension _ _ _ _ _ Hd), DimensionObject__eq__S, Hd.
  destruct _dim as [|z|s|p].
  - reflexivity.
  - unfold py_eq, rich_eq. by rewrite bool_decide_eq_true_2.
  - unfold py_eq, rich_eq. by rewrite bool_decide_eq_true_2.
  - by destruct (Hleaf p).
Qed.

Lemma DimensionObject__eq__self_expression fuel (h : heap) d op k x y ve :
  h !! d = Some (DimensionObject (PRef op)) ->
  h !! op = Some (ShapeOperator k x y) ->
  ShapeOperator_evaluate fuel h ∅ op = Ok ve ->
  DimensionObject__eq__ (S (S fuel)) h d (PRef d) = Ok false.
Proof.
  intros Hd Hop Hev. rewrite DimensionObject__eq__S, Hd.
  rewrite (py_eq_dimension _ _ _ _ _ Hd), DimensionObject__eq__S, Hd, Hop, Hev.
  simpl. by eapply py_eq_value_operator.
Qed.

(** X5: [d == d] is [True] for a dimension holding [None], an integer or a
    string, but [False] for a dimension holding an operator that
    evaluates: the operator's value is compared with the operator object
    itself. A shape whose first such dimension follows only plain
    dimensions is therefore not equal to itself. *)
Theorem X5_expression_dimension_not_equal_to_itself fuel (h : heap) d op k x y ve :
  h !! d = Some (DimensionObject (PRef op)) ->
  h !! op = Some (ShapeOperator k x y) ->
  ShapeOperator_evaluate fuel h ∅ op = Ok ve ->
  DimensionObject__eq__ (S (S fuel)) h d (PRef d) = Ok false /\
  py_eq (S (S fuel)) h (PRef d) (PRef d) = Ok false /\
  (forall a _dim, h !! a = Some (DimensionObject _dim) ->
     (forall p, _dim <> PRef p) ->
     DimensionObject__eq__ (S (S fuel)) h a (PRef a) = Ok true) /\
  (forall s l dt nm i,
     h !! s = Some (ShapeObject (Some l) dt nm) ->
     l !! i = Some (PRef d) ->
     (forall j e, j < i -> l !! j = Some e ->
        exists a _dim, e = PRef a /\ h !! a = Some (DimensionObject _dim) /\
                       forall p, _dim <> PRef p) ->
     ShapeObject__eq__ (S (S (S fuel))) h s (PRef s) = Ok false).
Proof.
  intros Hd Hop Hev.
  pose proof (DimensionObject__eq__self_expression fuel h d op k x y ve Hd Hop Hev)
    as Hself.
  split_and!.
  - exact Hself.
  - by rewrite (py_eq_dimension _ _ _ _ _ Hd).
  - intros a _dim Ha Hleaf. by eapply DimensionObject__eq__self_leaf.
  - intros s l dt nm i Hs Hi Hbefore.
    rewrite ShapeObject__eq__S, Hs.
    rewrite bool_decide_eq_false_2 by (intros H; by apply H).
    eapply (zip_all_eq_first_false _ i); [exact Hi|exact Hi| |].
    + by rewrite (py_eq_dimension _ _ _ _ _ Hd).
    + intros j e1 e2 Hj H1 H2. rewrite H1 in H2. injection H2 as <-.
      destruct (Hbefore j e1 Hj H1) as (a & _dim & -> & Ha & Hleaf).
      rewrite (py_eq_dimension _ _ _ _ _ Ha).
      by eapply DimensionObject__eq__self_leaf.
Qed.

Lemma X5_expression_dimension_not_equal_to_itself_witness :
  DimensionObject__eq__ 4 example_sum_heap 3 (PRef 3) = Ok false.
Proof.
  apply (X5_expression_dimension_not_equal_to_itself 2 example_sum_heap 3 2
           OpAdd (PRef 0) (PRef 1) (EStr "(5)+(n)")); reflexivity.
Defined.

Lemma DimensionObject__init__str fuel (h : heap) s :
  DimensionObject__init__ fuel (PStr s) h =
    Ok (length h,
        h ++ [DimensionObject (if bool_decide (s = "?") then PNone else PStr s)]).
Proof.
  unfold DimensionObject__init__, bind, read, py_eq, rich_eq. simpl.
  destruct (bool_decide (s = "?")); reflexivity.
Qed.

(** X6: building a dimension from an integer or a string and comparing it
    with that same value: [DimensionObject(z) == z] is [True] exactly when
    [z] is not [0], and [DimensionObject(s) == s] exactly when [s] is not
    ['?']; the dimension built from [0] or ['?'] equals [None] instead. *)
Theorem X6_construct_then_compare fuel (h : heap) z s :
  (exists a h',
     DimensionObject__init__ fuel (PInt z) h = Ok (a, h') /\
     DimensionObject__eq__ (S fuel) h' a (PInt z) = Ok (bool_decide (z <> 0%Z)) /\
     DimensionObject__eq__ (S fuel) h' a PNone = Ok (bool_decide (z = 0%Z))) /\
  (exists a h',
     DimensionObject__init__ fuel (PStr s) h = Ok (a, h') /\
     DimensionObject__eq__ (S fuel) h' a (PStr s) = Ok (bool_decide (s <> "?")) /\
     DimensionObject__eq__ (S fuel) h' a PNone = Ok (bool_decide (s = "?"))).
Proof.
  split.
  - eexists _, _. split; [apply DimensionObject__init__int|].
    rewrite !DimensionObject__eq__S, lookup_alloc_new.
    unfold py_eq, rich_eq. case_bool_decide as Hz.
    + subst z. by split.
    + rewrite bool_decide_eq_true_2 by done.
      split; [by rewrite bool_decide_eq_true_2|by rewrite bool_decide_eq_false_2].
  - eexists _, _. split; [apply DimensionObject__init__str|].
    rewrite !DimensionObject__eq__S, lookup_alloc_new.
    unfold py_eq, rich_eq. case_bool_decide as Hs.
    + subst s. by split.
    + rewrite bool_decide_eq_true_2 by done.
      split; [by rewrite bool_decide_eq_true_2|by rewrite bool_decide_eq_false_2].
Qed.

(** X7: on dimensions that hold [None], an integer or a string, [>] is
    irreflexive and asymmetric: [a > a] is [False], and whenever [a > b]
    is [True], [b > a] is [False]. *)
Theorem X7_gt_asymmetric_on_plain_dimensions fuel (h : heap) a b da db :
  h !! a = Some (DimensionObject da) ->
  h !! b = Some (DimensionObject db) ->
  (forall p, da <> PRef p) -> (forall p, db <> PRef p) ->
  DimensionObject__gt__ fuel h a (PRef a) = Ok false /\
  (DimensionObject__gt__ fuel h a (PRef b) = Ok true ->
   DimensionObject__gt__ fuel h b (PRef a) = Ok false).
Proof.
  intros Ha Hb La Lb. unfold DimensionObject__gt__. rewrite Ha, Hb. split.
  - destruct da as [|z|s|p]; [| | |by destruct (La p)].
    + reflexivity.
    + by rewrite bool_decide_eq_false_2 by lia.
    + unfold py_eq, rich_eq. by rewrite bool_decide_eq_true_2.
  - destruct da as [|z|s|p]; [| | |by destruct (La p)];
      (destruct db as [|y|t|q]; [| | |by destruct (Lb q)]); try done.
    + unfold py_eq, rich_eq. simpl. destruct fuel as [|f]; [done|].
      rewrite !DimensionObject_evaluate_S, Ha, Hb, ?lookup_empty. simpl.
      by destruct (evalue_eqb _ _).
    + intros H. injection H as H. apply bool_decide_eq_true_1 in H.
      by rewrite bool_decide_eq_false_2 by lia.
    + unfold py_eq, rich_eq. simpl. destruct fuel as [|f]; [done|].
      rewrite !DimensionObject_evaluate_S, Ha, Hb, ?lookup_empty. simpl.
      by destruct (evalue_eqb _ _).
    + unfold py_eq, rich_eq. case_bool_decide; [done|]. simpl.
      destruct fuel as [|f]; [done|].
      rewrite !DimensionObject_evaluate_S, Ha, Hb, ?lookup_empty. simpl.
      by destruct (evalue_eqb _ _).
Qed.

Lemma X7_gt_asymmetric_on_plain_dimensions_witness :
  DimensionObject__gt__ 1 example_heap 3 (PRef 3) = Ok false /\
  (DimensionObject__gt__ 1 example_heap 3 (PRef 1) = Ok true ->
   DimensionObject__gt__ 1 example_heap 1 (PRef 3) = Ok false).
Proof.
  apply (X7_gt_asymmetric_on_plain_dimensions 1 example_heap 3 1 (PStr "n") (PInt 5));
    try reflexivity; discriminate.
Defined.

(** ** Order of shapes *)

Lemma ShapeObject__gt__S fuel (h : heap) self a :
  ShapeObject__gt__ (S fuel) h self a =
    match h !! self with
    | Some (ShapeObject self_shape _ _) =>
      match a with
      | PRef pa =>
        match h !! pa with
        | Some (ShapeObject a_shape _ _) =>
          match self_shape, a_shape with
          | None, None => Ok false
          | None, Some _ => Ok true
          | Some _, None => Ok false
          | Some l1, Some l2 =>
            if bool_decide (length l2 < length l1) then Ok true
            else if bool_decide (length l1 < length l2) then Ok false
            else zip_gt (py_gt fuel h) (py_lt fuel h) l1 l2
          end
        | Some _ => Raise AttributeError
        | None => Raise SystemError
        end
      | _ => Raise AttributeError
      end
    | _ => Raise SystemError
    end.
Proof. reflexivity. Qed.

(** Integer dimensions compare as their integers, with [>] and with the
    reflected [<]. *)
Lemma zip_gt_int_dims fuel (h : heap) l1 z1 :
  int_dims h l1 z1 ->
  forall l2 z2, int_dims h l2 z2 ->
    zip_gt (py_gt fuel h) (py_lt fuel h) l1 l2 = Ok (lex_gt z1 z2).
Proof.
  induction 1 as [|d1 x l1 z1 (a & -> & Ha) _ IH]; intros l2 z2 H2.
  - by destruct H2.
  - destruct H2 as [|d2 y l2 z2 (b & -> & Hb) H2]; [done|].
    simpl. unfold py_gt, py_lt, rich_gt, rich_lt. rewrite Ha, Hb.
    unfold DimensionObject__gt__. rewrite Ha, Hb. simpl.
    case_bool_decide as Hgt; [done|]. simpl.
    rewrite (bool_decide_ext (y > x)%Z (x < y)%Z) by lia.
    case_bool_decide as Hlt; [done|]. by apply IH.
Qed.

Lemma lex_gt_asymmetric z1 :
  forall z2, lex_gt z1 z2 = true -> lex_gt z2 z1 = false.
Proof.
  induction z1 as [|x z1 IH]; intros [|y z2]; simpl; try done.
  repeat case_bool_decide; try done; try lia. apply IH.
Qed.

Lemma shape_order_asymmetric s1 s2 :
  shape_order s1 s2 = true -> shape_order s2 s1 = false.
Proof.
  destruct s1 as [z1|], s2 as [z2|]; simpl; try done.
  repeat case_bool_decide; try done; try lia. apply lex_gt_asymmetric.
Qed.

(** X8: on shapes whose dimensions hold integers (and on the unknown
    shape), [self > a] is a strict order: the unknown shape is above every
    known one, a higher rank is above a lower one, and shapes of equal
    rank compare lexicographically by their integers. Hence [self > a]
    and [a > self] are never both [True], and [self > self] is [False]. *)
Theorem X8_shape_gt_is_a_strict_order fuel (h : heap) self a zs1 zs2 :
  int_shape h self zs1 ->
  int_shape h a zs2 ->
  ShapeObject__gt__ (S fuel) h self (PRef a) = Ok (shape_order zs1 zs2) /\
  ShapeObject__gt__ (S fuel) h self (PRef self) = Ok false /\
  (ShapeObject__gt__ (S fuel) h self (PRef a) = Ok true ->
   ShapeObject__gt__ (S fuel) h a (PRef self) = Ok false).
Proof.
  assert (Hgt : forall s1 s2 z1 z2, int_shape h s1 z1 -> int_shape h s2 z2 ->
            ShapeObject__gt__ (S fuel) h s1 (PRef s2) = Ok (shape_order z1 z2)).
  { intros s1 s2 z1 z2 (sh1 & dt1 & nm1 & H1 & D1) (sh2 & dt2 & nm2 & H2 & D2).
    rewrite ShapeObject__gt__S, H1, H2.
    destruct sh1 as [l1|], z1 as [z1|]; try done;
      destruct sh2 as [l2|], z2 as [z2|]; try done.
    simpl. rewrite (Forall2_length _ _ _ D1), (Forall2_length _ _ _ D2).
    repeat case_bool_decide; try done. by apply zip_gt_int_dims. }
  intros H1 H2. split_and!.
  - by apply Hgt.
  - rewrite (Hgt self self zs1 zs1 H1 H1). f_equal.
    destruct (shape_order zs1 zs1) eqn:E; [|done].
    by rewrite (shape_order_asymmetric _ _ E) in E.
  - rewrite (Hgt self a zs1 zs2 H1 H2), (Hgt a self zs2 zs1 H2 H1).
    intros H. injection H as H. f_equal. by apply shape_order_asymmetric.
Qed.

Lemma int_shape_example_4 : int_shape example_shapes 4 (Some [3; 4]%Z).
Proof.
  exists (Some [PRef 0; PRef 1]), (Some "float32"), (Some "X").
  split; [reflexivity|]. repeat constructor; eexists; eauto.
Qed.

Lemma int_shape_example_5 : int_shape example_shapes 5 (Some [3; 5]%Z).
Proof.
  exists (Some [PRef 2; PRef 3]), (Some "float32"), (Some "Y").
  split; [reflexivity|]. repeat constructor; eexists; eauto.
Qed.

Lemma X8_shape_gt_is_a_strict_order_witness :
  ShapeObject__gt__ 1 example_shapes 5 (PRef 4) = Ok true /\
  ShapeObject__gt__ 1 example_shapes 5 (PRef 5) = Ok false /\
  (ShapeObject__gt__ 1 example_shapes 5 (PRef 4) = Ok true ->
   ShapeObject__gt__ 1 example_shapes 4 (PRef 5) = Ok false).
Proof.
  exact (X8_shape_gt_is_a_strict_order 0 example_shapes 5 4
           (Some [3; 5]%Z) (Some [3; 4]%Z) int_shape_example_5 int_shape_example_4).
Defined.

(** ** Indexing inside the bounds, and append *)

Lemma py_index_range {A} (l : list A) (i : Z) n :
  py_index l i = Some n ->
  n < length l /\ (- Z.of_nat (length l) <= i < Z.of_nat (length l))%Z /\
  n = Z.to_nat (if bool_decide (0 <= i)%Z then i else Z.of_nat (length l) + i).
Proof.
  unfold py_index. intros Hi.
  repeat case_bool_decide; try discriminate;
    injection Hi as <-; split_and!; try lia; done.
Qed.

Lemma py_index_insert {A} (l : list A) (i : Z) n (v : A) :
  py_index (<[n := v]> l) i = py_index l i.
Proof. unfold py_index. by rewrite length_insert. Qed.

(** X9: for a shape of known rank [n] and an index [-n <= i < n] (a
    negative index counts from the end), [self[i] = v] replaces exactly
    that position of the shape's own list and allocates nothing; then
    [self[i]] is [v], every other position reads as before, and the rank
    is unchanged. *)
Theorem X9_setitem_then_getitem fuel (h : heap) self l dt nm (i : Z) v :
  h !! self = Some (ShapeObject (Some l) dt nm) ->
  (- Z.of_nat (length l) <= i < Z.of_nat (length l))%Z ->
  let n := Z.to_nat (if bool_decide (0 <= i)%Z then i else Z.of_nat (length l) + i) in
  let h' := <[self := ShapeObject (Some (<[n := v]> l)) dt nm]> h in
  ShapeObject__setitem__ fuel self i v h = Ok (tt, h') /\
  ShapeObject__getitem__ h' self i = Ok v /\
  ShapeObject__len__ h' self = ShapeObject__len__ h self /\
  (forall j m, py_index l j = Some m -> m <> n ->
     ShapeObject__getitem__ h' self j = ShapeObject__getitem__ h self j) /\
  (forall p, p <> self -> h' !! p = h !! p).
Proof.
  intros Hs Hi n h'.
  assert (Hidx : py_index l i = Some n).
  { unfold py_index, n. repeat case_bool_decide; try lia; done. }
  assert (Hn : n < length l) by (by apply py_index_range in Hidx as [? _]).
  assert (Hs' : h' !! self = Some (ShapeObject (Some (<[n := v]> l)) dt nm)).
  { apply list_lookup_insert_eq. by eapply lookup_lt_Some. }
  split_and!.
  - unfold ShapeObject__setitem__.
    rewrite (bind_step _ _ _ _ _ (get_shape_Ok h self _ _ _ Hs)).
    replace (Z.to_nat (i + 1 - Z.of_nat (length l))) with 0 by lia.
    simpl. unfold bind, ret. unfold list_setitem. by rewrite Hidx.
  - unfold ShapeObject__getitem__. rewrite Hs', length_insert.
    rewrite bool_decide_eq_false_2 by lia.
    unfold list_getitem. rewrite py_index_insert, Hidx.
    by rewrite list_lookup_insert_eq.
  - unfold ShapeObject__len__. by rewrite Hs', Hs, length_insert.
  - intros j m Hj Hm. unfold ShapeObject__getitem__.
    rewrite Hs', Hs, length_insert. case_bool_decide; [done|].
    unfold list_getitem. rewrite py_index_insert, Hj.
    by rewrite list_lookup_insert_ne.
  - intros p Hp. unfold h'. by rewrite list_lookup_insert_ne.
Qed.

Lemma X9_setitem_then_getitem_witness :
  let n := Z.to_nat (if bool_decide (0 <= -1)%Z then (-1)%Z
                     else Z.of_nat (length [PRef 0; PRef 1]) + -1) in
  let h' := <[4 := ShapeObject (Some (<[n := PInt 9]> [PRef 0; PRef 1]))
                     (Some "float32") (Some "X")]> example_shapes in
  ShapeObject__setitem__ 1 4 (-1) (PInt 9) example_shapes = Ok (tt, h') /\
  ShapeObject__getitem__ h' 4 (-1) = Ok (PInt 9) /\
  ShapeObject__len__ h' 4 = ShapeObject__len__ example_shapes 4 /\
  (forall j m, py_index [PRef 0; PRef 1] j = Some m -> m <> n ->
     ShapeObject__getitem__ h' 4 j = ShapeObject__getitem__ example_shapes 4 j) /\
  (forall p, p <> 4 -> h' !! p = example_shapes !! p).
Proof.
  apply (X9_setitem_then_getitem 1 example_shapes 4 [PRef 0; PRef 1]
           (Some "float32") (Some "X") (-1) (PInt 9)).
  - reflexivity.
  - simpl. lia.
Defined.

(** X10: the bounds of indexing. Below [-n] both [self[i]] and
    [self[i] = v] raise [IndexError] (while at [n] and above they do not,
    see C7); on the unknown shape [self[i]] is [None] for every [i] and
    [self[i] = v] changes nothing. *)
Theorem X10_index_bounds fuel (h : heap) self sh dt nm (i : Z) v :
  h !! self = Some (ShapeObject sh dt nm) ->
  (forall l, sh = Some l -> (i < - Z.of_nat (length l))%Z ->
     ShapeObject__getitem__ h self i = Raise IndexError /\
     ShapeObject__setitem__ fuel self i v h = Raise IndexError) /\
  (sh = None ->
     ShapeObject__getitem__ h self i = Ok PNone /\
     ShapeObject__setitem__ fuel self i v h = Ok (tt, h)).
Proof.
  intros Hs. split.
  - intros l -> Hi. split.
    + unfold ShapeObject__getitem__. rewrite Hs.
      rewrite bool_decide_eq_false_2 by lia.
      unfold list_getitem, py_index.
      rewrite bool_decide_eq_false_2 by lia.
      by rewrite bool_decide_eq_false_2 by lia.
    + unfold ShapeObject__setitem__.
      rewrite (bind_step _ _ _ _ _ (get_shape_Ok h self _ _ _ Hs)).
      replace (Z.to_nat (i + 1 - Z.of_nat (length l))) with 0 by lia.
      simpl. unfold bind, ret, list_setitem, py_index.
      rewrite bool_decide_eq_false_2 by lia.
      by rewrite bool_decide_eq_false_2 by lia.
  - intros ->. split.
    + unfold ShapeObject__getitem__. by rewrite Hs.
    + unfold ShapeObject__setitem__.
      by rewrite (bind_step _ _ _ _ _ (get_shape_Ok h self _ _ _ Hs)).
Qed.

Lemma X10_index_bounds_witness :
  ShapeObject__getitem__ example_shapes 4 (-3) = Raise IndexError /\
  ShapeObject__setitem__ 1 4 (-3) (PInt 9) example_shapes = Raise IndexError.
Proof.
  apply (proj1 (X10_index_bounds 1 example_shapes 4 (Some [PRef 0; PRef 1])
                  (Some "float32") (Some "X") (-3) (PInt 9) eq_refl)
           [PRef 0; PRef 1] eq_refl).
  simpl. lia.
Defined.

(** X11: [append] on a shape of known rank [n] makes the rank [n + 1]
    and leaves the first [n] positions alone. A DimensionObject argument
    is stored itself, so [self[n]] is that very object and nothing is
    allocated; an integer [z] is stored as a new dimension, unknown when
    [z] is [0]. On the unknown shape [append] does nothing. *)
Theorem X11_append fuel (h : heap) self sh dt nm :
  h !! self = Some (ShapeObject sh dt nm) ->
  (sh = None -> forall dim, ShapeObject_append fuel self dim h = Ok (tt, h)) /\
  (forall l d _dim, sh = Some l ->
     h !! d = Some (DimensionObject _dim) ->
     let h' := <[self := ShapeObject (Some (l ++ [PRef d])) dt nm]> h in
     ShapeObject_append fuel self (PRef d) h = Ok (tt, h') /\
     ShapeObject__getitem__ h' self (Z.of_nat (length l)) = Ok (PRef d) /\
     ShapeObject__len__ h' self = Ok (S (length l))) /\
  (forall l z, sh = Some l ->
     let d := length h in
     let h' := <[self := ShapeObject (Some (l ++ [PRef d])) dt nm]>
                 (h ++ [DimensionObject (if bool_decide (z = 0%Z) then PNone
                                         else PInt z)]) in
     ShapeObject_append fuel self (PInt z) h = Ok (tt, h') /\
     ShapeObject__getitem__ h' self (Z.of_nat (length l)) = Ok (PRef d) /\
     ShapeObject__len__ h' self = Ok (S (length l)) /\
     forall j, j < length l ->
       ShapeObject__getitem__ h' self (Z.of_nat j) =
       ShapeObject__getitem__ h self (Z.of_nat j)).
Proof.
  intros Hs.
  assert (Hlt : self < length h) by (by eapply lookup_lt_Some).
  assert (Hget : forall (h' : heap) l x,
            h' !! self = Some (ShapeObject (Some (l ++ [x])) dt nm) ->
            ShapeObject__getitem__ h' self (Z.of_nat (length l)) = Ok x /\
            ShapeObject__len__ h' self = Ok (S (length l))).
  { intros h' l x Hs'. unfold ShapeObject__getitem__, ShapeObject__len__.
    rewrite Hs', length_app. simpl. split; [|f_equal; lia].
    rewrite bool_decide_eq_false_2 by lia.
    unfold list_getitem, py_index. rewrite length_app. simpl.
    rewrite bool_decide_eq_true_2 by lia.
    rewrite bool_decide_eq_true_2 by lia.
    rewrite Nat2Z.id, lookup_app_r by lia. by rewrite Nat.sub_diag. }
  split_and!.
  - intros -> dim. unfold ShapeObject_append.
    by rewrite (bind_step _ _ _ _ _ (get_shape_Ok h self _ _ _ Hs)).
  - intros l d _dim -> Hd h'.
    assert (Hs' : h' !! self = Some (ShapeObject (Some (l ++ [PRef d])) dt nm))
      by (by apply list_lookup_insert_eq).
    split; [|by apply Hget].
    unfold ShapeObject_append.
    rewrite (bind_step _ _ _ _ _ (get_shape_Ok h self _ _ _ Hs)).
    unfold bind, read. simpl. by rewrite Hd.
  - intros l z -> d h'.
    assert (Hs' : h' !! self = Some (ShapeObject (Some (l ++ [PRef d])) dt nm)).
    { apply list_lookup_insert_eq. rewrite length_app. lia. }
    destruct (Hget h' l (PRef d) Hs') as [G1 G2].
    split_and!; [|exact G1|exact G2|].
    + unfold ShapeObject_append.
      rewrite (bind_step _ _ _ _ _ (get_shape_Ok h self _ _ _ Hs)).
      unfold bind at 1. unfold read. simpl.
      by rewrite (bind_step _ _ _ _ _ (DimensionObject__init__int fuel h z)).
    + intros j Hj. unfold ShapeObject__getitem__. rewrite Hs', Hs, length_app.
      rewrite !bool_decide_eq_false_2 by (simpl; lia).
      unfold list_getitem, py_index. rewrite length_app. simpl.
      rewrite !bool_decide_eq_true_2 by lia.
      by rewrite Nat2Z.id, lookup_app_l by lia.
Qed.

Lemma X11_append_witness :
  let h' := <[4 := ShapeObject (Some ([PRef 0; PRef 1] ++ [PRef 3]))
                     (Some "float32") (Some "X")]> example_shapes in
  ShapeObject_append 1 4 (PRef 3) example_shapes = Ok (tt, h') /\
  ShapeObject__getitem__ h' 4 (Z.of_nat (length [PRef 0; PRef 1])) = Ok (PRef 3) /\
  ShapeObject__len__ h' 4 = Ok (S (length [PRef 0; PRef 1])).
Proof.
  exact (proj1 (proj2 (X11_append 1 example_shapes 4 (Some [PRef 0; PRef 1])
                         (Some "float32") (Some "X") eq_refl))
           [PRef 0; PRef 1] 3 (PInt 5) eq_refl eq_refl).
Defined.

(** ** Copies of a shape *)

Lemma built_dims_extend (h h2 : heap) n l :
  built_dims h n l -> built_dims (h ++ h2) n l.
Proof.
  unfold built_dims. intros H. eapply Forall_impl; [exact H|].
  intros e (d & -> & Hd). exists d. split; [done|]. by apply built_extend.
Qed.

(** The constructor's loop over built dimensions: one new dimension per
    element, each holding a reference to the element. *)
Lemma forM_init_built fuel n l :
  forall h : heap, built_dims h n l -> n < fuel ->
    forM (DimensionObject__init__ fuel) l h =
      Ok (seq (length h) (length l), h ++ (DimensionObject <$> l)).
Proof.
  induction l as [|e l IH]; intros h Hl Hfuel.
  - simpl. unfold ret. by rewrite app_nil_r.
  - apply Forall_cons in Hl. destruct Hl as [(d & -> & Hd) Hl].
    simpl.
    rewrite (bind_step _ _ _ _ _ (DimensionObject__init__built h n d fuel Hd Hfuel)).
    rewrite (bind_step _ _ _ _ _
               (IH (h ++ [DimensionObject (PRef d)])
                   (built_dims_extend _ _ _ _ Hl) Hfuel)).
    unfold ret. rewrite length_app. simpl.
    by rewrite Nat.add_1_r, <- app_assoc.
Qed.

Lemma new_dims_built fuel n l (h : heap) :
  built_dims h n l -> n < fuel ->
  new_dims fuel l h =
    Ok (PRef <$> seq (length h) (length l), h ++ (DimensionObject <$> l)).
Proof.
  intros Hl Hfuel. unfold new_dims.
  by rewrite (bind_step _ _ _ _ _ (forM_init_built fuel n l h Hl Hfuel)).
Qed.

Lemma lookup_new_dims (h : heap) (l : list pyval) (tl : heap) j e :
  l !! j = Some e ->
  (h ++ (DimensionObject <$> l) ++ tl) !! (length h + j) = Some (DimensionObject e).
Proof.
  intros Hj. rewrite lookup_app_r by lia.
  replace (length h + j - length h) with j by lia.
  apply lookup_app_l_Some. by rewrite list_lookup_fmap, Hj.
Qed.

Lemma lookup_new_shape (h : heap) (l : list pyval) (o : object) :
  (h ++ (DimensionObject <$> l) ++ [o]) !! (length h + length l) = Some o.
Proof.
  rewrite lookup_app_r by lia.
  replace (length h + length l - length h) with (length (DimensionObject <$> l))
    by (rewrite length_fmap; lia).
  by rewrite lookup_app_r, Nat.sub_diag.
Qed.

Lemma forallb_new_dims (h : heap) (l : list pyval) :
  forallb (is_DimensionObject (h ++ (DimensionObject <$> l)))
          (PRef <$> seq (length h) (length l)) = true.
Proof.
  apply forallb_forall. intros x Hx. apply list_elem_of_In in Hx.
  apply list_elem_of_fmap in Hx. destruct Hx as (a & -> & Ha).
  apply elem_of_seq in Ha. simpl.
  destruct (lookup_lt_is_Some_2 l (a - length h) ltac:(lia)) as [e He].
  pose proof (lookup_new_dims h l [] (a - length h) e He) as H.
  rewrite app_nil_r in H. replace (length h + (a - length h)) with a in H by lia.
  by rewrite H.
Qed.

(** The constructor on a list of built dimensions. *)
Lemma ShapeObject__init__built fuel n l dt name (h : heap) :
  built_dims h n l -> n < fuel ->
  ShapeObject__init__ fuel (ShSeq l) (Some dt) false name h =
    Ok (length h + length l,
        h ++ (DimensionObject <$> l)
          ++ [ShapeObject (Some (PRef <$> seq (length h) (length l))) (Some dt) name]).
Proof.
  intros Hl Hfuel. unfold ShapeObject__init__.
  unfold bind at 1. unfold bind at 1.
  rewrite (new_dims_built fuel n l h Hl Hfuel). unfold ret at 1.
  unfold bind at 1. unfold bind at 1. unfold read at 1.
  rewrite forallb_new_dims. unfold ret, alloc.
  by rewrite length_app, length_fmap, <- app_assoc.
Qed.

(** X12: [copy] of a shape of known rank over built dimensions returns a
    new shape of the same rank; every dimension of the copy is a new
    object that refers to the dimension of the original at the same
    position ("a copy, not a deepcopy") and evaluates to the same value;
    the objects of the heap before the call are untouched. The [dtype]
    argument, when given, replaces the element type. *)
Theorem X12_copy_is_shallow fuel n (h : heap) self l sdt snm dtype name :
  h !! self = Some (ShapeObject (Some l) (Some sdt) snm) ->
  built_dims h n l -> n < fuel ->
  exists r h' l',
    ShapeObject_copy fuel self dtype name h = Ok (r, h') /\
    h' !! r = Some (ShapeObject (Some l') (Some (default sdt dtype))
                                (name_or name snm)) /\
    h !! r = None /\
    length l' = length l /\
    (forall j e, l !! j = Some e ->
       exists c, l' !! j = Some (PRef c) /\ h !! c = None /\
                 h' !! c = Some (DimensionObject e)) /\
    (forall j d c _dim kwargs m,
       l !! j = Some (PRef d) -> l' !! j = Some (PRef c) ->
       h !! d = Some (DimensionObject _dim) ->
       DimensionObject_evaluate (S m) h' kwargs c =
       DimensionObject_evaluate m h' kwargs d) /\
    (forall p o, h !! p = Some o -> h' !! p = Some o).
Proof.
  intros Hs Hl Hfuel.
  eexists (length h + length l), _, (PRef <$> seq (length h) (length l)).
  split.
  { unfold ShapeObject_copy.
    rewrite (bind_step _ _ _ _ _ (get_shape_Ok h self _ _ _ Hs)).
    assert (E : match dtype with None => Some sdt | Some _ => dtype end
                = Some (default sdt dtype)) by (by destruct dtype).
    rewrite E.
    by apply (ShapeObject__init__built fuel n). }
  assert (Hnew : forall j e, l !! j = Some e ->
    (h ++ (DimensionObject <$> l)
       ++ [ShapeObject (Some (PRef <$> seq (length h) (length l)))
                       (Some (default sdt dtype)) (name_or name snm)])
      !! (length h + j) = Some (DimensionObject e))
    by (intros; by apply lookup_new_dims).
  split_and!.
  - rewrite lookup_app_r by lia.
    replace (length h + length l - length h) with (length l) by lia.
    rewrite lookup_app_r by (by rewrite length_fmap).
    by rewrite length_fmap, Nat.sub_diag.
  - apply lookup_ge_None_2. lia.
  - by rewrite length_fmap, length_seq.
  - intros j e Hj. exists (length h + j). split_and!.
    + rewrite list_lookup_fmap, lookup_seq_lt; [done|by eapply lookup_lt_Some].
    + apply lookup_ge_None_2. lia.
    + by apply Hnew.
  - intros j d c _dim kwargs m Hj Hc Hd.
    rewrite list_lookup_fmap in Hc.
    rewrite lookup_seq_lt in Hc by (by eapply lookup_lt_Some).
    injection Hc as <-.
    rewrite DimensionObject_evaluate_S, (Hnew j _ Hj).
    by rewrite (lookup_app_l_Some _ _ _ _ Hd).
  - intros p o Hp. by apply lookup_app_l_Some.
Qed.

Lemma built_dims_example_4 : built_dims example_shapes 0 [PRef 0; PRef 1].
Proof.
  repeat constructor; eexists; (split; [reflexivity|]); by eapply built_int.
Qed.

Lemma X12_copy_is_shallow_witness :
  exists r h' l',
    ShapeObject_copy 1 4 (Some "int64") None example_shapes = Ok (r, h') /\
    h' !! r = Some (ShapeObject (Some l') (Some "int64") (Some "X")) /\
    example_shapes !! r = None /\
    length l' = 2 /\
    (forall j e, [PRef 0; PRef 1] !! j = Some e ->
       exists c, l' !! j = Some (PRef c) /\ example_shapes !! c = None /\
                 h' !! c = Some (DimensionObject e)) /\
    (forall j d c _dim kwargs m,
       [PRef 0; PRef 1] !! j = Some (PRef d) -> l' !! j = Some (PRef c) ->
       example_shapes !! d = Some (DimensionObject _dim) ->
       DimensionObject_evaluate (S m) h' kwargs c =
       DimensionObject_evaluate m h' kwargs d) /\
    (forall p o, example_shapes !! p = Some o -> h' !! p = Some o).
Proof.
  apply (X12_copy_is_shallow 1 0 example_shapes 4 [PRef 0; PRef 1]
           "float32" (Some "X") (Some "int64") None).
  - reflexivity.
  - exact built_dims_example_4.
  - lia.
Defined.

(** The copy of the unknown shape ignores [dtype]. *)
Lemma ShapeObject_copy_unknown fuel (h : heap) self sdt snm dtype name :
  h !! self = Some (ShapeObject None (Some sdt) snm) ->
  ShapeObject_copy fuel self dtype name h =
    Ok (length h, h ++ [ShapeObject None (Some sdt) (name_or name snm)]).
Proof.
  intros Hs. unfold ShapeObject_copy.
  by rewrite (bind_step _ _ _ _ _ (get_shape_Ok h self _ _ _ Hs)).
Qed.

(** ** reduce *)

Lemma DimensionObject__init__one fuel (h : heap) :
  DimensionObject__init__ fuel (PInt 1) h =
    Ok (length h, h ++ [DimensionObject (PInt 1)]).
Proof. by rewrite DimensionObject__init__int. Qed.

Lemma ShapeObject_reduce_known fuel (h : heap) self l sdt snm axis keepdims dtype :
  h !! self = Some (ShapeObject (Some l) sdt snm) ->
  ShapeObject_reduce fuel self axis keepdims dtype h =
    if bool_decide (0 <= axis < Z.of_nat (length l))%Z then
      bind (if keepdims then
              bind (DimensionObject__init__ fuel (PInt 1))
                   (fun one => ret (<[Z.to_nat axis := PRef one]> l))
            else ret (delete (Z.to_nat axis) l))
           (fun cp => ShapeObject__init__ fuel (ShSeq cp)
                        (match dtype with None => sdt | Some _ => dtype end)
                        false (Some (format_name snm ++ "-RD")%string)) h
    else Raise IndexError.
Proof.
  intros Hs. unfold ShapeObject_reduce.
  rewrite (bind_step _ _ _ _ _ (get_shape_Ok h self _ _ _ Hs)).
  by case_bool_decide.
Qed.

(** X13: [reduce] on a shape of known rank [n] over built dimensions. An
    axis outside [0 <= axis < n], a negative one included, raises
    [IndexError]. Otherwise, without [keepdims] the result is a new shape
    of rank [n - 1] whose dimensions refer, in order, to the dimensions of
    the original other than the one at [axis]; with [keepdims] it has rank
    [n], the dimension at [axis] refers to a new dimension [1], and the
    others refer to the original ones. The original shape is untouched. *)
Theorem X13_reduce fuel n (h : heap) self l sdt snm (axis : Z) dtype :
  h !! self = Some (ShapeObject (Some l) (Some sdt) snm) ->
  built_dims h n l -> n < fuel ->
  (~ (0 <= axis < Z.of_nat (length l))%Z ->
     forall keepdims,
       ShapeObject_reduce fuel self axis keepdims dtype h = Raise IndexError) /\
  ((0 <= axis < Z.of_nat (length l))%Z ->
     (exists r h' l',
        ShapeObject_reduce fuel self axis false dtype h = Ok (r, h') /\
        h' !! r = Some (ShapeObject (Some l') (Some (default sdt dtype))
                                    (Some (format_name snm ++ "-RD")%string)) /\
        length l' = length l - 1 /\
        (forall j e, delete (Z.to_nat axis) l !! j = Some e ->
           exists c, l' !! j = Some (PRef c) /\
                     h' !! c = Some (DimensionObject e)) /\
        (forall p o, h !! p = Some o -> h' !! p = Some o)) /\
     (exists r h' l' c one,
        ShapeObject_reduce fuel self axis true dtype h = Ok (r, h') /\
        h' !! r = Some (ShapeObject (Some l') (Some (default sdt dtype))
                                    (Some (format_name snm ++ "-RD")%string)) /\
        length l' = length l /\
        l' !! Z.to_nat axis = Some (PRef c) /\
        h' !! c = Some (DimensionObject (PRef one)) /\
        h' !! one = Some (DimensionObject (PInt 1)) /\
        (forall j e, j <> Z.to_nat axis -> l !! j = Some e ->
           exists c', l' !! j = Some (PRef c') /\
                      h' !! c' = Some (DimensionObject e)) /\
        (forall p o, h !! p = Some o -> h' !! p = Some o))).
Proof.
  intros Hs Hl Hfuel.
  assert (E : match dtype with None => Some sdt | Some _ => dtype end
              = Some (default sdt dtype)) by (by destruct dtype).
  split.
  { intros Hax keepdims. rewrite (ShapeObject_reduce_known _ _ _ _ _ _ _ _ _ Hs).
    by rewrite bool_decide_eq_false_2. }
  intros Hax. split.
  - assert (Hcp : built_dims h n (delete (Z.to_nat axis) l)).
    { by apply Forall_delete. }
    eexists _, _, _. split_and!.
    + rewrite (ShapeObject_reduce_known _ _ _ _ _ _ _ _ _ Hs).
      rewrite bool_decide_eq_true_2 by done. unfold bind at 1. unfold ret at 1.
      rewrite E. by apply (ShapeObject__init__built fuel n).
    + apply lookup_new_shape.
    + rewrite length_fmap, length_seq, length_delete; [done|].
      apply lookup_lt_is_Some_2. lia.
    + intros j e Hj. exists (length h + j). split.
      * rewrite list_lookup_fmap, lookup_seq_lt; [done|by eapply lookup_lt_Some].
      * by apply lookup_new_dims.
    + intros p o Hp. by apply lookup_app_l_Some.
  - set (h1 := h ++ [DimensionObject (PInt 1)]).
    set (cp := <[Z.to_nat axis := PRef (length h)]> l).
    assert (Hcp : built_dims h1 n cp).
    { unfold built_dims, cp. apply Forall_insert.
      - by apply built_dims_extend.
      - exists (length h). split; [done|].
        eapply built_int; [apply lookup_alloc_new|done]. }
    assert (Hlen : length cp = length l) by apply length_insert.
    eexists _, _, _, (length h1 + Z.to_nat axis), (length h). split_and!.
    + rewrite (ShapeObject_reduce_known _ _ _ _ _ _ _ _ _ Hs).
      rewrite bool_decide_eq_true_2 by done. unfold bind at 1. unfold bind at 1.
      rewrite (DimensionObject__init__one fuel h). unfold ret at 1.
      rewrite E. fold h1 cp. by apply (ShapeObject__init__built fuel n).
    + apply lookup_new_shape.
    + by rewrite length_fmap, length_seq.
    + rewrite list_lookup_fmap, lookup_seq_lt; [done|lia].
    + apply lookup_new_dims. unfold cp. apply list_lookup_insert_eq. lia.
    + apply lookup_app_l_Some. apply lookup_alloc_new.
    + intros j e Hj He. exists (length h1 + j). split.
      * rewrite list_lookup_fmap, lookup_seq_lt; [done|].
        rewrite Hlen. by eapply lookup_lt_Some.
      * apply lookup_new_dims. unfold cp. by rewrite list_lookup_insert_ne.
    + intros p o Hp. apply lookup_app_l_Some. by apply lookup_app_l_Some.
Qed.

Lemma X13_reduce_witness :
  ShapeObject_reduce 1 4 (-1) false None example_shapes = Raise IndexError.
Proof.
  apply (proj1 (X13_reduce 1 0 example_shapes 4 [PRef 0; PRef 1] "float32"
                  (Some "X") (-1) None eq_refl built_dims_example_4 ltac:(lia))).
  simpl. lia.
Defined.

(** ** transpose *)

Lemma forM_init_unknown fuel k :
  forall h : heap,
    forM (DimensionObject__init__ fuel) (replicate k PNone) h =
      Ok (seq (length h) k, h ++ replicate k (DimensionObject PNone)).
Proof.
  induction k as [|k IH]; intros h; simpl.
  - unfold ret. by rewrite app_nil_r.
  - rewrite (bind_step _ _ _ _ _
               (DimensionObject__init__unknown fuel h PNone (or_introl eq_refl))).
    rewrite (bind_step _ _ _ _ _ (IH _)). unfold ret.
    rewrite length_app. simpl. by rewrite Nat.add_1_r, <- app_assoc.
Qed.

Lemma forallb_new_unknown (h : heap) k :
  forallb (is_DimensionObject (h ++ replicate k (DimensionObject PNone)))
          (PRef <$> seq (length h) k) = true.
Proof.
  apply forallb_forall. intros x Hx. apply list_elem_of_In in Hx.
  apply list_elem_of_fmap in Hx. destruct Hx as (a & -> & Ha).
  apply elem_of_seq in Ha. simpl.
  rewrite lookup_app_r by lia.
  by rewrite (lookup_replicate_2 k (DimensionObject PNone) (a - length h)) by lia.
Qed.

(** [transpose] on a shape of known rank: as many unknown dimensions as
    [perm] has entries are allocated and dropped, and the new shape holds
    what the loop selects. *)
Lemma ShapeObject_transpose_known fuel (h : heap) self l dt nm perm :
  h !! self = Some (ShapeObject (Some l) (Some dt) nm) ->
  ShapeObject_transpose fuel self perm h =
    match transpose_dims l perm with
    | Ok ds =>
      Ok (length h + length perm,
          h ++ replicate (length perm) (DimensionObject PNone)
            ++ [ShapeObject (Some ds) (Some dt)
                            (Some (format_name nm ++ "-TR")%string)])
    | Raise e => Raise e
    end.
Proof.
  intros Hs. unfold ShapeObject_transpose.
  rewrite (bind_step _ _ _ _ _ (get_shape_Ok h self _ _ _ Hs)).
  set (k := length perm).
  set (o := ShapeObject (Some (PRef <$> seq (length h) k)) (Some dt)
                        (Some (format_name nm ++ "-TR")%string)).
  assert (Hinit : ShapeObject__init__ fuel (ShSeq (replicate k PNone)) (Some dt)
                    false (Some (format_name nm ++ "-TR")%string) h
                  = Ok (length h + k,
                        h ++ replicate k (DimensionObject PNone) ++ [o])).
  { unfold ShapeObject__init__, new_dims.
    unfold bind at 1. unfold bind at 1. unfold bind at 1.
    rewrite forM_init_unknown. unfold ret at 1. unfold ret at 1.
    unfold bind at 1. unfold bind at 1. unfold read at 1.
    rewrite forallb_new_unknown. unfold ret, alloc.
    by rewrite length_app, length_replicate, <- app_assoc. }
  rewrite (bind_step _ _ _ _ _ Hinit).
  assert (Hcp : (h ++ replicate k (DimensionObject PNone) ++ [o]) !! (length h + k)
                = Some o).
  { rewrite lookup_app_r by lia.
    replace (length h + k - length h) with k by lia.
    rewrite lookup_app_r by (by rewrite length_replicate).
    by rewrite length_replicate, Nat.sub_diag. }
  rewrite (bind_step _ _ _ _ _ (get_shape_Ok _ _ _ _ _ Hcp)).
  destruct (transpose_dims l perm) as [ds|e]; [|done].
  unfold bind, store, ret. simpl. f_equal. f_equal.
  rewrite insert_app_r_alt by lia.
  replace (length h + k - length h) with k by lia.
  rewrite insert_app_r_alt by (by rewrite length_replicate).
  by rewrite length_replicate, Nat.sub_diag.
Qed.

(** The loop of [transpose] for a [perm] of naturals: position [i]
    receives the element at [perm[i]], [None] when there is none. *)
Lemma transpose_dims_nat (l : list pyval) (ps : list nat) :
  transpose_dims l (Z.of_nat <$> ps) =
    Ok ((fun p => default PNone (l !! p)) <$> ps).
Proof.
  induction ps as [|p ps IH]; [done|].
  rewrite !fmap_cons. cbn [transpose_dims]. rewrite IH.
  case_bool_decide as Hp.
  - simpl. by rewrite lookup_ge_None_2 by lia.
  - unfold list_getitem, py_index.
    rewrite bool_decide_eq_true_2 by lia.
    rewrite bool_decide_eq_true_2 by lia.
    rewrite Nat2Z.id.
    destruct (lookup_lt_is_Some_2 l p ltac:(lia)) as [x Hx]. by rewrite Hx.
Qed.

(** X14: [transpose(perm)] on a shape of known rank, for a [perm] of
    naturals, returns a new shape with one position per entry of [perm];
    position [i] holds the very object at position [perm[i]] of the
    original (no new dimension) and [None] when [perm[i]] is past the
    end; the original is untouched. When [qs] inverts [ps] on the
    positions of the original, [transpose(ps)] followed by
    [transpose(qs)] gives back the original list of dimensions. *)
Theorem X14_transpose fuel (h : heap) self l dt nm (ps qs : list nat) :
  h !! self = Some (ShapeObject (Some l) (Some dt) nm) ->
  let l1 := (fun p => default PNone (l !! p)) <$> ps in
  exists r1 h1,
    ShapeObject_transpose fuel self (Z.of_nat <$> ps) h = Ok (r1, h1) /\
    h1 !! r1 = Some (ShapeObject (Some l1) (Some dt)
                                 (Some (format_name nm ++ "-TR")%string)) /\
    h !! r1 = None /\
    (forall p o, h !! p = Some o -> h1 !! p = Some o) /\
    (length qs = length l ->
     (forall i q, qs !! i = Some q -> ps !! q = Some i) ->
     exists r2 h2,
       ShapeObject_transpose fuel r1 (Z.of_nat <$> qs) h1 = Ok (r2, h2) /\
       h2 !! r2 = Some (ShapeObject (Some l) (Some dt)
                          (Some ((format_name nm ++ "-TR") ++ "-TR")%string))).
Proof.
  intros Hs l1.
  pose proof (ShapeObject_transpose_known fuel h self l dt nm (Z.of_nat <$> ps) Hs)
    as H1.
  rewrite transpose_dims_nat in H1. fold l1 in H1.
  assert (Hlook : forall (h0 : heap) k (o : object),
    (h0 ++ replicate k (DimensionObject PNone) ++ [o]) !! (length h0 + k) = Some o).
  { intros h0 k o. rewrite lookup_app_r by lia.
    replace (length h0 + k - length h0) with k by lia.
    rewrite lookup_app_r by (by rewrite length_replicate).
    by rewrite length_replicate, Nat.sub_diag. }
  eexists _, _. split; [exact H1|]. split_and!.
  - apply Hlook.
  - apply lookup_ge_None_2. lia.
  - intros p o Hp. by apply lookup_app_l_Some.
  - intros Hlen Hinv.
    pose proof (ShapeObject_transpose_known fuel _ _ l1 dt
                  (Some (format_name nm ++ "-TR")%string) (Z.of_nat <$> qs)
                  (Hlook h (length (Z.of_nat <$> ps))
                     (ShapeObject (Some l1) (Some dt)
                        (Some (format_name nm ++ "-TR")%string)))) as H2.
    rewrite transpose_dims_nat in H2.
    assert (E : (fun p => default PNone (l1 !! p)) <$> qs = l).
    { apply list_eq. intros i. rewrite list_lookup_fmap.
      destruct (qs !! i) as [q|] eqn:Hq; simpl.
      - specialize (Hinv i q Hq). unfold l1.
        rewrite list_lookup_fmap, Hinv. simpl.
        destruct (lookup_lt_is_Some_2 l i) as [x Hx];
          [rewrite <- Hlen; by eapply lookup_lt_Some|].
        by rewrite Hx.
      - symmetry. apply lookup_ge_None_2. rewrite <- Hlen.
        by apply lookup_ge_None_1. }
    rewrite E in H2.
    eexists _, _. split; [exact H2|]. apply Hlook.
Qed.

Lemma X14_transpose_witness :
  exists r1 h1,
    ShapeObject_transpose 1 4 (Z.of_nat <$> [1; 0]) example_shapes = Ok (r1, h1) /\
    h1 !! r1 = Some (ShapeObject (Some [PRef 1; PRef 0]) (Some "float32")
                                 (Some "X-TR")) /\
    example_shapes !! r1 = None /\
    (forall p o, example_shapes !! p = Some o -> h1 !! p = Some o) /\
    (length [1; 0] = 2 ->
     (forall i q, [1; 0] !! i = Some q -> [1; 0] !! q = Some i) ->
     exists r2 h2,
       ShapeObject_transpose 1 r1 (Z.of_nat <$> [1; 0]) h1 = Ok (r2, h2) /\
       h2 !! r2 = Some (ShapeObject (Some [PRef 0; PRef 1]) (Some "float32")
                                    (Some "X-TR-TR"))).
Proof.
  exact (X14_transpose 1 example_shapes 4 [PRef 0; PRef 1] "float32" (Some "X")
           [1; 0] [1; 0] eq_refl).
Defined.

(** ** drop_axis *)

Lemma omit_from_below {A} (axes : list nat) (l : list A) :
  forall i, (forall x, x ∈ axes -> x < i) -> omit_from i axes l = l.
Proof.
  induction l as [|y l IH]; intros i Hlt; [done|]. simpl.
  rewrite bool_decide_eq_false_2.
  - f_equal. apply IH. intros x Hx. specialize (Hlt x Hx). lia.
  - intros Hi. specialize (Hlt i Hi). lia.
Qed.

(** Deleting the highest listed position first leaves the lower listed
    positions where they were. *)
Lemma omit_from_delete {A} (axes : list nat) (l : list A) :
  forall i a, a < length l -> (forall x, x ∈ axes -> x < i + a) ->
    omit_from i axes (delete a l) = omit_from i ((i + a) :: axes) l.
Proof.
  induction l as [|y l IH]; intros i a Ha Hlt; [simpl in Ha; lia|].
  destruct a as [|a].
  - simpl. rewrite bool_decide_eq_true_2 by (rewrite Nat.add_0_r; set_solver).
    rewrite !omit_from_below; [done| |].
    + intros x Hx. apply elem_of_cons in Hx. destruct Hx as [->|Hx]; [lia|].
      specialize (Hlt x Hx). lia.
    + intros x Hx. specialize (Hlt x Hx). lia.
  - simpl in *.
    rewrite (bool_decide_ext (i ∈ (i + S a) :: axes) (i ∈ axes))
      by (rewrite elem_of_cons; split; [intros [?|?]; [lia|done]|auto]).
    replace (i + S a) with (S i + a) by lia.
    rewrite (IH (S i) a) by (try lia; intros x Hx; specialize (Hlt x Hx); lia).
    done.
Qed.

Lemma omit_from_ext {A} (axes1 axes2 : list nat) (l : list A) :
  (forall x, x ∈ axes1 <-> x ∈ axes2) ->
  forall i, omit_from i axes1 l = omit_from i axes2 l.
Proof.
  intros Hext. induction l as [|y l IH]; intros i; [done|]. simpl.
  rewrite (bool_decide_ext _ _ (Hext i)). by rewrite !IH.
Qed.

(** The loop of [drop_axis] on positions in strictly descending order. *)
Lemma delitems_descending {A} (s : list Z) :
  forall l : list A,
    StronglySorted (flip Z.le) s -> NoDup s ->
    (forall z, z ∈ s -> (0 <= z < Z.of_nat (length l))%Z) ->
    delitems l s = Ok (omit (Z.to_nat <$> s) l).
Proof.
  induction s as [|a s IH]; intros l Hsort Hnd Hrange.
  - simpl. unfold omit. by rewrite omit_from_below by set_solver.
  - apply StronglySorted_cons in Hsort. destruct Hsort as [Hle Hsort].
    apply NoDup_cons in Hnd. destruct Hnd as [Hna Hnd].
    assert (Ha : (0 <= a < Z.of_nat (length l))%Z) by (apply Hrange; set_solver).
    assert (Hlt : forall z, z ∈ s -> (0 <= z < a)%Z).
    { intros z Hz. rewrite Forall_forall in Hle. specialize (Hle z Hz).
      unfold flip in Hle. assert (z <> a) by (intros ->; done).
      specialize (Hrange z ltac:(set_solver)). lia. }
    simpl. unfold list_delitem, py_index.
    rewrite !bool_decide_eq_true_2 by lia. simpl.
    rewrite IH; [|done|done|].
    + f_equal. unfold omit.
      rewrite (omit_from_delete _ l 0 (Z.to_nat a)); [done|lia|].
      intros x Hx. apply list_elem_of_fmap in Hx. destruct Hx as (z & -> & Hz).
      specialize (Hlt z Hz). lia.
    + intros z Hz. specialize (Hlt z Hz).
      rewrite length_delete by (apply lookup_lt_is_Some_2; lia). lia.
Qed.

Global Instance flip_Zle_transitive : Transitive (flip Z.le).
Proof. intros x y z. unfold flip. lia. Qed.
Global Instance flip_Zle_total : Total (flip Z.le).
Proof. intros x y. unfold flip. lia. Qed.

(** X15: [drop_axis] with a list of distinct positions inside the shape
    removes exactly the listed positions of the shape's own list, in
    whatever order they are given (the loop deletes from the highest down,
    so no deletion shifts a position still to delete); the dimension
    objects are not touched. With a single position it deletes that one,
    and a position outside the list raises [IndexError]. *)
Theorem X15_drop_axis (h : heap) self l dt nm (axes : list nat) :
  h !! self = Some (ShapeObject (Some l) dt nm) ->
  NoDup axes ->
  (forall a, a ∈ axes -> a < length l) ->
  ShapeObject_drop_axis self (AxisSeq (Z.of_nat <$> axes)) h =
    Ok (tt, <[self := ShapeObject (Some (omit axes l)) dt nm]> h) /\
  (forall a, a < length l ->
     ShapeObject_drop_axis self (AxisInt (Z.of_nat a)) h =
       Ok (tt, <[self := ShapeObject (Some (delete a l)) dt nm]> h)) /\
  (forall i, (i < - Z.of_nat (length l) \/ Z.of_nat (length l) <= i)%Z ->
     ShapeObject_drop_axis self (AxisInt i) h = Raise IndexError).
Proof.
  intros Hs Hnd Hrange. split_and!.
  - unfold ShapeObject_drop_axis.
    rewrite (bind_step _ _ _ _ _ (get_shape_Ok h self _ _ _ Hs)).
    set (s := merge_sort (flip Z.le) (Z.of_nat <$> axes)).
    assert (Hperm : s ≡ₚ Z.of_nat <$> axes) by apply merge_sort_Permutation.
    rewrite (delitems_descending s l).
    + unfold store. f_equal. f_equal. f_equal. f_equal. f_equal.
      unfold omit. apply omit_from_ext. intros x.
      rewrite list_elem_of_fmap. split.
      * intros (z & -> & Hz). rewrite Hperm in Hz.
        apply list_elem_of_fmap in Hz. destruct Hz as (y & -> & Hy).
        by rewrite Nat2Z.id.
      * intros Hx. exists (Z.of_nat x). split; [by rewrite Nat2Z.id|].
        rewrite Hperm. apply list_elem_of_fmap. eauto.
    + apply StronglySorted_merge_sort; apply _.
    + rewrite Hperm. apply NoDup_fmap; [|done]. intros x y. lia.
    + intros z Hz. rewrite Hperm in Hz.
      apply list_elem_of_fmap in Hz. destruct Hz as (y & -> & Hy).
      specialize (Hrange y Hy). lia.
  - intros a Ha. unfold ShapeObject_drop_axis.
    rewrite (bind_step _ _ _ _ _ (get_shape_Ok h self _ _ _ Hs)).
    unfold list_delitem, py_index.
    rewrite !bool_decide_eq_true_2 by lia. by rewrite Nat2Z.id.
  - intros i Hi. unfold ShapeObject_drop_axis.
    rewrite (bind_step _ _ _ _ _ (get_shape_Ok h self _ _ _ Hs)).
    unfold list_delitem, py_index.
    destruct Hi as [Hi|Hi].
    + rewrite bool_decide_eq_false_2 by lia.
      by rewrite bool_decide_eq_false_2 by lia.
    + rewrite bool_decide_eq_true_2 by lia.
      by rewrite bool_decide_eq_false_2 by lia.
Qed.

Lemma X15_drop_axis_witness :
  ShapeObject_drop_axis 4 (AxisSeq (Z.of_nat <$> [0; 1])) example_shapes =
    Ok (tt, <[4 := ShapeObject (Some (omit [0; 1] [PRef 0; PRef 1]))
                     (Some "float32") (Some "X")]> example_shapes).
Proof.
  apply (X15_drop_axis example_shapes 4 [PRef 0; PRef 1] (Some "float32")
           (Some "X") [0; 1] eq_refl).
  - repeat constructor; set_solver.
  - intros a Ha. simpl.
    apply elem_of_cons in Ha. destruct Ha as [->|Ha]; [lia|].
    apply elem_of_cons in Ha. destruct Ha as [->|Ha]; [lia|].
    by apply not_elem_of_nil in Ha.
Defined.

(** ** evaluate on shapes *)

Lemma plain_dims_extend (h h2 : heap) l ds :
  plain_dims h l ds -> plain_dims (h ++ h2) l ds.
Proof.
  unfold plain_dims. intros H. eapply Forall2_impl; [exact H|].
  intros e [a d] (-> & Ha & Hd). split_and!; [done| |done].
  by apply lookup_app_l_Some.
Qed.

Lemma DimensionObject_evaluate_plain fuel (h : heap) kwargs a d :
  h !! a = Some (DimensionObject d) -> (forall p, d <> PRef p) ->
  DimensionObject_evaluate (S fuel) h kwargs a = Ok (plain_value kwargs a d).
Proof.
  intros Ha Hd. rewrite DimensionObject_evaluate_S, Ha.
  destruct d as [|z|s|p]; try done.
  - simpl. by destruct (kwargs !! s).
  - by destruct (Hd p).
Qed.

Lemma ShapeObject_evaluate_S fuel kwargs self :
  ShapeObject_evaluate (S fuel) kwargs self =
    let element (v : pyval) : M pyval :=
      match v with
      | PRef p =>
        bind (read (fun h => Ok (h !! p))) (fun o =>
        match o with
        | Some (DimensionObject _) =>
          bind (read (fun h => DimensionObject_evaluate fuel h kwargs p))
               (fun d => ret (pyval_of d))
        | Some (ShapeOperator _ _ _) =>
          bind (read (fun h => ShapeOperator_evaluate fuel h kwargs p))
               (fun d => ret (pyval_of d))
        | Some (ShapeObject _ _ _) =>
          bind (ShapeObject_evaluate fuel kwargs p) (fun d => ret (PRef d))
        | Some Foreign => raise AttributeError
        | None => raise SystemError
        end)
      | _ => raise AttributeError
      end in
    bind (get_shape self) (fun s =>
    bind (forM element (default [] (s.1.1))) (fun vs =>
    ShapeObject__init__ fuel (ShSeq vs) (s.1.2) false
      (Some (format_name (s.2) ++ "-EV")%string))).
Proof. reflexivity. Qed.

(** The constructor's loop over evaluated values. *)
Lemma forM_init_values fuel (vs : list evalue) :
  forall h : heap,
    forM (DimensionObject__init__ fuel) (pyval_of <$> vs) h =
      Ok (seq (length h) (length vs),
          h ++ (DimensionObject <$> (dim_of_value <$> vs))).
Proof.
  induction vs as [|v vs IH]; intros h.
  - simpl. unfold ret. by rewrite app_nil_r.
  - rewrite !fmap_cons. cbn [forM].
    assert (Hv : DimensionObject__init__ fuel (pyval_of v) h =
                 Ok (length h, h ++ [DimensionObject (dim_of_value v)])).
    { destruct v; [apply DimensionObject__init__int|apply DimensionObject__init__str]. }
    rewrite (bind_step _ _ _ _ _ Hv), (bind_step _ _ _ _ _ (IH _)).
    unfold ret. rewrite length_app. simpl.
    by rewrite Nat.add_1_r, <- app_assoc.
Qed.

Lemma forallb_new_objects (h : heap) (ds : list pyval) k :
  k = length ds ->
  forallb (is_DimensionObject (h ++ (DimensionObject <$> ds)))
          (PRef <$> seq (length h) k) = true.
Proof. intros ->. apply forallb_new_dims. Qed.

(** X16: [evaluate] on a shape whose dimensions hold integers, strings or
    [None] returns a new shape of the same rank and element type, named
    with the suffix [-EV], whose dimensions are new objects: an integer
    stays that integer; a symbol takes the value the binding gives it and
    stays a symbol when unbound; a symbol bound to [0] becomes the
    unknown dimension; and an unknown dimension becomes the symbol
    ["n<id>"] generated from its address. [evaluate] on the unknown shape
    returns a known shape of rank 0. *)
Theorem X16_evaluate_shape fuel kwargs (h : heap) self sh dt nm :
  h !! self = Some (ShapeObject sh (Some dt) nm) ->
  (sh = None ->
     ShapeObject_evaluate (S fuel) kwargs self h =
       Ok (length h,
           h ++ [ShapeObject (Some []) (Some dt)
                             (Some (format_name nm ++ "-EV")%string)])) /\
  (forall l ds, sh = Some l -> plain_dims h l ds ->
     exists r h' l',
       ShapeObject_evaluate (S (S fuel)) kwargs self h = Ok (r, h') /\
       h' !! r = Some (ShapeObject (Some l') (Some dt)
                                   (Some (format_name nm ++ "-EV")%string)) /\
       length l' = length l /\
       (forall j a d, ds !! j = Some (a, d) ->
          exists c, l' !! j = Some (PRef c) /\ h !! c = None /\
            h' !! c = Some (DimensionObject
                              (dim_of_value (plain_value kwargs a d)))) /\
       (forall p o, h !! p = Some o -> h' !! p = Some o)).
Proof.
  intros Hs. split.
  - intros ->. rewrite ShapeObject_evaluate_S. cbv zeta.
    by rewrite (bind_step _ _ _ _ _ (get_shape_Ok h self _ _ _ Hs)).
  - intros l ds -> Hl.
    set (vs := (fun ad : addr * pyval => plain_value kwargs ad.1 ad.2) <$> ds).
    assert (Hlen : length vs = length l).
    { unfold vs. rewrite length_fmap. symmetry. by eapply Forall2_length. }
    assert (Helems : forall element,
      (forall a d, h !! a = Some (DimensionObject d) -> (forall p, d <> PRef p) ->
         element (PRef a) h = Ok (pyval_of (plain_value kwargs a d), h)) ->
      forM element l h = Ok (pyval_of <$> vs, h)).
    { intros element He. unfold vs. clear Hlen vs Hs.
      induction Hl as [|e [a d] l ds (-> & Ha & Hd) _ IH]; [done|].
      cbn [forM]. rewrite (bind_step _ _ _ _ _ (He a d Ha Hd)).
      by rewrite (bind_step _ _ _ _ _ IH). }
    eexists (length h + length vs), _, (PRef <$> seq (length h) (length vs)).
    split_and!.
    + rewrite ShapeObject_evaluate_S. cbv zeta.
      rewrite (bind_step _ _ _ _ _ (get_shape_Ok h self _ _ _ Hs)). simpl.
      erewrite bind_step; cycle 1.
      { apply Helems. intros a d Ha Hd.
        unfold bind at 1. unfold read at 1. rewrite Ha.
        unfold bind at 1. unfold read at 1. rewrite Ha.
        destruct d as [|z|s|p]; [done|done| |by destruct (Hd p)].
        simpl. by destruct (kwargs !! s). }
      unfold ShapeObject__init__, new_dims.
      unfold bind at 1. unfold bind at 1. unfold bind at 1.
      rewrite forM_init_values. unfold ret at 1. unfold ret at 1.
      unfold bind at 1. unfold bind at 1. unfold read at 1.
      rewrite forallb_new_objects by (by rewrite length_fmap). unfold ret, alloc.
      by rewrite length_app, !length_fmap, <- app_assoc.
    + pose proof (lookup_new_shape h (dim_of_value <$> vs)) as Hn.
      rewrite length_fmap in Hn. apply Hn.
    + by rewrite length_fmap, length_seq.
    + intros j a d Hj. exists (length h + j). split_and!.
      * rewrite list_lookup_fmap, lookup_seq_lt; [done|].
        unfold vs. rewrite length_fmap. by eapply lookup_lt_Some.
      * apply lookup_ge_None_2. lia.
      * apply lookup_new_dims. unfold vs. by rewrite !list_lookup_fmap, Hj.
    + intros p o Hp. by apply lookup_app_l_Some.
Qed.

Lemma plain_dims_example_symbolic :
  plain_dims example_symbolic [PRef 0; PRef 1; PRef 2]
             [(0, PStr "n"); (1, PInt 2); (2, PNone)].
Proof. repeat constructor; done. Qed.

Lemma X16_evaluate_shape_witness :
  exists r h' l',
    ShapeObject_evaluate 2 {["n" := EInt 0]} 3 example_symbolic = Ok (r, h') /\
    h' !! r = Some (ShapeObject (Some l') (Some "float32") (Some "S-EV")) /\
    length l' = 3 /\
    (forall j a d, [(0, PStr "n"); (1, PInt 2); (2, PNone)] !! j = Some (a, d) ->
       exists c, l' !! j = Some (PRef c) /\ example_symbolic !! c = None /\
         h' !! c = Some (DimensionObject
                           (dim_of_value (plain_value {["n" := EInt 0]} a d)))) /\
    (forall p o, example_symbolic !! p = Some o -> h' !! p = Some o).
Proof.
  exact (proj2 (X16_evaluate_shape 0 {["n" := EInt 0]} example_symbolic 3
                  (Some [PRef 0; PRef 1; PRef 2]) "float32" (Some "S") eq_refl)
           [PRef 0; PRef 1; PRef 2] [(0, PStr "n"); (1, PInt 2); (2, PNone)]
           eq_refl plain_dims_example_symbolic).
Defined.

(** The same call, computed: ['n'] bound to [0] becomes unknown, [2] stays
    [2], the unknown dimension at address 2 becomes the symbol ["n2"]. *)
Lemma evaluate_shape_example :
  exists h',
    ShapeObject_evaluate 2 {["n" := EInt 0]} 3 example_symbolic = Ok (7, h') /\
    h' !! 7 = Some (ShapeObject (Some [PRef 4; PRef 5; PRef 6]) (Some "float32")
                                (Some "S-EV")) /\
    h' !! 4 = Some (DimensionObject PNone) /\
    h' !! 5 = Some (DimensionObject (PInt 2)) /\
    h' !! 6 = Some (DimensionObject (PStr "n2")).
Proof. eexists. split_and!; reflexivity. Qed.

(** ** product *)

Lemma ShapeObject__getitem__in_range (h : heap) self l dt nm i x :
  h !! self = Some (ShapeObject (Some l) dt nm) ->
  l !! i = Some x ->
  ShapeObject__getitem__ h self (Z.of_nat i) = Ok x.
Proof.
  intros Hs Hi. assert (i < length l) by (by eapply lookup_lt_Some).
  unfold ShapeObject__getitem__. rewrite Hs.
  rewrite bool_decide_eq_false_2 by lia.
  unfold list_getitem, py_index. rewrite !bool_decide_eq_true_2 by lia.
  by rewrite Nat2Z.id, Hi.
Qed.

Lemma DimensionObject__mul__binary fuel self obj :
  DimensionObject__mul__ fuel self obj = binary_operator OpMul fuel self obj.
Proof. reflexivity. Qed.

(** The loop of [product] over integer dimensions multiplies them on. *)
Lemma product_loop_int fuel kwargs self l dt nm (rest : list Z) :
  forall i (hk : heap) cl dcl P n,
    hk !! self = Some (ShapeObject (Some l) dt nm) ->
    (forall j z, rest !! j = Some z ->
       exists a, l !! (i + j) = Some (PRef a) /\
                 hk !! a = Some (DimensionObject (PInt z))) ->
    hk !! cl = Some (DimensionObject dcl) ->
    (forall m, n <= m -> DimensionObject_evaluate m hk kwargs cl = Ok (EInt P)) ->
    exists r ext n',
      product_loop fuel self (seq i (length rest)) (PRef cl) hk
        = Ok (PRef r, hk ++ ext) /\
      is_DimensionObject (hk ++ ext) (PRef r) = true /\
      forall m, n' <= m ->
        DimensionObject_evaluate m (hk ++ ext) kwargs r
          = Ok (EInt (P * foldr Z.mul 1%Z rest)).
Proof.
  induction rest as [|z rest IH]; intros i hk cl dcl P n Hs Hl Hcl Hev.
  - exists cl, [], n. simpl. rewrite app_nil_r, Hcl, Z.mul_1_r. by split_and!.
  - destruct (Hl 0 z eq_refl) as (a & Ha & Hda). rewrite Nat.add_0_r in Ha.
    cbn [length seq product_loop].
    unfold bind at 1. unfold read at 1.
    rewrite (ShapeObject__getitem__in_range _ _ _ _ _ _ _ Hs Ha).
    unfold py_mul. unfold bind at 1. unfold bind at 1. unfold read at 1.
    rewrite Hcl. unfold bind at 1.
    assert (Eva : forall m, Nat.max n 1 <= m ->
              DimensionObject_evaluate m hk kwargs a = Ok (EInt z)).
    { intros [|m] Hm; [lia|]. by rewrite DimensionObject_evaluate_S, Hda. }
    assert (Evcl : forall m, Nat.max n 1 <= m ->
              DimensionObject_evaluate m hk kwargs cl = Ok (EInt P))
      by (intros m Hm; apply Hev; lia).
    destruct (evaluate_binary_operator OpMul kwargs hk cl a dcl (PInt z)
                (EInt P) (EInt z) (Nat.max n 1) Hcl Hda Evcl Eva) as [Hop Ev].
    rewrite DimensionObject__mul__binary, Hop. unfold ret at 1.
    set (hk' := hk ++ [ShapeOperator OpMul (PRef cl) (PRef a);
                       DimensionObject (PRef (length hk))]) in *.
    destruct (IH (S i) hk' (S (length hk)) (PRef (length hk)) (P * z)%Z
                 (S (S (Nat.max n 1)))) as (r & ext & n' & Hloop & Hr & Hres).
    + by apply lookup_app_l_Some.
    + intros j z' Hj. destruct (Hl (S j) z' Hj) as (a' & Ha' & Hda').
      exists a'. split; [by replace (S i + j) with (i + S j) by lia|].
      by apply lookup_app_l_Some.
    + unfold hk'. rewrite lookup_app_r by lia.
      by replace (S (length hk) - length hk) with 1 by lia.
    + exact Ev.
    + exists r, ([ShapeOperator OpMul (PRef cl) (PRef a);
                  DimensionObject (PRef (length hk))] ++ ext), n'.
      rewrite app_assoc. fold hk'. split_and!; [exact Hloop|exact Hr|].
      intros m Hm. rewrite (Hres m Hm). simpl. f_equal. f_equal. lia.
Qed.

(** X17: [product] of a shape of rank at least one over integer
    dimensions returns a dimension that evaluates to the product of the
    integers; it only allocates. On a shape of rank 0 it returns the integer [1], not a
    dimension, and on the unknown shape [None]. *)
Theorem X17_product fuel kwargs (h : heap) self sh dt nm :
  h !! self = Some (ShapeObject sh dt nm) ->
  (sh = None -> ShapeObject_product fuel self h = Ok (PNone, h)) /\
  (sh = Some [] -> ShapeObject_product fuel self h = Ok (PInt 1, h)) /\
  (forall l zs, sh = Some l -> l <> [] -> int_dims h l zs ->
     exists r ext n,
       ShapeObject_product fuel self h = Ok (PRef r, h ++ ext) /\
       is_DimensionObject (h ++ ext) (PRef r) = true /\
       forall m, n <= m ->
         DimensionObject_evaluate m (h ++ ext) kwargs r
           = Ok (EInt (foldr Z.mul 1%Z zs))).
Proof.
  intros Hs. unfold ShapeObject_product. split_and!.
  - intros ->. unfold bind, read, ShapeObject__getitem__, ShapeObject__len__.
    rewrite Hs. cbn. rewrite ?Hs. reflexivity.
  - intros ->. unfold bind, read, ShapeObject__getitem__, ShapeObject__len__.
    rewrite Hs. rewrite bool_decide_eq_true_2 by (simpl; lia).
    cbv beta iota. rewrite Hs. reflexivity.
  - intros l zs -> Hne Hl.
    destruct Hl as [|d0 z0 l zs (a0 & -> & Ha0) Hl]; [done|].
    pose proof (ShapeObject__getitem__in_range _ _ _ _ _ 0 _ Hs eq_refl) as H0.
    change (Z.of_nat 0) with 0%Z in H0.
    unfold bind at 1. unfold read at 1. rewrite H0.
    unfold bind at 1. unfold read at 1. unfold ShapeObject__len__. rewrite Hs.
    cbn [length]. rewrite Nat.sub_succ, Nat.sub_0_r.
    rewrite (Forall2_length _ _ _ Hl).
    destruct (product_loop_int fuel kwargs self (PRef a0 :: l) dt nm zs 1 h a0
                (PInt z0) z0 1 Hs) as (r & ext & n' & Hloop & Hr & Hres).
    + intros j z Hj. simpl.
      destruct (Forall2_lookup_r _ _ _ _ _ Hl Hj) as (e & He & a & -> & Ha).
      eauto.
    + exact Ha0.
    + intros [|m] Hm; [lia|]. by rewrite DimensionObject_evaluate_S, Ha0.
    + exists r, ext, n'. split_and!; [exact Hloop|exact Hr|exact Hres].
Qed.

Lemma X17_product_witness :
  exists r ext n,
    ShapeObject_product 1 4 example_shapes = Ok (PRef r, example_shapes ++ ext) /\
    is_DimensionObject (example_shapes ++ ext) (PRef r) = true /\
    forall m, n <= m ->
      DimensionObject_evaluate m (example_shapes ++ ext) ∅ r
        = Ok (EInt (foldr Z.mul 1%Z [3; 4]%Z)).
Proof.
  apply (proj2 (proj2 (X17_product 1 ∅ example_shapes 4 (Some [PRef 0; PRef 1])
                         (Some "float32") (Some "X") eq_refl))
           [PRef 0; PRef 1] [3; 4]%Z eq_refl).
  - discriminate.
  - repeat constructor; eexists; eauto.
Defined.

(** ** to_string *)

Lemma forM_pure {A B} (f : A -> M B) (g : A -> B) (l : list A) (h : heap) :
  Forall (fun a => f a h = Ok (g a, h)) l ->
  forM f l h = Ok (g <$> l, h).
Proof.
  induction 1 as [|a l Ha _ IH]; [done|].
  cbn [forM]. rewrite (bind_step _ _ _ _ _ Ha).
  by rewrite (bind_step _ _ _ _ _ IH).
Qed.

Lemma forM_raise_head {A B} (f : A -> M B) a (l : list A) (h : heap) e :
  f a h = Raise e -> forM f (a :: l) h = Raise e.
Proof. intros H. cbn [forM]. unfold bind. by rewrite H. Qed.

Lemma ShapeObject_copy_known fuel n (h : heap) self l sdt snm dtype name :
  h !! self = Some (ShapeObject (Some l) (Some sdt) snm) ->
  built_dims h n l -> n < fuel ->
  ShapeObject_copy fuel self dtype name h =
    Ok (length h + length l,
        h ++ (DimensionObject <$> l)
          ++ [ShapeObject (Some (PRef <$> seq (length h) (length l)))
                          (Some (default sdt dtype)) (name_or name snm)]).
Proof.
  intros Hs Hl Hfuel. unfold ShapeObject_copy.
  rewrite (bind_step _ _ _ _ _ (get_shape_Ok h self _ _ _ Hs)).
  assert (E : match dtype with None => Some sdt | Some _ => dtype end
              = Some (default sdt dtype)) by (by destruct dtype).
  rewrite E. by apply (ShapeObject__init__built fuel n).
Qed.

(** X18: [to_string] of a shape over integer dimensions is the tuple
    text of the integers and leaves the heap alone. The copy of a shape of
    rank at least one whose elements are dimensions cannot be printed:
    [copy] wraps every dimension in a new DimensionObject, for which
    [DimensionObject.to_string] has no case, so [to_string] of the copy
    raises NotImplementedError. *)
Theorem X18_to_string fuel n (h : heap) self l sdt snm use_x :
  h !! self = Some (ShapeObject (Some l) (Some sdt) snm) ->
  (forall zs, int_dims h l zs ->
     ShapeObject_to_string (S (S fuel)) self use_x h =
       Ok ("(" ++ String.concat ", " (str_of_int <$> zs) ++ ")", h)%string) /\
  (forall dtype name,
     built_dims h n l -> n < fuel ->
     Forall (fun e => is_DimensionObject h e = true) l -> l <> [] ->
     exists r h',
       ShapeObject_copy fuel self dtype name h = Ok (r, h') /\
       ShapeObject_to_string (S (S fuel)) r use_x h' = Raise NotImplementedError).
Proof.
  intros Hs. split.
  - intros zs Hl. cbn [ShapeObject_to_string].
    rewrite (bind_step _ _ _ _ _ (get_shape_Ok h self _ _ _ Hs)).
    assert (Ht : int_text h <$> l = str_of_int <$> zs).
    { clear Hs. induction Hl as [|e z l zs (a & -> & Ha) _ IH]; [done|].
      rewrite !fmap_cons, IH. f_equal. unfold int_text. by rewrite Ha. }
    cbn [fst]. erewrite bind_step; [|apply (forM_pure _ (int_text h))].
    + unfold ret. by rewrite Ht.
    + assert (Hd : Forall (fun e => exists a z, e = PRef a /\
                       h !! a = Some (DimensionObject (PInt z))) l).
      { clear Hs Ht. induction Hl as [|e z l zs (a & -> & Ha) _ IH]; eauto. }
      eapply Forall_impl; [exact Hd|].
      intros e (a & z & -> & Ha). unfold bind at 1. unfold read at 1.
      rewrite Ha. unfold DimensionObject_to_string, bind, read, int_text.
      by rewrite Ha.
  - intros dtype name Hl Hfuel Hd Hne.
    eexists _, _. split; [by apply (ShapeObject_copy_known fuel n)|].
    destruct l as [|e l]; [done|].
    apply Forall_cons in Hd. destruct Hd as [He _].
    destruct e as [| | |d]; try discriminate He.
    simpl in He. destruct (h !! d) as [[dd| | |]|] eqn:Ed; try discriminate He.
    cbn [ShapeObject_to_string].
    erewrite bind_step; [|apply get_shape_Ok, lookup_new_shape].
    cbn [fst length seq fmap list_fmap].
    assert (Hc : forall tl : heap,
              (h ++ (DimensionObject (PRef d) :: (DimensionObject <$> l)) ++ tl)
                !! length h = Some (DimensionObject (PRef d))).
    { intros tl. rewrite lookup_app_r by lia. by rewrite Nat.sub_diag. }
    unfold bind at 1. erewrite forM_raise_head; [done|].
    unfold bind at 1. unfold read at 1. rewrite Hc.
    unfold DimensionObject_to_string. unfold bind at 1. unfold read at 1.
    rewrite Hc. unfold bind, read, is_ShapeOperator.
    by rewrite (lookup_app_l_Some _ _ _ _ Ed).
Qed.

Lemma X18_to_string_witness :
  (forall zs, int_dims example_shapes [PRef 0; PRef 1] zs ->
     ShapeObject_to_string 3 4 false example_shapes =
       Ok ("(" ++ String.concat ", " (str_of_int <$> zs) ++ ")", example_shapes)%string) /\
  (forall dtype name,
     built_dims example_shapes 0 [PRef 0; PRef 1] -> 0 < 1 ->
     Forall (fun e => is_DimensionObject example_shapes e = true) [PRef 0; PRef 1] ->
     [PRef 0; PRef 1] <> [] ->
     exists r h',
       ShapeObject_copy 1 4 dtype name example_shapes = Ok (r, h') /\
       ShapeObject_to_string 3 r false h' = Raise NotImplementedError).
Proof.
  exact (X18_to_string 1 0 example_shapes 4 [PRef 0; PRef 1] "float32" (Some "X")
           false eq_refl).
Defined.

(** The two calls computed: [(3, 4)] prints, its copy does not. *)
Lemma to_string_example :
  ShapeObject_to_string 3 4 false example_shapes = Ok ("(3, 4)", example_shapes) /\
  (exists r h', ShapeObject_copy 1 4 None None example_shapes = Ok (r, h') /\
                ShapeObject_to_string 3 r false h' = Raise NotImplementedError).
Proof. split; [reflexivity|]. eexists _, _. split; reflexivity. Qed.

(** X19: printing and evaluating an operator over two integer dimensions
    [x] and [y]. [to_string] prints the integer [x op y], through a
    temporary dimension it allocates; when that integer is [0] the
    temporary dimension is the unknown one and the text is ['x'], whatever
    [use_x] is. [evaluate] returns the integer [x op y], [0] included. *)
Theorem X19_operator_to_string_and_evaluate fuel k kwargs (h : heap) p a b x y use_x :
  h !! p = Some (ShapeOperator k (PRef a) (PRef b)) ->
  h !! a = Some (DimensionObject (PInt x)) ->
  h !! b = Some (DimensionObject (PInt y)) ->
  ShapeOperator_to_string fuel p use_x h =
    Ok (if bool_decide (_fct k x y = 0)%Z then "x" else str_of_int (_fct k x y),
        h ++ [DimensionObject (if bool_decide (_fct k x y = 0)%Z then PNone
                               else PInt (_fct k x y))]) /\
  ShapeOperator_evaluate (S (S fuel)) h kwargs p = Ok (EInt (_fct k x y)).
Proof.
  intros Hp Ha Hb. split.
  - unfold ShapeOperator_to_string.
    unfold bind at 1. unfold read at 1. rewrite Hp.
    unfold bind at 1. unfold read at 1. rewrite Ha.
    unfold bind at 1. unfold read at 1. rewrite Hb.
    unfold temporary_to_string.
    rewrite (bind_step _ _ _ _ _ (DimensionObject__init__int fuel h _)).
    unfold bind, read. rewrite lookup_app_r by lia. rewrite Nat.sub_diag.
    by case_bool_decide.
  - rewrite ShapeOperator_evaluate_S, Hp. cbv beta iota zeta.
    unfold is_DimensionObject. rewrite Ha, Hb.
    by rewrite !DimensionObject_evaluate_S, Ha, Hb.
Qed.

Lemma X19_operator_to_string_and_evaluate_witness :
  ShapeOperator_to_string 1 4 false
      (example_heap ++ [ShapeOperator OpAdd (PRef 1) (PRef 2)]) =
    Ok (if bool_decide (_fct OpAdd 5 3 = 0)%Z then "x"
        else str_of_int (_fct OpAdd 5 3),
        (example_heap ++ [ShapeOperator OpAdd (PRef 1) (PRef 2)])
          ++ [DimensionObject (if bool_decide (_fct OpAdd 5 3 = 0)%Z then PNone
                               else PInt (_fct OpAdd 5 3))]) /\
  ShapeOperator_evaluate 3 (example_heap ++ [ShapeOperator OpAdd (PRef 1) (PRef 2)])
      ∅ 4 = Ok (EInt (_fct OpAdd 5 3)).
Proof.
  exact (X19_operator_to_string_and_evaluate 1 OpAdd ∅
           (example_heap ++ [ShapeOperator OpAdd (PRef 1) (PRef 2)]) 4 1 2 5 3 false
           eq_refl eq_refl eq_refl).
Defined.

(** ** squeeze *)

Lemma name_or_suffix (s t : string) (y : option string) :
  t <> "" -> name_or (Some (s ++ t)%string) y = Some (s ++ t)%string.
Proof. intros Ht. destruct s; [by destruct t|reflexivity]. Qed.

Lemma ShapeObject_drop_axis_int (h : heap) self l dt nm a :
  h !! self = Some (ShapeObject (Some l) dt nm) ->
  a < length l ->
  ShapeObject_drop_axis self (AxisInt (Z.of_nat a)) h =
    Ok (tt, <[self := ShapeObject (Some (delete a l)) dt nm]> h).
Proof.
  intros Hs Ha. unfold ShapeObject_drop_axis.
  rewrite (bind_step _ _ _ _ _ (get_shape_Ok h self _ _ _ Hs)).
  unfold list_delitem, py_index.
  rewrite !bool_decide_eq_true_2 by lia. by rewrite Nat2Z.id.
Qed.

Lemma ShapeObject_drop_axis_out_of_range (h : heap) self l dt nm i :
  h !! self = Some (ShapeObject (Some l) dt nm) ->
  (i < - Z.of_nat (length l) \/ Z.of_nat (length l) <= i)%Z ->
  ShapeObject_drop_axis self (AxisInt i) h = Raise IndexError.
Proof.
  intros Hs Hi. unfold ShapeObject_drop_axis.
  rewrite (bind_step _ _ _ _ _ (get_shape_Ok h self _ _ _ Hs)).
  unfold list_delitem, py_index.
  destruct Hi as [Hi|Hi].
  - rewrite bool_decide_eq_false_2 by lia.
    by rewrite bool_decide_eq_false_2 by lia.
  - rewrite bool_decide_eq_true_2 by lia.
    by rewrite bool_decide_eq_false_2 by lia.
Qed.

(** X20: [squeeze(axis)] on a shape of known rank [n] over built
    dimensions, for one position [axis < n]: the result is a new shape of
    rank [n - 1], named with the suffix [-SZ], whose dimensions are new
    objects referring, in order, to the dimensions of the original other
    than the one at [axis]; the original shape and every object of the
    heap before the call are untouched (the axis is dropped from the
    copy). An axis below [-n] or at [n] and above raises [IndexError]. *)
Theorem X20_squeeze fuel n (h : heap) self l sdt snm :
  h !! self = Some (ShapeObject (Some l) (Some sdt) snm) ->
  built_dims h n l -> n < fuel ->
  (forall a, a < length l ->
     exists r h' l',
       ShapeObject_squeeze fuel self (AxisInt (Z.of_nat a)) h = Ok (r, h') /\
       h' !! r = Some (ShapeObject (Some l') (Some sdt)
                                   (Some (format_name snm ++ "-SZ")%string)) /\
       h !! r = None /\
       S (length l') = length l /\
       (forall j e, delete a l !! j = Some e ->
          exists c, l' !! j = Some (PRef c) /\ h !! c = None /\
                    h' !! c = Some (DimensionObject e)) /\
       (forall p o, h !! p = Some o -> h' !! p = Some o)) /\
  (forall i, (i < - Z.of_nat (length l) \/ Z.of_nat (length l) <= i)%Z ->
     ShapeObject_squeeze fuel self (AxisInt i) h = Raise IndexError).
Proof.
  intros Hs Hl Hfuel.
  pose proof (ShapeObject_copy_known fuel n h self l sdt snm None
                (Some (format_name snm ++ "-SZ")%string) Hs Hl Hfuel) as Hcp.
  rewrite name_or_suffix in Hcp by done. cbn [default] in Hcp.
  set (cp := ShapeObject (Some (PRef <$> seq (length h) (length l))) (Some sdt)
                         (Some (format_name snm ++ "-SZ")%string)) in *.
  set (h1 := h ++ (DimensionObject <$> l) ++ [cp]) in *.
  assert (Hr : h1 !! (length h + length l) = Some cp)
    by apply lookup_new_shape.
  split.
  - intros a Ha.
    exists (length h + length l),
      (<[length h + length l :=
           ShapeObject (Some (delete a (PRef <$> seq (length h) (length l))))
                       (Some sdt) (Some (format_name snm ++ "-SZ")%string)]> h1),
      (delete a (PRef <$> seq (length h) (length l))).
    assert (Hlen : length h + length l < length h1).
    { unfold h1. rewrite !length_app, length_fmap. simpl. lia. }
    split_and!.
    + unfold ShapeObject_squeeze.
      rewrite (bind_step _ _ _ _ _ (get_shape_Ok h self _ _ _ Hs)).
      cbn [snd]. rewrite (bind_step _ _ _ _ _ Hcp).
      erewrite bind_step;
        [|apply (ShapeObject_drop_axis_int h1 _ _ _ _ a Hr);
          by rewrite length_fmap, length_seq].
      reflexivity.
    + by rewrite list_lookup_insert_eq.
    + apply lookup_ge_None. lia.
    + rewrite length_delete.
      * rewrite length_fmap, length_seq. lia.
      * apply lookup_lt_is_Some. by rewrite length_fmap, length_seq.
    + intros j e Hj.
      assert (Hk : exists k, l !! k = Some e /\
                (PRef <$> seq (length h) (length l)) !! k = Some (PRef (length h + k)) /\
                delete a (PRef <$> seq (length h) (length l)) !! j
                  = (PRef <$> seq (length h) (length l)) !! k).
      { destruct (decide (j < a)) as [Hlt|Hge].
        - rewrite list_lookup_delete_lt in Hj by done. exists j.
          split_and!; [done| |by rewrite list_lookup_delete_lt].
          rewrite list_lookup_fmap, lookup_seq_lt; [done|].
          by eapply lookup_lt_Some.
        - rewrite list_lookup_delete_ge in Hj by lia. exists (S j).
          split_and!; [done| |by rewrite list_lookup_delete_ge by lia].
          rewrite list_lookup_fmap, lookup_seq_lt; [done|].
          by eapply lookup_lt_Some. }
      destruct Hk as (k & Hk & Hnew & Hdel).
      exists (length h + k). split_and!.
      * by rewrite Hdel.
      * apply lookup_ge_None. lia.
      * assert (k < length l) by (by eapply lookup_lt_Some).
        rewrite list_lookup_insert_ne by lia.
        by apply lookup_new_dims.
    + intros p o Hp.
      assert (p < length h) by (by eapply lookup_lt_Some).
      rewrite list_lookup_insert_ne by lia.
      by apply lookup_app_l_Some.
  - intros i Hi. unfold ShapeObject_squeeze.
    rewrite (bind_step _ _ _ _ _ (get_shape_Ok h self _ _ _ Hs)).
    cbn [snd]. rewrite (bind_step _ _ _ _ _ Hcp).
    unfold bind.
    rewrite (ShapeObject_drop_axis_out_of_range h1 _ _ _ _ i Hr); [done|].
    by rewrite length_fmap, length_seq.
Qed.

Lemma X20_squeeze_witness :
  exists r h' l',
    ShapeObject_squeeze 1 4 (AxisInt (Z.of_nat 0)) example_shapes = Ok (r, h') /\
    h' !! r = Some (ShapeObject (Some l') (Some "float32") (Some "X-SZ")) /\
    example_shapes !! r = None /\
    S (length l') = 2 /\
    (forall j e, delete 0 [PRef 0; PRef 1] !! j = Some e ->
       exists c, l' !! j = Some (PRef c) /\ example_shapes !! c = None /\
                 h' !! c = Some (DimensionObject e)) /\
    (forall p o, example_shapes !! p = Some o -> h' !! p = Some o).
Proof.
  apply (proj1 (X20_squeeze 1 0 example_shapes 4 [PRef 0; PRef 1] "float32"
                  (Some "X") eq_refl built_dims_example_4 ltac:(lia)) 0).
  simpl. lia.
Defined.

(** ** The constructor of shapes and [use_n1] *)

(** X21: [ShapeObject(values, dtype, use_n1, name)] on a tuple of integers
    and strings allocates one dimension per value, in order, then the
    shape: [0] and ['?'] give unknown dimensions, every other value is
    kept. With [use_n1] an unknown first dimension is renamed ['n'] and
    nothing else changes; without it the dimensions are exactly the
    values. The objects of the heap before the call are not touched. *)
Theorem X21_shape_constructor_use_n1 fuel (vs : list evalue) dt use_n1 name (h : heap) :
  ShapeObject__init__ fuel (ShSeq (pyval_of <$> vs)) (Some dt) use_n1 name h =
    Ok (length h + length vs,
        h ++ (DimensionObject <$> named_first use_n1 (dim_of_value <$> vs))
          ++ [ShapeObject (Some (PRef <$> seq (length h) (length vs)))
                          (Some dt) name]).
Proof.
  unfold ShapeObject__init__.
  unfold bind at 1. unfold bind at 1. unfold new_dims.
  rewrite (bind_step _ _ _ _ _ (forM_init_values fuel vs h)).
  unfold ret at 1. unfold ret at 1.
  unfold bind at 1. unfold bind at 1. unfold read at 1.
  rewrite forallb_new_objects by (by rewrite length_fmap).
  set (h1 := h ++ (DimensionObject <$> (dim_of_value <$> vs))).
  assert (Hlen : length h1 = length h + length vs).
  { unfold h1. by rewrite length_app, !length_fmap. }
  destruct use_n1.
  - destruct vs as [|v vs].
    + cbn [length seq fmap list_fmap named_first]. unfold ret, alloc.
      rewrite Hlen. unfold h1. cbn [length fmap list_fmap].
      by rewrite <- app_assoc.
    + cbn [length seq fmap list_fmap]. unfold bind at 1. unfold read at 1.
      assert (H0 : h1 !! length h = Some (DimensionObject (dim_of_value v))).
      { unfold h1. rewrite lookup_app_r by lia. by rewrite Nat.sub_diag. }
      rewrite H0.
      destruct (dim_of_value v) eqn:Ev.
      * unfold store, alloc. rewrite length_insert, Hlen.
        f_equal. f_equal. unfold h1. rewrite fmap_cons, Ev.
        rewrite insert_app_r_alt by lia. rewrite Nat.sub_diag.
        cbn [named_first fmap list_fmap]. by rewrite <- app_assoc.
      * unfold ret, alloc. rewrite Hlen. unfold h1.
        rewrite fmap_cons, Ev. cbn [named_first]. by rewrite <- app_assoc.
      * unfold ret, alloc. rewrite Hlen. unfold h1.
        rewrite fmap_cons, Ev. cbn [named_first]. by rewrite <- app_assoc.
      * unfold ret, alloc. rewrite Hlen. unfold h1.
        rewrite fmap_cons, Ev. cbn [named_first]. by rewrite <- app_assoc.
  - unfold ret, alloc. rewrite Hlen. unfold h1.
    replace (named_first false (dim_of_value <$> vs)) with (dim_of_value <$> vs).
    + by rewrite <- app_assoc.
    + unfold named_first. by destruct (dim_of_value <$> vs) as [|[| | |] ?].
Qed.

(** * Further properties of the kernels *)

(** ** LabelEncoder: the table *)









(** ** LabelEncoder: the constructor and the element type of the output *)

Lemma dict_set_values (Q : scalar -> Prop) d k v :
  Forall (fun kv => Q kv.2) d -> Q v ->
  Forall (fun kv => Q kv.2) (dict_set d k v).
Proof.
  intros Hd Hv. induction Hd as [|[k' v'] d Hkv Hd IH]; simpl.
  - by constructor.
  - destruct (scalar_eqb k' k); constructor; auto.
Qed.

Lemma dict_of_zip_values (Q : scalar -> Prop) keys values :
  Forall Q values -> Forall (fun kv => Q kv.2) (dict_of_zip keys values).
Proof.
  intros Hv. unfold dict_of_zip.
  assert (Hz : Forall (fun kv => Q kv.2) (zip keys values)).
  { revert keys. induction Hv as [|v values Hq _ IH]; intros [|k keys]; simpl;
      try constructor; auto. }
  assert (Hd : Forall (fun kv : scalar * scalar => Q kv.2) []) by constructor.
  revert Hd. generalize (@nil (scalar * scalar)) as d.
  induction Hz as [|[k v] kvs Hkv _ IH]; intros d Hd; simpl; [done|].
  apply IH. by apply dict_set_values.
Qed.

Lemma dict_get_values (Q : scalar -> Prop) d x def :
  Forall (fun kv => Q kv.2) d -> Q def -> Q (dict_get d x def).
Proof.
  intros Hd Hdef. induction Hd as [|[k v] d Hkv _ IH]; simpl; [done|].
  by destruct (scalar_eqb k x).
Qed.

(** X23: the constructor of the LabelEncoder raises RuntimeError exactly
    when the three lists of keys are empty, whatever the values and
    [classes_strings] are. When it returns, every element of every output
    of [_run] has the element type [dtype_] the constructor chose, whatever
    the type of the input elements: the table values and the default are
    all of that type. *)
Theorem X23_label_encoder_output_type atts has_classes_strings :
  (LabelEncoder__init__ atts has_classes_strings = Raise RuntimeError <->
   keys_floats atts = [] /\ keys_int64s atts = [] /\ keys_strings atts = []) /\
  (forall e, LabelEncoder__init__ atts has_classes_strings = Raise e ->
     e = RuntimeError) /\
  (forall self x,
     LabelEncoder__init__ atts has_classes_strings = Ok self ->
     Forall (fun y => scalar_kind y = dtype_ self) (LabelEncoder_run self x)).
Proof.
  unfold LabelEncoder__init__.
  destruct (keys_floats atts) as [|kf kfs] eqn:Ef;
    [destruct (keys_int64s atts) as [|ki kis] eqn:Ei;
      [destruct (keys_strings atts) as [|ks kss] eqn:Es|]|].
  - cbn [length]. rewrite !bool_decide_eq_false_2 by lia.
    split_and!.
    + by destruct has_classes_strings.
    + intros e. destruct has_classes_strings; by intros [= <-].
    + intros self x. by destruct has_classes_strings.
  - cbn [length]. rewrite !(bool_decide_eq_false_2 (0 < 0)) by lia.
    rewrite bool_decide_eq_true_2 by lia. split_and!.
    + split; [discriminate|]. by intros (_ & _ & ?).
    + discriminate.
    + intros self x [= <-]. unfold LabelEncoder_run. cbn [classes_ default_ dtype_].
      apply Forall_fmap, Forall_forall. intros xi _. simpl.
      apply (dict_get_values (fun y => scalar_kind y = "str")); [|done].
      apply (dict_of_zip_values (fun y => scalar_kind y = "str")).
      apply Forall_fmap, Forall_forall. done.
  - cbn [length]. rewrite !(bool_decide_eq_false_2 (0 < 0)) by lia.
    rewrite bool_decide_eq_true_2 by lia. split_and!.
    + split; [discriminate|]. by intros (_ & ? & _).
    + discriminate.
    + intros self x [= <-]. unfold LabelEncoder_run. cbn [classes_ default_ dtype_].
      apply Forall_fmap, Forall_forall. intros xi _. simpl.
      apply (dict_get_values (fun y => scalar_kind y = "int64")); [|done].
      apply (dict_of_zip_values (fun y => scalar_kind y = "int64")).
      apply Forall_fmap, Forall_forall. done.
  - cbn [length]. rewrite bool_decide_eq_true_2 by lia. split_and!.
    + split; [discriminate|]. by intros (? & _ & _).
    + discriminate.
    + intros self x [= <-]. unfold LabelEncoder_run. cbn [classes_ default_ dtype_].
      apply Forall_fmap, Forall_forall. intros xi _. simpl.
      apply (dict_get_values (fun y => scalar_kind y = "float32")); [|done].
      apply (dict_of_zip_values (fun y => scalar_kind y = "float32")).
      apply Forall_fmap, Forall_forall. done.
Qed.

(** ** LinearRegressor *)









